(** * Context-window budgeting and overflow spill-over of HolmesGPT

    A shallow embedding of
      - [holmes/core/conversations.py]
      - [holmes/core/tools_utils/tool_context_window_limiter.py]
      - [holmes/core/tools_utils/filesystem_result_storage.py]
      - [holmes/core/prompt.py]
    and the properties of the budgeting, truncation and spill-over code.

    Python values are modelled as follows.
      - [int] is [Z] (unbounded).
      - [str] is a list of Unicode code points, [list N]; [len] is [length].
      - a [dict] with the fixed keys of a chat message is a record; the
        mutable dicts and lists that the code shares by reference live in a
        store ([World]) and are named by their address.
      - [None] is [None] of an [option]. *)

From Stdlib Require Import ZArith NArith String Ascii DecimalString.
From stdpp Require Import base tactics option numbers list.

Local Open Scope Z_scope.

(** ** Python strings and slices *)

Abbreviation pystr := (list N).

(** The code points of an ASCII literal of the source. *)
Definition py (s : string) : pystr :=
  (fun a => N_of_ascii a) <$> list_ascii_of_string s.
Arguments py s%_string.

(** [str(i)] and [f"{i}"] for an [int]. *)
Definition str_of_int (i : Z) : pystr :=
  py (NilZero.string_of_int (Z.to_int i)).

(** [s[:k]] for a sequence and an [int]: a negative bound counts from the
    end, and every bound is clipped to [0 .. len(s)]. *)
Definition py_slice_to {A} (k : Z) (s : list A) : list A :=
  if 0 <=? k then take (Z.to_nat k) s
  else take (length s - Z.to_nat (- k)) s.

(** ** Chat messages ([Dict[str, Any]] in OpenAI format) *)

(** One item of a structured (vision) content list, as
    [build_vision_content] produces them. *)
Inductive ContentPart :=
  | PartText (text : pystr)
  | PartImageUrl (url : pystr) (detail format : option pystr).

(** [message["content"]]: a [str], or a list of content parts. *)
Inductive Content :=
  | CText (s : pystr)
  | CParts (parts : list ContentPart).

(** [content[:k]] slices a string by characters and a list by items. *)
Definition content_slice_to (k : Z) (c : Content) : Content :=
  match c with
  | CText s => CText (py_slice_to k s)
  | CParts l => CParts (py_slice_to k l)
  end.

Definition content_len (c : Content) : nat :=
  match c with
  | CText s => length s
  | CParts l => length l
  end.

(** A message in OpenAI format: every message carries a ["role"] and a
    ["content"]; the remaining keys ([tool_call_id], [name], ...) are kept
    as an association list. *)
Record Message := mkMessage {
  role : pystr;
  content : Content;
  other_keys : list (pystr * pystr)
}.

(** [message["content"] = c] *)
Definition set_content (c : Content) (m : Message) : Message :=
  {| role := role m; content := c; other_keys := other_keys m |}.

(** [{"role": r, "content": c}] *)
Definition new_message (r : pystr) (c : Content) : Message :=
  {| role := r; content := c; other_keys := [] |}.

Definition is_tool (m : Message) : bool := bool_decide (role m = py "tool").
Definition is_system (m : Message) : bool := bool_decide (role m = py "system").

(** ** The token accountant ([ai.llm]) *)

(** The methods of [LLM] that the budgeting code calls.  [count_tokens]
    stands for [llm.count_tokens(messages).total_tokens]. *)
Record LLM := mkLLM {
  get_context_window_size : Z;
  count_tokens : list Message -> Z;
  get_maximum_output_token : Z;
  get_max_token_count_for_single_tool : Z
}.

(** A call made to the accountant, recorded in the order of the calls. *)
Inductive LLMCall :=
  | CallGetContextWindowSize
  | CallCountTokens (messages : list Message)
  | CallGetMaximumOutputToken
  | CallGetMaxTokenCountForSingleTool.

(** ** Tool results of an investigation ([ToolCallConversationResult]) *)

Record ToolCallConversationResult := mkToolCallConversationResult {
  name : pystr;
  description : pystr;
  output : pystr
}.

(** ** The store of shared Python objects *)

(** Addresses are indices: an object is allocated at the end of its table
    and never moves. *)
Abbreviation loc := nat.

Record World := mkWorld {
  dicts : list Message;                       (* message dicts *)
  tool_objs : list ToolCallConversationResult; (* tool result objects *)
  lists : list (list loc);                     (* list objects, holding references *)
  llm_calls : list LLMCall                     (* calls made to the accountant *)
}.

Definition with_dicts (d : list Message) (w : World) : World :=
  {| dicts := d; tool_objs := tool_objs w; lists := lists w; llm_calls := llm_calls w |}.
Definition with_tool_objs (t : list ToolCallConversationResult) (w : World) : World :=
  {| dicts := dicts w; tool_objs := t; lists := lists w; llm_calls := llm_calls w |}.
Definition with_lists (l : list (list loc)) (w : World) : World :=
  {| dicts := dicts w; tool_objs := tool_objs w; lists := l; llm_calls := llm_calls w |}.
Definition with_llm_calls (c : list LLMCall) (w : World) : World :=
  {| dicts := dicts w; tool_objs := tool_objs w; lists := lists w; llm_calls := c |}.

(** A computation over the store.  [None] is a dereference of an address
    that holds no object, which no Python program can do. *)
Definition M (A : Type) : Type := World -> option (A * World).

Definition ret {A} (a : A) : M A := fun w => Some (a, w).

Definition bind {A B} (m : M A) (k : A -> M B) : M B :=
  fun w => match m w with
           | Some (a, w') => k a w'
           | None => None
           end.

Notation "x <- m ;; k" := (bind m (fun x => k))
  (at level 100, m at next level, right associativity).
Notation "m ;;; k" := (bind m (fun _ => k))
  (at level 100, right associativity).

Definition get_dict (l : loc) : M Message :=
  fun w => (fun m => (m, w)) <$> dicts w !! l.

Definition set_dict (l : loc) (m : Message) : M unit :=
  fun w => match dicts w !! l with
           | Some _ => Some (tt, with_dicts (<[l := m]> (dicts w)) w)
           | None => None
           end.

Definition new_dict (m : Message) : M loc :=
  fun w => Some (length (dicts w), with_dicts (dicts w ++ [m]) w).

Definition get_tool (l : loc) : M ToolCallConversationResult :=
  fun w => (fun t => (t, w)) <$> tool_objs w !! l.

Definition new_tool (t : ToolCallConversationResult) : M loc :=
  fun w => Some (length (tool_objs w), with_tool_objs (tool_objs w ++ [t]) w).

Definition get_list (r : loc) : M (list loc) :=
  fun w => (fun l => (l, w)) <$> lists w !! r.

Definition set_list (r : loc) (l : list loc) : M unit :=
  fun w => match lists w !! r with
           | Some _ => Some (tt, with_lists (<[r := l]> (lists w)) w)
           | None => None
           end.

Definition new_list (l : list loc) : M loc :=
  fun w => Some (length (lists w), with_lists (lists w ++ [l]) w).

Definition call_llm (c : LLMCall) : M unit :=
  fun w => Some (tt, with_llm_calls (llm_calls w ++ [c]) w).

(** [for x in xs: body(x)] *)
Fixpoint for_each {A} (xs : list A) (body : A -> M unit) : M unit :=
  match xs with
  | [] => ret tt
  | x :: xs' => body x ;;; for_each xs' body
  end.

(** [[f(x) for x in xs]] *)
Fixpoint comprehension {A B} (xs : list A) (f : A -> M B) : M (list B) :=
  match xs with
  | [] => ret []
  | x :: xs' => y <- f x ;; ys <- comprehension xs' f ;; ret (y :: ys)
  end.

(** The message dicts a list of references points to, in order. *)
Definition deref_all (refs : list loc) : M (list Message) :=
  comprehension refs get_dict.

(** ** [holmes/core/conversations.py] *)

Definition DEFAULT_TOOL_SIZE : Z := 10000.

(** [calculate_tool_size(ai, messages_without_tools, number_of_tools)].
    The messages are only read, so the function takes their values.
    [int(a / n)] divides as floating point and truncates toward zero, which
    is [Z.quot] for operands below 2^53 in size. *)
Definition calculate_tool_size (ai : LLM) (messages_without_tools : list Message)
    (number_of_tools : Z) : M Z :=
  if number_of_tools =? 0 then ret DEFAULT_TOOL_SIZE
  else
    call_llm CallGetContextWindowSize ;;;
    let context_window := get_context_window_size ai in
    call_llm (CallCountTokens messages_without_tools) ;;;
    let message_size_without_tools := count_tokens ai messages_without_tools in
    call_llm CallGetMaximumOutputToken ;;;
    let maximum_output_token := get_maximum_output_token ai in
    let tool_size :=
      Z.min DEFAULT_TOOL_SIZE
        ((context_window - message_size_without_tools - maximum_output_token)
           ÷ number_of_tools) in
    ret tool_size.

(** [truncate_tool_outputs(tools, tool_size)]: a new list of new objects. *)
Definition truncate_tool_outputs (tools : loc) (tool_size : Z) : M loc :=
  refs <- get_list tools ;;
  new_refs <- comprehension refs (fun r =>
    tool <- get_tool r ;;
    new_tool {| name := name tool;
                description := description tool;
                output := py_slice_to tool_size (output tool) |}) ;;
  new_list new_refs.

(** [truncate_tool_messages(conversation_history, tool_size)] *)
Definition truncate_tool_messages (conversation_history : loc) (tool_size : Z) : M unit :=
  refs <- get_list conversation_history ;;
  for_each refs (fun l =>
    message <- get_dict l ;;
    if is_tool message
    then set_dict l (set_content (content_slice_to tool_size (content message)) message)
    else ret tt).

(** [add_or_update_system_prompt(conversation_history, system_prompt)]:
    mutates the list object and its first dict in place, returns the list. *)
Definition add_or_update_system_prompt (conversation_history : loc)
    (system_prompt : option pystr) : M loc :=
  match system_prompt with
  | None => ret conversation_history
  | Some prompt =>
    refs <- get_list conversation_history ;;
    match refs with
    | [] =>
      l <- new_dict (new_message (py "system") (CText prompt)) ;;
      set_list conversation_history (refs ++ [l])
    | l0 :: _ =>
      first <- get_dict l0 ;;
      if is_system first
      then set_dict l0 (set_content (CText prompt) first)
      else
        messages <- deref_all refs ;;
        let existing_system_prompt := find is_system messages in
        match existing_system_prompt with
        | Some _ => ret tt
        | None =>
          l <- new_dict (new_message (py "system") (CText prompt)) ;;
          set_list conversation_history (l :: refs)
        end
    end ;;;
    ret conversation_history
  end.

(** [build_chat_messages(ask, conversation_history, ai, ...)].
    [build_prompts ask] stands for the call of [build_prompts] with the
    remaining arguments of the caller: it returns the optional system
    prompt and the content of the user turn and touches no shared object.
    The two list comprehensions build lists that are only read, so they
    are values here. *)
Definition build_chat_messages (build_prompts : pystr -> option pystr * Content)
    (ask : pystr) (conversation_history : option loc) (ai : LLM) : M loc :=
  let '(system_prompt, user_content) := build_prompts ask in
  conversation_history <-
    match conversation_history with
    | None => new_list []
    | Some h =>
      refs <- get_list h ;;
      match refs with
      | [] => new_list []
      | _ => new_list refs                      (* conversation_history.copy() *)
      end
    end ;;
  conversation_history <-
    add_or_update_system_prompt conversation_history system_prompt ;;
  l <- new_dict (new_message (py "user") user_content) ;;
  refs <- get_list conversation_history ;;
  set_list conversation_history (refs ++ [l]) ;;;
  refs <- get_list conversation_history ;;
  messages <- deref_all refs ;;
  let number_of_tools := Z.of_nat (length (filter (fun m => is_tool m = true) messages)) in
  if number_of_tools =? 0 then ret conversation_history
  else
    let conversation_history_without_tools :=
      filter (fun m => is_tool m = false) messages in
    tool_size <- calculate_tool_size ai conversation_history_without_tools number_of_tools ;;
    truncate_tool_messages conversation_history tool_size ;;;
    ret conversation_history.

(** [[m for m in refs if p(m)]] on a list of dict references: the
    references of the messages that satisfy [p], in order. *)
Fixpoint refs_where (p : Message -> bool) (refs : list loc) : M (list loc) :=
  match refs with
  | [] => ret []
  | l :: refs' =>
    m <- get_dict l ;;
    rest <- refs_where p refs' ;;
    ret (if p m then l :: rest else rest)
  end.

(** The tool results a list object holds, as the template reads them. *)
Definition read_tools (tools : loc) : M (list ToolCallConversationResult) :=
  refs <- get_list tools ;;
  comprehension refs get_tool.

(** [build_issue_chat_messages(issue_chat_request, ai, config, ...)].
    [conversation_history], [ask] and [tools_for_investigation] are the
    fields of the request.  [render tools] stands for
    [load_and_render_prompt(template_path, context)] where the context
    holds [tools] under ["tools_called_for_investigation"] and the other
    entries are those of the request, and [generate_user_prompt ask] for
    the call with the runbook context of the request.  The two-message
    list that is only measured is a value; what is returned is allocated.
    [list[0]] on a list that holds the new user turn cannot fail. *)
Definition build_issue_chat_messages
    (render : option (list ToolCallConversationResult) -> pystr)
    (generate_user_prompt : pystr -> pystr)
    (conversation_history : option loc) (ask : pystr)
    (tools_for_investigation : loc) (ai : LLM) : M loc :=
  let new_conversation : M loc :=
    let user_prompt := generate_user_prompt ask in
    tool_refs <- get_list tools_for_investigation ;;
    let number_of_tools_for_investigation := Z.of_nat (length tool_refs) in
    if number_of_tools_for_investigation =? 0 then
      tools <- read_tools tools_for_investigation ;;
      let system_prompt := render (Some tools) in
      s <- new_dict (new_message (py "system") (CText system_prompt)) ;;
      u <- new_dict (new_message (py "user") (CText user_prompt)) ;;
      new_list [s; u]
    else
      let system_prompt_without_tools := render None in
      let messages_without_tools :=
        [new_message (py "system") (CText system_prompt_without_tools);
         new_message (py "user") (CText user_prompt)] in
      tool_size <-
        calculate_tool_size ai messages_without_tools number_of_tools_for_investigation ;;
      truncated <- truncate_tool_outputs tools_for_investigation tool_size ;;
      tools <- read_tools truncated ;;
      let system_prompt_with_truncated_tools := render (Some tools) in
      s <- new_dict (new_message (py "system") (CText system_prompt_with_truncated_tools)) ;;
      u <- new_dict (new_message (py "user") (CText user_prompt)) ;;
      new_list [s; u] in
  let follow_up (conversation_history : loc) : M loc :=
    let user_prompt := generate_user_prompt ask in
    u <- new_dict (new_message (py "user") (CText user_prompt)) ;;
    refs <- get_list conversation_history ;;
    set_list conversation_history (refs ++ [u]) ;;;
    tool_refs <- get_list tools_for_investigation ;;
    refs <- get_list conversation_history ;;
    tool_messages <- refs_where is_tool refs ;;
    let number_of_tools :=
      Z.of_nat (length tool_refs) + Z.of_nat (length tool_messages) in
    if number_of_tools =? 0 then ret conversation_history
    else
      conversation_history_without_tools <- refs_where (fun m => negb (is_tool m)) refs ;;
      let system_prompt_without_tools := render None in
      match conversation_history_without_tools with
      | [] => fun _ => None
      | first :: _ =>
        m <- get_dict first ;;
        set_dict first (set_content (CText system_prompt_without_tools) m)
      end ;;;
      messages_without_tools <- deref_all conversation_history_without_tools ;;
      tool_size <- calculate_tool_size ai messages_without_tools number_of_tools ;;
      truncated <- truncate_tool_outputs tools_for_investigation tool_size ;;
      tools <- read_tools truncated ;;
      let system_prompt_with_truncated_tools := render (Some tools) in
      match refs with
      | [] => fun _ => None
      | first :: _ =>
        m <- get_dict first ;;
        set_dict first (set_content (CText system_prompt_with_truncated_tools) m)
      end ;;;
      truncate_tool_messages conversation_history tool_size ;;;
      ret conversation_history in
  match conversation_history with
  | None => new_conversation
  | Some h =>
    refs <- get_list h ;;
    match refs with
    | [] => new_conversation
    | _ :: _ => follow_up h
    end
  end.

(** ** The operating system and the Python runtime *)

(** A [pathlib.Path]: its components; [p / c] appends one. *)
Abbreviation Path := (list pystr).

(** An exception that is an instance of [Exception], with [str(e)]. *)
Inductive Exn := Exception (msg : pystr).

Definition exn_str (e : Exn) : pystr := match e with Exception m => m end.

(** What the storage code needs from the file system and from Python's
    Unicode tables.  An operation returns the file system it leaves
    behind and the exception it raised, if any. *)
Record Runtime := mkRuntime {
  FS : Type;
  path_exists : FS -> Path -> bool;                       (* Path.exists *)
  path_str : Path -> pystr;                               (* str(path) *)
  mkdir_parents : Path -> FS -> FS * option Exn;          (* mkdir(parents=True, exist_ok=True) *)
  rmtree : Path -> FS -> FS * option Exn;                 (* shutil.rmtree *)
  write_text : Path -> pystr -> FS -> FS * option Exn;    (* Path.write_text *)
  unicode_isalnum : N -> bool                             (* str.isalnum above U+00FF *)
}.

(** The contract of [shutil.rmtree]: when it returns normally, nothing at
    or below the path is left. *)
Class RuntimeLaws (os : Runtime) : Prop := {
  rmtree_removes : forall p fs fs',
    rmtree os p fs = (fs', None) ->
    forall q, p `prefix_of` q -> path_exists os fs' q = false
}.

Inductive LogLevel := DEBUG | INFO | WARNING.

(** ** Tool call results ([holmes.core.models], [holmes.core.tools]) *)

(** Modelled from the spec: [StructuredToolResultStatus], declared in
    [holmes/core/tools.py]; the data model lists [SUCCESS|ERROR]. *)
Inductive StructuredToolResultStatus := SUCCESS | ERROR.

#[global] Instance StructuredToolResultStatus_eq_dec :
  EqDecision StructuredToolResultStatus.
Proof. solve_decision. Defined.

(** [result.data]: text, or a structured (JSON-like) value. *)
#[warnings="-register-all"]
Inductive PyData :=
  | DStr (s : pystr)
  | DInt (i : Z)
  | DBool (b : bool)
  | DList (items : list PyData)
  | DDict (items : list (pystr * PyData)).

(** Modelled from the spec: the fields of [StructuredToolResult] that the
    overflow policy reads and writes ([status], [data], [error]). *)
Record StructuredToolResult := mkStructuredToolResult {
  status : StructuredToolResultStatus;
  data : option PyData;
  error : option pystr
}.

(** Modelled from the spec: the fields of [ToolCallResult] that the
    overflow policy reads. *)
Record ToolCallResult := mkToolCallResult {
  tool_call_id : pystr;
  tool_name : pystr;
  result : StructuredToolResult
}.

(** The methods of a tool call result that the policy calls:
    [tool_call_result.as_tool_call_message()] and
    [result.stringify_data(compact=False)], which returns the text and
    whether it is JSON. *)
Record ToolResultMethods := mkToolResultMethods {
  as_tool_call_message : ToolCallResult -> Message;
  stringify_data : StructuredToolResult -> pystr * bool
}.

(** A report of [sentry_helper.capture_toolcall_contains_too_many_tokens]. *)
Record SentryEvent := mkSentryEvent {
  sentry_tool_call_result : ToolCallResult;
  sentry_tokens : Z;
  sentry_max_tokens : Z
}.

(** The world of the storage code: the file system, the log, the reports
    sent, and the value of the environment switch
    [load_bool("HOLMES_TOOL_RESULT_STORAGE_ENABLED", True)]. *)
Record Env (os : Runtime) := mkEnv {
  fs : FS os;
  log : list (LogLevel * pystr);
  sentry : list SentryEvent;
  HOLMES_TOOL_RESULT_STORAGE_ENABLED : bool
}.
Arguments mkEnv {os}.
Arguments fs {os}.
Arguments log {os}.
Arguments sentry {os}.
Arguments HOLMES_TOOL_RESULT_STORAGE_ENABLED {os}.

Definition with_fs {os} (f : FS os) (e : Env os) : Env os :=
  mkEnv f (log e) (sentry e) (HOLMES_TOOL_RESULT_STORAGE_ENABLED e).
Definition logging {os} (lvl : LogLevel) (msg : pystr) (e : Env os) : Env os :=
  mkEnv (fs e) (log e ++ [(lvl, msg)]) (sentry e) (HOLMES_TOOL_RESULT_STORAGE_ENABLED e).
Definition capture {os} (ev : SentryEvent) (e : Env os) : Env os :=
  mkEnv (fs e) (log e) (sentry e ++ [ev]) (HOLMES_TOOL_RESULT_STORAGE_ENABLED e).

(** ** [holmes/core/tools_utils/filesystem_result_storage.py] *)

(** [with tool_result_storage() as tool_results_dir: body(tool_results_dir)].
    [base] is [Path(HOLMES_TOOL_RESULT_STORAGE_PATH)], [chat_id] the value
    [str(uuid.uuid4())] draws.  The body returns a value or raises; the
    [finally] block runs either way and the body's outcome is what the
    statement produces.  When [mkdir] raises, the scope is never entered. *)
Definition tool_result_storage {os A} (base : Path) (chat_id : pystr)
    (body : Path -> Env os -> (A + Exn) * Env os) (env : Env os)
    : (A + Exn) * Env os :=
  let tool_results_dir := base ++ [chat_id] ++ [py "tool_results"] in
  match mkdir_parents os tool_results_dir (fs env) with
  | (fs1, Some e) => (inr e, with_fs fs1 env)
  | (fs1, None) =>
    let '(outcome, env2) := body tool_results_dir (with_fs fs1 env) in
    let chat_root := base ++ [chat_id] in
    match rmtree os chat_root (fs env2) with
    | (fs3, None) =>
      (outcome,
       logging DEBUG (py "Cleaned up tool result storage: " ++ path_str os chat_root)
         (with_fs fs3 env2))
    | (fs3, Some e) =>
      (outcome,
       logging WARNING
         (py "Failed to cleanup tool result storage " ++ path_str os chat_root
            ++ py ": " ++ exn_str e)
         (with_fs fs3 env2))
    end
  end.

Local Open Scope N_scope.

Definition ascii_isalnum (c : N) : bool :=
  (48 <=? c) && (c <=? 57) || (65 <=? c) && (c <=? 90) || (97 <=? c) && (c <=? 122).

(** The alphanumeric code points of U+0080..U+00FF. *)
Definition latin1_isalnum (c : N) : bool :=
  (c =? 170) || (c =? 178) || (c =? 179) || (c =? 181) || (c =? 185) || (c =? 186)
  || (188 <=? c) && (c <=? 190)
  || (192 <=? c) && (c <=? 255) && negb (c =? 215) && negb (c =? 247).

(** [\w] of a [str] pattern matches the Unicode alphanumerics and the
    underscore; [uni] decides the code points above U+00FF. *)
Definition re_word (uni : N -> bool) (c : N) : bool :=
  (if c <? 128 then ascii_isalnum c
   else if c <? 256 then latin1_isalnum c
   else uni c)
  || (c =? 95).

(** [re.sub(r"[^\w\-]", "_", s)] *)
Definition sub_non_word (uni : N -> bool) (s : pystr) : pystr :=
  (fun c => if re_word uni c || (c =? 45) then c else 95) <$> s.

Local Close Scope N_scope.

(** [f"{safe_name}_{safe_id}{extension}"] of [save_large_result]. *)
Definition result_file_name (uni : N -> bool) (tool_name tool_call_id : pystr)
    (is_json : bool) : pystr :=
  let safe_name := sub_non_word uni tool_name in
  let safe_id := sub_non_word uni tool_call_id in
  let extension := if is_json then py ".json" else py ".txt" in
  safe_name ++ py "_" ++ safe_id ++ extension.

(** [save_large_result(tool_results_dir, tool_name, tool_call_id, content, is_json)] *)
Definition save_large_result {os} (tool_results_dir : Path)
    (tool_name tool_call_id content : pystr) (is_json : bool) (env : Env os)
    : option pystr * Env os :=
  let file_path :=
    tool_results_dir ++ [result_file_name (unicode_isalnum os) tool_name tool_call_id is_json] in
  match write_text os file_path content (fs env) with
  | (fs1, None) =>
    (Some (path_str os file_path),
     logging INFO (py "Saved large tool result to filesystem: " ++ path_str os file_path)
       (with_fs fs1 env))
  | (fs1, Some e) =>
    (None,
     logging WARNING (py "Failed to save tool result to filesystem: " ++ exn_str e)
       (with_fs fs1 env))
  end.

(** ** [holmes/core/tools_utils/tool_context_window_limiter.py] *)

(** [size_info] of [prevent_overly_big_tool_response] *)
Definition size_info (messages_token max_tokens_allowed : Z) : pystr :=
  py "The tool call result is too large to return: " ++ str_of_int messages_token
    ++ py "/" ++ str_of_int max_tokens_allowed ++ py " tokens." ++ [10%N].

(** [boilerplate] of [prevent_overly_big_tool_response] *)
Definition boilerplate (size_info file_path : pystr) : pystr :=
  size_info ++ [10%N]
    ++ py "Saved to: " ++ file_path ++ [10%N]
    ++ py "Use the bash commands to access the data that won't require prompting the user for approval (e.g. cat, grep, head, tail, jq)."
    ++ [10%N]
    ++ [10%N] ++ py "Preview:" ++ [10%N].

(** [preview_budget]: [chars_per_token / 2] is the float [2.0], and the
    product and difference are whole numbers, so the value is computed
    here in [Z]. *)
Definition preview_budget (max_tokens_allowed : Z) (boilerplate : pystr) : Z :=
  let chars_per_token := 4 in
  let safety_margin_chars_per_token := chars_per_token / 2 in
  let max_chars := max_tokens_allowed * safety_margin_chars_per_token in
  Z.max 0 (max_chars - Z.of_nat (length boilerplate)).

(** The error text of the drop path. *)
Definition too_large_error (size_info : pystr) : pystr :=
  size_info ++ [10%N]
    ++ py "Try to repeat the query but proactively narrow down the result "
    ++ py "so that the tool answer fits within the allowed number of tokens.".

Definition set_result (r : StructuredToolResult) (t : ToolCallResult) : ToolCallResult :=
  {| tool_call_id := tool_call_id t; tool_name := tool_name t; result := r |}.

(** [prevent_overly_big_tool_response(tool_call_result, llm, tool_results_dir)]:
    returns the token count and leaves the tool call result as returned
    in second place. *)
Definition prevent_overly_big_tool_response {os} (meth : ToolResultMethods)
    (tool_call_result : ToolCallResult) (llm : LLM) (tool_results_dir : option Path)
    (env : Env os) : (Z * ToolCallResult) * Env os :=
  let message := as_tool_call_message meth tool_call_result in
  let messages_token := count_tokens llm [message] in
  let max_tokens_allowed := get_max_token_count_for_single_tool llm in
  if negb (bool_decide (status (result tool_call_result) = SUCCESS))
  then ((messages_token, tool_call_result), env)
  else if messages_token <=? max_tokens_allowed
  then ((messages_token, tool_call_result), env)
  else
    let size_info := size_info messages_token max_tokens_allowed in
    (* try filesystem storage if a directory is provided and storage is enabled *)
    let '(file_path, filesystem_data, env1) :=
      match tool_results_dir with
      | Some dir =>
        if HOLMES_TOOL_RESULT_STORAGE_ENABLED env then
          let '(filesystem_data, is_json) := stringify_data meth (result tool_call_result) in
          let '(file_path, env1) :=
            save_large_result dir (tool_name tool_call_result)
              (tool_call_id tool_call_result) filesystem_data is_json env in
          (file_path, filesystem_data, env1)
        else (None, [], env)
      | None => (None, [], env)
      end in
    match file_path with
    | Some (c :: p) =>
      let file_path := c :: p in
      let boilerplate := boilerplate size_info file_path in
      let preview_budget := preview_budget max_tokens_allowed boilerplate in
      let preview := py_slice_to preview_budget filesystem_data in
      let r := result tool_call_result in
      let tool_call_result' :=
        set_result {| status := status r;
                      data := Some (DStr (boilerplate ++ preview));
                      error := error r |} tool_call_result in
      ((messages_token, tool_call_result'),
       logging INFO
         (py "Large tool result (" ++ str_of_int messages_token
            ++ py " tokens) saved to " ++ file_path)
         env1)
    | _ =>
      let tool_call_result' :=
        set_result {| status := ERROR;
                      data := None;
                      error := Some (too_large_error size_info) |} tool_call_result in
      ((messages_token, tool_call_result'),
       capture {| sentry_tool_call_result := tool_call_result';
                  sentry_tokens := messages_token;
                  sentry_max_tokens := max_tokens_allowed |} env1)
    end.

(** ** [holmes/core/prompt.py] *)

(** A [Dict[str, Any]] with string values, as an image description is:
    the items in insertion order; the keys of a dict are distinct. *)
Fixpoint dict_get (k : pystr) (d : list (pystr * pystr)) : option pystr :=
  match d with
  | [] => None
  | (k', v) :: d' => if bool_decide (k' = k) then Some v else dict_get k d'
  end.

(** [list(d.keys())] *)
Definition dict_keys (d : list (pystr * pystr)) : list pystr := fst <$> d.

(** An item of [images]: a URL string, or a dict. *)
Inductive ImageItem :=
  | ImageStr (url : pystr)
  | ImageDict (d : list (pystr * pystr)).

(** [InvalidImageDictError(provided_keys)] *)
Inductive InvalidImageDictError := mkInvalidImageDictError (provided_keys : list pystr).

(** The loop of [build_vision_content] on the content built so far. *)
Fixpoint append_images (content : list ContentPart) (images : list ImageItem)
    : list ContentPart + InvalidImageDictError :=
  match images with
  | [] => inl content
  | ImageStr url :: images' =>
    append_images (content ++ [PartImageUrl url None None]) images'
  | ImageDict d :: images' =>
    match dict_get (py "url") d with
    | None => inr (mkInvalidImageDictError (dict_keys d))
    | Some url =>
      append_images
        (content ++ [PartImageUrl url (dict_get (py "detail") d) (dict_get (py "format") d)])
        images'
    end
  end.

(** [build_vision_content(text, images)]: the content list, or the
    exception raised. *)
Definition build_vision_content (text : pystr) (images : list ImageItem)
    : list ContentPart + InvalidImageDictError :=
  append_images [PartText text] images.

(** [PromptComponent] and its [value]. *)
Inductive PromptComponent :=
  | FILES | TODOWRITE_REMINDER | TIME_RUNBOOKS
  | INTRO | ASK_USER | TODOWRITE_INSTRUCTIONS | AI_SAFETY | TOOLSET_INSTRUCTIONS
  | PERMISSION_ERRORS | GENERAL_INSTRUCTIONS | STYLE_GUIDE | CLUSTER_NAME
  | SYSTEM_PROMPT_ADDITIONS.

#[global] Instance PromptComponent_eq_dec : EqDecision PromptComponent.
Proof. solve_decision. Defined.

Definition component_value (c : PromptComponent) : pystr :=
  match c with
  | FILES => py "files"
  | TODOWRITE_REMINDER => py "todowrite_reminder"
  | TIME_RUNBOOKS => py "time_runbooks"
  | INTRO => py "intro"
  | ASK_USER => py "ask_user"
  | TODOWRITE_INSTRUCTIONS => py "todowrite_instructions"
  | AI_SAFETY => py "ai_safety"
  | TOOLSET_INSTRUCTIONS => py "toolset_instructions"
  | PERMISSION_ERRORS => py "permission_errors"
  | GENERAL_INSTRUCTIONS => py "general_instructions"
  | STYLE_GUIDE => py "style_guide"
  | CLUSTER_NAME => py "cluster_name"
  | SYSTEM_PROMPT_ADDITIONS => py "system_prompt_additions"
  end.

(** [s.split(",")]: the pieces between the commas, empty ones included. *)
Fixpoint split_commas (piece s : pystr) : list pystr :=
  match s with
  | [] => [piece]
  | c :: s' =>
    if (c =? 44)%N then piece :: split_commas [] s'
    else split_commas (piece ++ [c]) s'
  end.

(** The [str] methods of the Python runtime that the prompt code calls. *)
Record StrMethods := mkStrMethods {
  str_lower : pystr -> pystr;   (* s.lower() *)
  str_strip : pystr -> pystr    (* s.strip() *)
}.

(** [is_prompt_allowed_by_env(component)], where [enabled_prompts] is
    [os.environ.get("ENABLED_PROMPTS", "")]. *)
Definition is_prompt_allowed_by_env (str : StrMethods) (enabled_prompts : pystr)
    (component : PromptComponent) : bool :=
  match enabled_prompts with
  | [] => true
  | _ :: _ =>
    if bool_decide (str_lower str enabled_prompts = py "none") then false
    else
      let enabled_names :=
        (fun x => str_lower str (str_strip str x)) <$> split_commas [] enabled_prompts in
      bool_decide (component_value component ∈ enabled_names)
  end.

(** [overrides[component]] on a dict given by its items. *)
Fixpoint override_of (component : PromptComponent)
    (overrides : list (PromptComponent * bool)) : option bool :=
  match overrides with
  | [] => None
  | (c, b) :: overrides' =>
    if bool_decide (c = component) then Some b else override_of component overrides'
  end.

(** [is_component_enabled(component, overrides)] *)
Definition is_component_enabled (str : StrMethods) (enabled_prompts : pystr)
    (component : PromptComponent) (overrides : option (list (PromptComponent * bool)))
    : bool :=
  let env_allowed := is_prompt_allowed_by_env str enabled_prompts component in
  if negb env_allowed then false
  else
    match overrides with
    | Some (o :: os) =>
      match override_of component (o :: os) with
      | Some b => b
      | None => true
      end
    | _ => true
    end.

(** What the file code needs of a path: [open("r")] followed by
    [read()], which gives the text or raises, and [str(path.absolute())]. *)
Record FileReader := mkFileReader {
  read_file : Path -> pystr + Exn;
  absolute_str : Path -> pystr
}.

(** [append_file_to_user_prompt(user_prompt, file_path)] *)
Definition append_file_to_user_prompt (io : FileReader) (user_prompt : pystr)
    (file_path : Path) : pystr + Exn :=
  match read_file io file_path with
  | inr e => inr e
  | inl text =>
    inl (user_prompt
           ++ [10%N; 10%N] ++ py "<attached-file path='" ++ absolute_str io file_path
           ++ py "'>" ++ [10%N] ++ text ++ [10%N] ++ py "</attached-file>")
  end.

(** The loop of [append_all_files_to_user_prompt]. *)
Fixpoint append_files (io : FileReader) (user_prompt : pystr) (file_paths : list Path)
    : pystr + Exn :=
  match file_paths with
  | [] => inl user_prompt
  | file_path :: rest =>
    match append_file_to_user_prompt io user_prompt file_path with
    | inr e => inr e
    | inl user_prompt' => append_files io user_prompt' rest
    end
  end.

(** [append_all_files_to_user_prompt(user_prompt, file_paths)] *)
Definition append_all_files_to_user_prompt (io : FileReader) (user_prompt : pystr)
    (file_paths : option (list Path)) : pystr + Exn :=
  match file_paths with
  | None | Some [] => inl user_prompt
  | Some file_paths => append_files io user_prompt file_paths
  end.

(** [get_tasks_management_system_reminder()] *)
Definition get_tasks_management_system_reminder : pystr :=
  [10%N; 10%N] ++ py "<system-reminder>" ++ [10%N]
  ++ py "IMPORTANT: You have access to the TodoWrite tool. It creates a TodoList, in order to track progress. It's very important. You MUST use it:"
  ++ [10%N]
  ++ py "1. FIRST: Ask your self which sub problems you need to solve in order to answer the question.Do this, BEFORE any other tools"
  ++ [10%N]
  ++ py "2. AFTER EVERY TOOL CALL: If required, update the TodoList"
  ++ [10%N] ++ py "3. " ++ [10%N; 10%N]
  ++ py "FAILURE TO UPDATE TodoList = INCOMPLETE INVESTIGATION"
  ++ [10%N; 10%N] ++ py "Example flow:" ++ [10%N]
  ++ py "- Think and divide to sub problems " ++ [8594%N]
  ++ py " create TodoList " ++ [8594%N]
  ++ py " Perform each task on the list " ++ [8594%N]
  ++ py " Update list " ++ [8594%N]
  ++ py " Verify your solution" ++ [10%N] ++ py "</system-reminder>".

(** The context that [build_system_prompt] hands to the template
    [generic_ask.jinja2]. *)
Record SystemPromptContext (Toolset : Type) := mkSystemPromptContext {
  ctx_intro_enabled : bool;
  ctx_ask_user_enabled : bool;
  ctx_todowrite_enabled : bool;
  ctx_ai_safety_enabled : bool;
  ctx_toolset_instructions_enabled : bool;
  ctx_permission_errors_enabled : bool;
  ctx_general_instructions_enabled : bool;
  ctx_style_guide_enabled : bool;
  ctx_runbooks_enabled : bool;
  ctx_cluster_name : option pystr;
  ctx_toolsets : list Toolset;
  ctx_system_prompt_additions : option pystr
}.
Arguments mkSystemPromptContext {Toolset}.

(** [build_system_prompt(...)].  [render] stands for
    [load_and_render_prompt("builtin://generic_ask.jinja2", _)] and
    [runbooks] for [bool(runbooks)]. *)
Definition build_system_prompt {Toolset} (str : StrMethods) (enabled_prompts : pystr)
    (render : SystemPromptContext Toolset -> pystr)
    (toolsets : list Toolset) (runbooks : bool) (system_prompt_additions : option pystr)
    (cluster_name : option pystr) (ask_user_enabled : bool)
    (prompt_component_overrides : list (PromptComponent * bool)) : option pystr :=
  let is_enabled component :=
    is_component_enabled str enabled_prompts component (Some prompt_component_overrides) in
  let toolset_instructions_enabled := is_enabled TOOLSET_INSTRUCTIONS in
  let template_context :=
    {| ctx_intro_enabled := is_enabled INTRO;
       ctx_ask_user_enabled := ask_user_enabled && is_enabled ASK_USER;
       ctx_todowrite_enabled := is_enabled TODOWRITE_INSTRUCTIONS;
       ctx_ai_safety_enabled := is_enabled AI_SAFETY;
       ctx_toolset_instructions_enabled := toolset_instructions_enabled;
       ctx_permission_errors_enabled := is_enabled PERMISSION_ERRORS;
       ctx_general_instructions_enabled := is_enabled GENERAL_INSTRUCTIONS;
       ctx_style_guide_enabled := is_enabled STYLE_GUIDE;
       ctx_runbooks_enabled := runbooks && is_enabled TIME_RUNBOOKS;
       ctx_cluster_name := if is_enabled CLUSTER_NAME then cluster_name else None;
       ctx_toolsets := if toolset_instructions_enabled then toolsets else [];
       ctx_system_prompt_additions :=
         if is_enabled SYSTEM_PROMPT_ADDITIONS then system_prompt_additions else Some [] |} in
  let result := render template_context in
  match result, str_strip str result with
  | _ :: _, _ :: _ => Some result
  | _, _ => None
  end.

(** What the prompt builders raise: the exception of a file that cannot
    be read, or the error of an image dict without a url. *)
Inductive PromptError :=
  | FileError (e : Exn)
  | ImageError (e : InvalidImageDictError).

(** [build_user_prompt(...)].  [generate_user_prompt] stands for the
    rendering of [base_user_prompt.jinja2] around the prompt, with the
    runbook arguments of the caller. *)
Definition build_user_prompt (str : StrMethods) (enabled_prompts : pystr) (io : FileReader)
    (generate_user_prompt : pystr -> pystr)
    (user_prompt : pystr) (file_paths : option (list Path))
    (include_todowrite_reminder : bool) (images : option (list ImageItem))
    (prompt_component_overrides : list (PromptComponent * bool))
    : Content + PromptError :=
  let is_enabled component :=
    is_component_enabled str enabled_prompts component (Some prompt_component_overrides) in
  let with_files :=
    match file_paths with
    | Some (_ :: _) =>
      if is_enabled FILES then append_all_files_to_user_prompt io user_prompt file_paths
      else inl user_prompt
    | _ => inl user_prompt
    end in
  match with_files with
  | inr e => inr (FileError e)
  | inl user_prompt =>
    let user_prompt :=
      if include_todowrite_reminder && is_enabled TODOWRITE_REMINDER
      then user_prompt ++ get_tasks_management_system_reminder
      else user_prompt in
    let user_prompt :=
      if is_enabled TIME_RUNBOOKS then generate_user_prompt user_prompt else user_prompt in
    match images with
    | Some ((_ :: _) as images) =>
      match build_vision_content user_prompt images with
      | inl parts => inl (CParts parts)
      | inr e => inr (ImageError e)
      end
    | _ => inl (CText user_prompt)
    end
  end.

(** [build_prompts(...)] *)
Definition build_prompts {Toolset} (str : StrMethods) (enabled_prompts : pystr)
    (io : FileReader) (render : SystemPromptContext Toolset -> pystr)
    (generate_user_prompt : pystr -> pystr)
    (toolsets : list Toolset) (user_prompt : pystr) (runbooks : bool)
    (system_prompt_additions cluster_name : option pystr) (ask_user_enabled : bool)
    (file_paths : option (list Path)) (include_todowrite_reminder : bool)
    (images : option (list ImageItem))
    (prompt_component_overrides : option (list (PromptComponent * bool)))
    : (option pystr * Content) + PromptError :=
  let prompt_component_overrides := default [] prompt_component_overrides in
  let system_prompt :=
    build_system_prompt str enabled_prompts render toolsets runbooks
      system_prompt_additions cluster_name ask_user_enabled prompt_component_overrides in
  match build_user_prompt str enabled_prompts io generate_user_prompt user_prompt
          file_paths include_todowrite_reminder images prompt_component_overrides with
  | inr e => inr e
  | inl user_content => inl (system_prompt, user_content)
  end.

(** [build_initial_ask_messages(...)]: the list of the new messages. *)
Definition build_initial_ask_messages {Toolset} (str : StrMethods) (enabled_prompts : pystr)
    (io : FileReader) (render : SystemPromptContext Toolset -> pystr)
    (generate_user_prompt : pystr -> pystr)
    (initial_user_prompt : pystr) (file_paths : option (list Path))
    (toolsets : list Toolset) (runbooks : bool)
    (system_prompt_additions cluster_name : option pystr)
    (prompt_component_overrides : option (list (PromptComponent * bool)))
    : list Message + PromptError :=
  match build_prompts str enabled_prompts io render generate_user_prompt toolsets
          initial_user_prompt runbooks system_prompt_additions cluster_name true
          file_paths true None prompt_component_overrides with
  | inr e => inr e
  | inl (system_prompt, user_prompt) =>
    let messages :=
      match system_prompt with
      | Some ((_ :: _) as system_prompt) => [new_message (py "system") (CText system_prompt)]
      | _ => []
      end in
    inl (messages ++ [new_message (py "user") user_prompt])
  end.

(** ** Concrete collaborators, for running the definitions *)

(** An accountant with a fixed window, a fixed count for every message
    list, a fixed output reservation and a fixed single-tool limit. *)
Definition fixed_llm (window tokens reserved single : Z) : LLM :=
  {| get_context_window_size := window;
     count_tokens := fun _ => tokens;
     get_maximum_output_token := reserved;
     get_max_token_count_for_single_tool := single |}.

Definition empty_world : World :=
  {| dicts := []; tool_objs := []; lists := []; llm_calls := [] |}.

(** A store with one tool result of six characters and the list that
    holds it. *)
Definition one_tool : ToolCallConversationResult :=
  {| name := py "kubectl"; description := py "pods"; output := py "abcdef" |}.

Definition one_tool_world : World :=
  with_lists [[0%nat]] (with_tool_objs [one_tool] empty_world).

(** A store with four message dicts and five histories over them: an
    empty one, one that starts with the system message, one with the user
    turn only, one with the system message in second place, and one with
    a tool message. *)
Definition chat_world : World :=
  {| dicts := [new_message (py "system") (CText (py "old"));
               new_message (py "user") (CText (py "u"));
               new_message (py "tool") (CText (py "0123456789"));
               new_message (py "assistant") (CText (py "a"))];
     tool_objs := [];
     lists := [[]; [0; 1]; [1]; [1; 0]; [0; 1; 3; 2]]%nat;
     llm_calls := [] |}.

(** A file system that is the list of the paths that exist.  [mkdir]
    adds the path and its parents, [rmtree] removes the path and all
    below it, [write_text] adds the file; none of them fails.  Paths print
    in POSIX style; no code point above U+00FF counts as alphanumeric. *)
Definition list_fs : Runtime :=
  {| FS := list Path;
     path_exists := fun fs p => bool_decide (p ∈ fs);
     path_str := fun p => concat ((fun c => py "/" ++ c) <$> p);
     mkdir_parents := fun p fs => (fs ++ ((fun n => take n p) <$> seq 1 (length p)), None);
     rmtree := fun p fs => (filter (fun q => ~ p `prefix_of` q) fs, None);
     write_text := fun p _ fs => (fs ++ [p], None);
     unicode_isalnum := fun _ => false |}.

(** The same file system with a [shutil.rmtree] and a [write_text] that
    always raise and change nothing. *)
Definition locked_fs : Runtime :=
  {| FS := list Path;
     path_exists := fun fs p => bool_decide (p ∈ fs);
     path_str := fun p => concat ((fun c => py "/" ++ c) <$> p);
     mkdir_parents := fun p fs => (fs ++ ((fun n => take n p) <$> seq 1 (length p)), None);
     rmtree := fun _ fs => (fs, Some (Exception (py "Permission denied")));
     write_text := fun _ _ fs => (fs, Some (Exception (py "Permission denied")));
     unicode_isalnum := fun _ => false |}.

Definition empty_env (os : Runtime) (fs0 : FS os) : Env os :=
  {| fs := fs0; log := []; sentry := []; HOLMES_TOOL_RESULT_STORAGE_ENABLED := true |}.

(** A body that writes one result file and returns, and one that writes
    it and raises. *)
Definition body_returns {os} (dir : Path) (env : Env os) : (nat + Exn) * Env os :=
  let '(_, env1) := save_large_result dir (py "kubectl") (py "call_1") (py "{}") true env in
  (inl 7%nat, env1).

Definition body_raises {os} (dir : Path) (env : Env os) : (nat + Exn) * Env os :=
  let '(_, env1) := save_large_result dir (py "kubectl") (py "call_1") (py "{}") true env in
  (inr (Exception (py "boom")), env1).

(** Tool results whose data is text: the message is a tool message with
    that text, and the text is not JSON. *)
Definition text_methods : ToolResultMethods :=
  {| as_tool_call_message := fun t =>
       {| role := py "tool";
          content := CText (match data (result t) with Some (DStr s) => s | _ => [] end);
          other_keys := [(py "tool_call_id", tool_call_id t); (py "name", tool_name t)] |};
     stringify_data := fun r =>
       (match data r with Some (DStr s) => s | _ => [] end, false) |}.

(** A successful call with thirty characters of data, and a failed one. *)
Definition log_result : ToolCallResult :=
  {| tool_call_id := py "call_1";
     tool_name := py "kubectl_logs";
     result := {| status := SUCCESS;
                  data := Some (DStr (py "line 1; line 2; line 3; line 4"));
                  error := None |} |}.

Definition failed_result : ToolCallResult :=
  {| tool_call_id := py "call_2";
     tool_name := py "kubectl_logs";
     result := {| status := ERROR; data := None; error := Some (py "timeout") |} |}.

(** The policy on the successful call, measured at 500 tokens, with a
    single-tool limit of [single] tokens and the scratch directory [/tmp]. *)
Definition spill_run (single : Z) : (Z * ToolCallResult) * Env list_fs :=
  prevent_overly_big_tool_response (os := list_fs) text_methods log_result
    (fixed_llm 1000 500 0 single) (Some [py "tmp"]) (empty_env list_fs [[py "tmp"]]).

(** The successful call as the policy leaves it inside the scratch scope
    [/tmp/c0ffee], with a limit of 130 tokens. *)
Definition log_result_spilled : ToolCallResult :=
  (prevent_overly_big_tool_response (os := list_fs) text_methods log_result
     (fixed_llm 1000 500 0 130) (Some [py "tmp"; py "c0ffee"; py "tool_results"])
     (empty_env list_fs [])).1.2.

(** A prompt builder that returns the same prompts for every question. *)
Definition fixed_prompts (system_prompt : option pystr) (user_content : Content)
    : pystr -> option pystr * Content :=
  fun _ => (system_prompt, user_content).

(** A template that prints a marker and the outputs of the tools it is
    given, and a store with the histories of [chat_world], one tool
    result, and the list that holds it. *)
Definition outputs_template (tools : option (list ToolCallConversationResult)) : pystr :=
  match tools with
  | None => py "SYS"
  | Some ts => py "SYS:" ++ concat (output <$> ts)
  end.

Definition issue_world : World :=
  with_tool_objs [one_tool]
    (with_lists [[]; [0; 1]; [1]; [1; 0]; [0; 1; 3; 2]; [0]]%nat chat_world).

(** A reader that knows two files and fails on every other path. *)
Definition two_files : FileReader :=
  {| read_file := fun p =>
       if bool_decide (p = [py "a.txt"]) then inl (py "A")
       else if bool_decide (p = [py "b.txt"]) then inl (py "B")
       else inr (Exception (py "No such file or directory"));
     absolute_str := fun p => py "/w/" ++ concat p |}.

(** [lower] and [strip] on ASCII text. *)
Definition is_space (c : N) : bool :=
  ((9 <=? c) && (c <=? 13) || (28 <=? c) && (c <=? 32))%N.

Fixpoint lstrip (s : pystr) : pystr :=
  match s with
  | c :: s' => if is_space c then lstrip s' else s
  | [] => []
  end.

Definition ascii_str : StrMethods :=
  {| str_lower := fmap (fun c => if ((65 <=? c) && (c <=? 90))%N then (c + 32)%N else c);
     str_strip := fun s => reverse (lstrip (reverse (lstrip s))) |}.

(** A user template that frames the prompt, and a system template that
    prints the cluster name when it is given one. *)
Definition framed (user_prompt : pystr) : pystr :=
  py "<q>" ++ user_prompt ++ py "</q>".

Definition cluster_template (ctx : SystemPromptContext unit) : pystr :=
  default [] (ctx_cluster_name unit ctx).

(** ** Vocabulary of the properties *)

(** What is left of the window for tool content. *)
Definition available (ai : LLM) (messages_without_tools : list Message) : Z :=
  get_context_window_size ai - count_tokens ai messages_without_tools
    - get_maximum_output_token ai.

(** The three calls [calculate_tool_size] makes, in order. *)
Definition sizing_calls (messages_without_tools : list Message) : list LLMCall :=
  [CallGetContextWindowSize; CallCountTokens messages_without_tools;
   CallGetMaximumOutputToken].

(** The object [truncate_tool_outputs] builds from one tool result. *)
Definition truncated (tool_size : Z) (tool : ToolCallConversationResult) :=
  {| name := name tool;
     description := description tool;
     output := py_slice_to tool_size (output tool) |}.

(** The tool results a list of references points to. *)
Definition tools_at (w : World) (refs : list loc) : option (list ToolCallConversationResult) :=
  mapM (fun r => tool_objs w !! r) refs.

(** The messages a list of references points to. *)
Definition messages_at (w : World) (refs : list loc) : option (list Message) :=
  mapM (fun l => dicts w !! l) refs.

(** The store after a fresh system message was put into list [h]. *)
Definition with_new_system (h : loc) (prompt : pystr) (refs' : list loc) (w : World) : World :=
  with_lists (<[h := refs']> (lists w))
    (with_dicts (dicts w ++ [new_message (py "system") (CText prompt)]) w).

(** The store [add_or_update_system_prompt] leaves, for a history [h]
    that holds [refs], which point to [msgs]. *)
Definition system_prompt_effect (h : loc) (prompt : option pystr)
    (refs : list loc) (msgs : list Message) (w : World) : World :=
  match prompt, refs, msgs with
  | Some p, [], _ => with_new_system h p [length (dicts w)] w
  | Some p, l0 :: _, m0 :: _ =>
    if is_system m0 then with_dicts (<[l0 := set_content (CText p) m0]> (dicts w)) w
    else match find is_system msgs with
         | Some _ => w
         | None => with_new_system h p (length (dicts w) :: refs) w
         end
  | _, _, _ => w
  end.

(** One round of the loop on the table of dicts. *)
Definition shrink_step (tool_size : Z) (d : list Message) (l : loc) : list Message :=
  match d !! l with
  | Some m =>
    if is_tool m
    then <[l := set_content (content_slice_to tool_size (content m)) m]> d
    else d
  | None => d
  end.

(** A message after [k] rounds of the loop have reached it. *)
Definition shrunk (tool_size : Z) (k : nat) (m : Message) : Message :=
  if is_tool m
  then set_content (Nat.iter k (content_slice_to tool_size) (content m)) m
  else m.

(** How often the history refers to the dict at [l]. *)
Definition occurrences (l : loc) (refs : list loc) : nat :=
  length (filter (fun x => x = l) refs).

(** The dict at [l], holding [m], after the system prompt was put into a
    history that holds [refs]: overwritten when it is the first message
    of the history and has role system, the same otherwise. *)
Definition overwritten (system_prompt : option pystr) (refs : list loc)
    (l : loc) (m : Message) : Message :=
  match system_prompt, refs with
  | Some p, l0 :: _ =>
    if bool_decide (l = l0) && is_system m then set_content (CText p) m else m
  | _, _ => m
  end.

(** The class [[A-Za-z0-9_-]]. *)
Definition ascii_safe (c : N) : bool :=
  ascii_isalnum c || (c =? 95)%N || (c =? 45)%N.

(** Outcome (a): the result is still a success and its data is the
    boilerplate, which names the saved file, followed by a preview of the
    stringified data that fits the preview budget. *)
Definition spilled (messages_token max_tokens_allowed : Z) (filesystem_data file_path : pystr)
    (t' : ToolCallResult) : Prop :=
  let b := boilerplate (size_info messages_token max_tokens_allowed) file_path in
  let budget := Z.max 0 (max_tokens_allowed * 2 - Z.of_nat (length b)) in
  status (result t') = SUCCESS
  /\ file_path <> []
  /\ exists preview,
       data (result t') = Some (DStr (b ++ preview))
       /\ preview = py_slice_to budget filesystem_data
       /\ preview `prefix_of` filesystem_data
       /\ Z.of_nat (length preview) <= budget.

(** Outcome (b): the result is an error without data and with a text. *)
Definition dropped (t' : ToolCallResult) : Prop :=
  status (result t') = ERROR
  /\ data (result t') = None
  /\ exists e, error (result t') = Some e /\ e <> [].

(** The number of items of a content. *)
Definition content_size (c : Content) : Z := Z.of_nat (content_len c).

(** [d[l]["content"] = c] on the table of dicts. *)
Definition overwrite_at (c : Content) (l : loc) (d : list Message) : list Message :=
  match d !! l with
  | Some m => <[l := set_content c m]> d
  | None => d
  end.

(** The references among [refs] whose dict satisfies [p]. *)
Definition refs_of (p : Message -> bool) (d : list Message) (refs : list loc) : list loc :=
  filter (fun l => from_option p false (d !! l) = true) refs.

(** The dicts behind [refs], in order. *)
Definition values_at (d : list Message) (refs : list loc) : list Message :=
  omap (fun l => d !! l) refs.

(** The store [build_issue_chat_messages] leaves when the history [h]
    holds the references [refs] (not none) and the investigation's list
    holds [tool_refs], which point to [tvals]: the user turn is appended
    to [h]; when a tool message or tool result exists, the first message
    that is no tool message gets the prompt rendered without tools, the
    budget is computed, the first message gets the prompt rendered with
    the truncated tool results, and the tool messages are cut. *)
Definition follow_up_outcome (render : option (list ToolCallConversationResult) -> pystr)
    (user_prompt : pystr) (ai : LLM) (h : loc) (refs tool_refs : list loc)
    (tvals : list ToolCallConversationResult) (w : World) : option World :=
  let u := length (dicts w) in
  let d1 := dicts w ++ [new_message (py "user") (CText user_prompt)] in
  let refs1 := refs ++ [u] in
  let w1 := with_lists (<[h := refs1]> (lists w)) (with_dicts d1 w) in
  let n := Z.of_nat (length tool_refs) + Z.of_nat (length (refs_of is_tool d1 refs1)) in
  if n =? 0 then Some w1
  else
    let without := refs_of (fun m => negb (is_tool m)) d1 refs1 in
    match without, refs1 with
    | first_without :: _, first :: _ =>
      let dA := overwrite_at (CText (render None)) first_without d1 in
      let view := values_at dA without in
      let tool_size := Z.min DEFAULT_TOOL_SIZE (available ai view ÷ n) in
      let dB :=
        overwrite_at (CText (render (Some (truncated tool_size <$> tvals)))) first dA in
      Some (with_dicts (foldl (shrink_step tool_size) dB refs1)
              (with_lists (lists w1 ++ [seq (length (tool_objs w)) (length tool_refs)])
                 (with_tool_objs (tool_objs w ++ (truncated tool_size <$> tvals))
                    (with_llm_calls (llm_calls w ++ sizing_calls view) w1))))
    | _, _ => None
    end.

(** The part of the content list that one image contributes, when it
    has a URL. *)
Definition image_part (item : ImageItem) : option ContentPart :=
  match item with
  | ImageStr url => Some (PartImageUrl url None None)
  | ImageDict d =>
    (fun url => PartImageUrl url (dict_get (py "detail") d) (dict_get (py "format") d))
      <$> dict_get (py "url") d
  end.

(** The block of text that one attached file adds to the prompt. *)
Definition attached_file (io : FileReader) (file_path : Path) (text : pystr) : pystr :=
  [10%N; 10%N] ++ py "<attached-file path='" ++ absolute_str io file_path
    ++ py "'>" ++ [10%N] ++ text ++ [10%N] ++ py "</attached-file>".

(** * Properties *)

(** ** Running a computation over the store *)

Lemma bind_run {A B} (m : M A) (k : A -> M B) w a w' :
  m w = Some (a, w') -> bind m k w = k a w'.
Proof. intros H. unfold bind. by rewrite H. Qed.

Lemma bind_inv {A B} (m : M A) (k : A -> M B) w b w'' :
  bind m k w = Some (b, w'') ->
  exists a w', m w = Some (a, w') /\ k a w' = Some (b, w'').
Proof.
  unfold bind. destruct (m w) as [[a w']|]; [|done]. intros H. by exists a, w'.
Qed.

(** ** Slices *)

Lemma py_slice_to_prefix {A} (k : Z) (s : list A) : py_slice_to k s `prefix_of` s.
Proof. unfold py_slice_to. destruct (0 <=? k); apply prefix_take. Qed.

Lemma py_slice_to_nonneg {A} (k : Z) (s : list A) :
  0 <= k -> py_slice_to k s = take (Z.to_nat k) s.
Proof. intros Hk. unfold py_slice_to. by rewrite (proj2 (Z.leb_le 0 k) Hk). Qed.

Lemma py_slice_to_neg {A} (k : Z) (s : list A) :
  k < 0 -> py_slice_to k s = take (length s - Z.to_nat (- k)) s.
Proof. intros Hk. unfold py_slice_to. by rewrite (proj2 (Z.leb_gt 0 k) Hk). Qed.

Lemma py_slice_to_length_nonneg {A} (k : Z) (s : list A) :
  0 <= k -> Z.of_nat (length (py_slice_to k s)) = Z.min k (Z.of_nat (length s)).
Proof. intros Hk. rewrite py_slice_to_nonneg, length_take by done. lia. Qed.

Lemma py_slice_to_length_neg {A} (k : Z) (s : list A) :
  k < 0 -> Z.of_nat (length (py_slice_to k s)) = Z.max 0 (Z.of_nat (length s) + k).
Proof. intros Hk. rewrite py_slice_to_neg, length_take by done. lia. Qed.

Lemma py_slice_to_idemp {A} (k : Z) (s : list A) :
  0 <= k -> py_slice_to k (py_slice_to k s) = py_slice_to k s.
Proof. intros Hk. rewrite !py_slice_to_nonneg by done. apply take_idemp. Qed.

(** ** The budget: [calculate_tool_size] *)

Lemma calculate_tool_size_run ai msgs n w :
  n <> 0 ->
  calculate_tool_size ai msgs n w =
    Some (Z.min DEFAULT_TOOL_SIZE (available ai msgs ÷ n),
          with_llm_calls (llm_calls w ++ sizing_calls msgs) w).
Proof.
  intros Hn. unfold calculate_tool_size.
  rewrite (proj2 (Z.eqb_neq n 0) Hn).
  unfold bind, call_llm, ret, with_llm_calls, available, sizing_calls; simpl.
  by rewrite <- !app_assoc.
Qed.

(** C8: with no tool slot the budget is the default 10000, whatever the
    messages and the accountant are, and the accountant is not called:
    the store, with its record of accountant calls, is returned as it
    was. *)
Theorem calculate_tool_size_no_tools ai msgs w :
  calculate_tool_size ai msgs 0 w = Some (10000, w)
  /\ forall w', calculate_tool_size ai msgs 0 w = Some (10000, w') ->
       llm_calls w' = llm_calls w.
Proof.
  assert (calculate_tool_size ai msgs 0 w = Some (10000, w)) as Hrun.
  { unfold calculate_tool_size. rewrite Z.eqb_refl. unfold ret, DEFAULT_TOOL_SIZE.
    reflexivity. }
  split; [exact Hrun|].
  intros w' Hw'. rewrite Hrun in Hw'. by injection Hw' as <-.
Qed.

(** C2, as stated, fails: a window of 100 tokens, 200 tokens of baseline
    and one tool slot give the budget -100, which then serves as slice
    bound and cuts the last 100 characters instead of all of them. *)
Lemma calculate_tool_size_negative :
  fst <$> calculate_tool_size (fixed_llm 100 200 0 0) [] 1 empty_world = Some (-100)
  /\ ~ 0 <= -100
  /\ py_slice_to (-100) (replicate 130 120%N) = replicate 30 120%N.
Proof. split; [reflexivity | split; [lia | reflexivity]]. Qed.

(** C2, amended: for a positive number of slots the budget is
    [min(10000, available ÷ n)] with the quotient truncated toward zero
    and nothing clamped; it is at most 10000, and it is non-negative
    exactly when [available > -n]. *)
Theorem calculate_tool_size_bounds ai msgs n w :
  0 < n ->
  exists b, fst <$> calculate_tool_size ai msgs n w = Some b
    /\ b = Z.min 10000 (available ai msgs ÷ n)
    /\ b <= 10000
    /\ (0 <= b <-> - n < available ai msgs).
Proof.
  intros Hn. eexists. rewrite calculate_tool_size_run by lia. simpl.
  split; [reflexivity|]. split; [reflexivity|]. unfold DEFAULT_TOOL_SIZE.
  split; [lia|].
  assert (0 <= available ai msgs ÷ n <-> - n < available ai msgs) as Hq.
  { destruct (Z.le_gt_cases 0 (available ai msgs)) as [Ha|Ha].
    - split; [lia|]. intros _. apply Z.quot_pos; lia.
    - rewrite <- (Z.opp_involutive (available ai msgs)), Z.quot_opp_l by lia.
      set (a := - available ai msgs) in *. assert (0 < a) as Hpos by lia.
      split.
      + intros Hq. assert (a ÷ n = 0) as H0.
        { pose proof (Z.quot_pos a n). lia. }
        apply Z.quot_small_iff in H0; lia.
      + intros Hlt. rewrite Z.quot_small; lia. }
  lia.
Qed.

Lemma calculate_tool_size_bounds_witness :
  exists b, fst <$> calculate_tool_size (fixed_llm 8000 2000 1000 0) [] 5 empty_world = Some b
    /\ b = Z.min 10000 (available (fixed_llm 8000 2000 1000 0) [] ÷ 5)
    /\ b <= 10000
    /\ (0 <= b <-> - 5 < available (fixed_llm 8000 2000 1000 0) []).
Proof. apply (calculate_tool_size_bounds (fixed_llm 8000 2000 1000 0) [] 5 empty_world). lia. Defined.

(** C3, as stated, fails: once the baseline exceeds the window, a second
    slot raises the budget from -100 to -50. *)
Lemma calculate_tool_size_not_antitone :
  fst <$> calculate_tool_size (fixed_llm 100 200 0 0) [] 1 empty_world = Some (-100)
  /\ fst <$> calculate_tool_size (fixed_llm 100 200 0 0) [] 2 empty_world = Some (-50)
  /\ 0 < 1 <= 2 /\ ~ -50 <= -100.
Proof. split; [reflexivity | split; [reflexivity | lia]]. Qed.

(** C3, amended: when the baseline fits the window ([available >= 0]),
    more slots never give a larger budget. *)
Theorem calculate_tool_size_antitone ai msgs m n w :
  0 <= available ai msgs -> 0 < m <= n ->
  exists b_m b_n,
    fst <$> calculate_tool_size ai msgs m w = Some b_m
    /\ fst <$> calculate_tool_size ai msgs n w = Some b_n
    /\ b_n <= b_m.
Proof.
  intros Ha Hmn. do 2 eexists. rewrite !calculate_tool_size_run by lia. simpl.
  split; [reflexivity|]. split; [reflexivity|].
  apply Z.min_le_compat_l, Z.quot_le_compat_l; lia.
Qed.

Lemma calculate_tool_size_antitone_witness :
  exists b_m b_n,
    fst <$> calculate_tool_size (fixed_llm 8000 2000 1000 0) [] 5 empty_world = Some b_m
    /\ fst <$> calculate_tool_size (fixed_llm 8000 2000 1000 0) [] 7 empty_world = Some b_n
    /\ b_n <= b_m.
Proof.
  apply (calculate_tool_size_antitone (fixed_llm 8000 2000 1000 0) [] 5 7 empty_world);
    [vm_compute; discriminate | lia].
Defined.

(** ** Truncating tool results: [truncate_tool_outputs] *)

Lemma truncate_comprehension_run tool_size refs ts w :
  Forall2 (fun r t => tool_objs w !! r = Some t) refs ts ->
  comprehension refs (fun r =>
    tool <- get_tool r ;;
    new_tool {| name := name tool;
                description := description tool;
                output := py_slice_to tool_size (output tool) |}) w
  = Some (seq (length (tool_objs w)) (length refs),
          with_tool_objs (tool_objs w ++ (truncated tool_size <$> ts)) w).
Proof.
  intros H. revert ts w H. induction refs as [|r refs IH]; intros ts w H.
  - apply Forall2_nil_inv_l in H as ->. simpl. unfold ret.
    rewrite app_nil_r. by destruct w.
  - apply Forall2_cons_inv_l in H as (t & ts' & Hr & Hrest & ->).
    cbn [comprehension].
    erewrite bind_run; cycle 1.
    { erewrite bind_run; [reflexivity|]. unfold get_tool. by rewrite Hr. }
    erewrite bind_run; cycle 1.
    { apply (IH ts'). eapply Forall2_impl; [exact Hrest|]. intros r' t' Hl. simpl.
      by apply lookup_app_l_Some. }
    unfold ret, with_tool_objs; simpl. rewrite length_app, <- app_assoc. simpl.
    by rewrite Nat.add_1_r.
Qed.

Lemma truncate_tool_outputs_run tools tool_size refs ts w :
  lists w !! tools = Some refs ->
  tools_at w refs = Some ts ->
  truncate_tool_outputs tools tool_size w =
    Some (length (lists w),
          with_lists (lists w ++ [seq (length (tool_objs w)) (length refs)])
            (with_tool_objs (tool_objs w ++ (truncated tool_size <$> ts)) w)).
Proof.
  intros Hl Hts. apply mapM_Some in Hts.
  unfold truncate_tool_outputs.
  erewrite bind_run; [|unfold get_list; by rewrite Hl].
  erewrite bind_run; [|by apply (truncate_comprehension_run _ _ ts)].
  reflexivity.
Qed.

(** C5, as stated, fails for a negative budget: the slice [output[:-2]]
    of a six-character output keeps four characters, more than
    [max(-2, 0) = 0]. *)
Lemma truncate_tool_outputs_negative_budget :
  exists out w',
    truncate_tool_outputs 0%nat (-2) one_tool_world = Some (out, w')
    /\ (lists w' !! out) ≫= tools_at w'
       = Some [{| name := py "kubectl"; description := py "pods"; output := py "abcd" |}]
    /\ ~ Z.of_nat (length (py "abcd")) <= Z.max (-2) 0.
Proof. do 2 eexists. split; [reflexivity|]. split; [reflexivity|]. vm_compute. by intros H. Qed.

(** C5, amended: [truncate_tool_outputs] returns a new list of new
    objects, one per input in order; each keeps the name and description
    and holds a prefix of the original output; for a budget [>= 0] the
    prefix has at most [budget] characters, for a budget [< 0] it is the
    output without its last [-budget] characters; the input list, the
    input objects and every other object of the store are as before. *)
Theorem truncate_tool_outputs_spec tools budget refs ts w :
  lists w !! tools = Some refs ->
  tools_at w refs = Some ts ->
  exists out w' new_refs,
    truncate_tool_outputs tools budget w = Some (out, w')
    /\ lists w' !! out = Some new_refs
    /\ out <> tools
    /\ Forall2 (fun t r' => exists t',
          tool_objs w' !! r' = Some t'
          /\ tool_objs w !! r' = None
          /\ name t' = name t
          /\ description t' = description t
          /\ output t' `prefix_of` output t
          /\ (0 <= budget -> Z.of_nat (length (output t')) <= Z.max budget 0)
          /\ (budget < 0 ->
              Z.of_nat (length (output t')) = Z.max 0 (Z.of_nat (length (output t)) + budget)))
        ts new_refs
    /\ lists w' !! tools = Some refs
    /\ tools_at w' refs = Some ts
    /\ (forall r t, tool_objs w !! r = Some t -> tool_objs w' !! r = Some t)
    /\ (forall r l, lists w !! r = Some l -> lists w' !! r = Some l)
    /\ dicts w' = dicts w.
Proof.
  intros Hl Hts. do 3 eexists.
  rewrite (truncate_tool_outputs_run tools budget refs ts w Hl Hts).
  split; [reflexivity|]. simpl.
  split; [apply list_lookup_middle; reflexivity|].
  split; [apply lookup_lt_Some in Hl; lia|].
  assert (length refs = length ts) as Hlen.
  { apply mapM_Some in Hts. by apply Forall2_length in Hts. }
  split.
  { apply Forall2_same_length_lookup. split; [by rewrite length_seq|].
    intros i t r' Ht Hr'. apply lookup_seq in Hr' as [-> Hi].
    exists (truncated budget t). split.
    { rewrite lookup_app_r by lia.
      replace (length (tool_objs w) + i - length (tool_objs w))%nat with i by lia.
      by rewrite list_lookup_fmap, Ht. }
    split; [apply lookup_ge_None; lia|].
    split; [done|]. split; [done|]. simpl.
    split; [apply py_slice_to_prefix|].
    split; intros Hb.
    - pose proof (py_slice_to_length_nonneg budget (output t) Hb). lia.
    - apply py_slice_to_length_neg, Hb. }
  split; [by apply lookup_app_l_Some|].
  split.
  { unfold tools_at in *. apply mapM_Some. apply mapM_Some in Hts.
    eapply Forall2_impl; [exact Hts|]. intros r t Hr. simpl. by apply lookup_app_l_Some. }
  split; [intros r t Hr; by apply lookup_app_l_Some|].
  split; [intros r l Hr; by apply lookup_app_l_Some|].
  reflexivity.
Qed.

Lemma truncate_tool_outputs_spec_witness :
  exists out w' new_refs,
    truncate_tool_outputs 0%nat 4 one_tool_world = Some (out, w')
    /\ lists w' !! out = Some new_refs
    /\ out <> 0%nat
    /\ Forall2 (fun t r' => exists t',
          tool_objs w' !! r' = Some t'
          /\ tool_objs one_tool_world !! r' = None
          /\ name t' = name t
          /\ description t' = description t
          /\ output t' `prefix_of` output t
          /\ (0 <= 4 -> Z.of_nat (length (output t')) <= Z.max 4 0)
          /\ (4 < 0 ->
              Z.of_nat (length (output t')) = Z.max 0 (Z.of_nat (length (output t)) + 4)))
        [one_tool] new_refs
    /\ lists w' !! 0%nat = Some [0%nat]
    /\ tools_at w' [0%nat] = Some [one_tool]
    /\ (forall r t, tool_objs one_tool_world !! r = Some t -> tool_objs w' !! r = Some t)
    /\ (forall r l, lists one_tool_world !! r = Some l -> lists w' !! r = Some l)
    /\ dicts w' = dicts one_tool_world.
Proof.
  apply (truncate_tool_outputs_spec 0%nat 4 [0%nat] [one_tool] one_tool_world); reflexivity.
Defined.

(** ** The system prompt: [add_or_update_system_prompt] *)

Lemma deref_all_run refs msgs w :
  messages_at w refs = Some msgs -> deref_all refs w = Some (msgs, w).
Proof.
  unfold messages_at. rewrite mapM_Some. intros H.
  induction H as [|l m refs msgs Hl _ IH]; [done|].
  unfold deref_all in *. cbn [comprehension].
  erewrite bind_run; [|unfold get_dict; by rewrite Hl].
  erewrite bind_run; [|exact IH]. done.
Qed.

Lemma get_list_run r l w : lists w !! r = Some l -> get_list r w = Some (l, w).
Proof. intros H. unfold get_list. by rewrite H. Qed.

Lemma get_dict_run l m w : dicts w !! l = Some m -> get_dict l w = Some (m, w).
Proof. intros H. unfold get_dict. by rewrite H. Qed.

Lemma set_dict_run l m m' w :
  dicts w !! l = Some m ->
  set_dict l m' w = Some (tt, with_dicts (<[l := m']> (dicts w)) w).
Proof. intros H. unfold set_dict. by rewrite H. Qed.

Lemma set_list_run r l l' w :
  lists w !! r = Some l ->
  set_list r l' w = Some (tt, with_lists (<[r := l']> (lists w)) w).
Proof. intros H. unfold set_list. by rewrite H. Qed.

Lemma is_system_true m : is_system m = true <-> role m = py "system".
Proof. unfold is_system. apply bool_decide_eq_true. Qed.

Lemma is_system_false m : is_system m = false <-> role m <> py "system".
Proof. unfold is_system. apply bool_decide_eq_false. Qed.

Lemma is_tool_true m : is_tool m = true <-> role m = py "tool".
Proof. unfold is_tool. apply bool_decide_eq_true. Qed.

Lemma is_tool_false m : is_tool m = false <-> role m <> py "tool".
Proof. unfold is_tool. apply bool_decide_eq_false. Qed.

Lemma bind_run_eq {A B} (m : M A) (k : A -> M B) w a w' r :
  m w = Some (a, w') -> k a w' = r -> bind m k w = r.
Proof. intros H <-. by apply bind_run. Qed.

(** Runs a computation as far as its actions are determined by the
    hypotheses; stops at a branch that is still to be decided. *)
Ltac mrun :=
  cbn beta match;
  lazymatch goal with
  | |- bind _ _ _ = _ => eapply bind_run_eq; [mrun | mrun]
  | |- get_list _ _ = _ => by apply get_list_run
  | |- get_dict _ _ = _ => by eapply get_dict_run
  | |- set_dict _ _ _ = _ => by eapply set_dict_run
  | |- set_list _ _ _ = _ => by eapply set_list_run
  | |- deref_all _ _ = _ => by apply deref_all_run
  | |- ret _ _ = _ => reflexivity
  | |- new_dict _ _ = _ => reflexivity
  | |- new_list _ _ = _ => reflexivity
  | |- call_llm _ _ = _ => reflexivity
  | |- _ => idtac
  end.

Lemma add_or_update_system_prompt_run h prompt refs msgs w :
  lists w !! h = Some refs ->
  messages_at w refs = Some msgs ->
  add_or_update_system_prompt h prompt w
    = Some (h, system_prompt_effect h prompt refs msgs w).
Proof.
  intros Hh Hmsgs. destruct prompt as [p|]; [|done].
  unfold add_or_update_system_prompt.
  destruct refs as [|l0 rest]; [mrun|].
  pose proof Hmsgs as Hm. unfold messages_at in Hm. apply mapM_Some in Hm.
  apply Forall2_cons_inv_l in Hm as (m0 & msgs' & Hl0 & _ & ->).
  mrun. unfold system_prompt_effect.
  destruct (is_system m0); [mrun|]. mrun.
  destruct (find is_system (m0 :: msgs')); mrun.
Qed.

(** C6: the case analysis of [add_or_update_system_prompt], on the store.
    Without a prompt nothing changes.  With a prompt: an empty history
    gets one new system message appended; a first message of role system
    has its content overwritten in place; otherwise the history is left
    as it is when some message of it has role system, and gets a new
    system message inserted at position 0 when none has.  The history
    itself is returned in every case. *)
Theorem add_or_update_system_prompt_cases h prompt refs msgs w :
  lists w !! h = Some refs ->
  messages_at w refs = Some msgs ->
  (prompt = None ->
     add_or_update_system_prompt h prompt w = Some (h, w))
  /\ (forall p, prompt = Some p ->
      (refs = [] ->
         add_or_update_system_prompt h prompt w
           = Some (h, with_new_system h p [length (dicts w)] w))
      /\ (forall l0 m0 rest, refs = l0 :: rest -> dicts w !! l0 = Some m0 ->
          (role m0 = py "system" ->
             add_or_update_system_prompt h prompt w
               = Some (h, with_dicts (<[l0 := set_content (CText p) m0]> (dicts w)) w))
          /\ (role m0 <> py "system" ->
              (exists m, m ∈ msgs /\ role m = py "system") ->
              add_or_update_system_prompt h prompt w = Some (h, w))
          /\ (role m0 <> py "system" ->
              (forall m, m ∈ msgs -> role m <> py "system") ->
              add_or_update_system_prompt h prompt w
                = Some (h, with_new_system h p (length (dicts w) :: refs) w)))).
Proof.
  intros Hh Hmsgs.
  rewrite (add_or_update_system_prompt_run h prompt refs msgs w Hh Hmsgs).
  split; [by intros ->|].
  intros p ->. split; [by intros ->|].
  intros l0 m0 rest -> Hl0.
  pose proof Hmsgs as Hm. unfold messages_at in Hm. apply mapM_Some in Hm.
  apply Forall2_cons_inv_l in Hm as (m0' & msgs' & Hl0' & _ & ->).
  assert (m0' = m0) as -> by congruence.
  unfold system_prompt_effect. split; [|split].
  - intros Hsys. by rewrite (proj2 (is_system_true m0) Hsys).
  - intros Hns (m & Hin & Hm). rewrite (proj2 (is_system_false m0) Hns).
    destruct (find is_system (m0 :: msgs')) eqn:Hfind; [done|].
    apply list_elem_of_In in Hin.
    pose proof (find_none _ _ Hfind m Hin) as Hf.
    apply is_system_false in Hf. done.
  - intros Hns Hnone. rewrite (proj2 (is_system_false m0) Hns).
    destruct (find is_system (m0 :: msgs')) as [m|] eqn:Hfind; [|done].
    apply find_some in Hfind as [Hin Hf]. apply list_elem_of_In in Hin.
    apply is_system_true in Hf. by destruct (Hnone m Hin).
Qed.

Lemma add_or_update_system_prompt_cases_witness :
  add_or_update_system_prompt 2%nat (Some (py "P")) chat_world
    = Some (2%nat, with_new_system 2%nat (py "P") [4; 1]%nat chat_world).
Proof.
  destruct (add_or_update_system_prompt_cases 2%nat (Some (py "P")) [1%nat]
              [new_message (py "user") (CText (py "u"))] chat_world
              eq_refl eq_refl) as [_ H].
  destruct (H (py "P") eq_refl) as [_ H1].
  destruct (H1 1%nat (new_message (py "user") (CText (py "u"))) [] eq_refl eq_refl)
    as (_ & _ & H2).
  apply H2.
  - vm_compute. discriminate.
  - intros m Hm. apply list_elem_of_singleton in Hm as ->. vm_compute. discriminate.
Defined.

(** The three cases of the specification's examples, run on the store:
    the histories as they read afterwards. *)
Example add_or_update_system_prompt_examples :
  (add_or_update_system_prompt 0%nat (Some (py "P")) chat_world
     ≫= fun '(h, w) => lists w !! h ≫= messages_at w)
    = Some [new_message (py "system") (CText (py "P"))]
  /\ (add_or_update_system_prompt 1%nat (Some (py "P")) chat_world
     ≫= fun '(h, w) => lists w !! h ≫= messages_at w)
    = Some [new_message (py "system") (CText (py "P"));
            new_message (py "user") (CText (py "u"))]
  /\ (add_or_update_system_prompt 2%nat (Some (py "P")) chat_world
     ≫= fun '(h, w) => lists w !! h ≫= messages_at w)
    = Some [new_message (py "system") (CText (py "P"));
            new_message (py "user") (CText (py "u"))]
  /\ (add_or_update_system_prompt 3%nat (Some (py "P")) chat_world
     ≫= fun '(h, w) => lists w !! h ≫= messages_at w)
    = Some [new_message (py "user") (CText (py "u"));
            new_message (py "system") (CText (py "old"))].
Proof. repeat split. Qed.

(** ** Truncating tool messages in place: [truncate_tool_messages] *)

Lemma shrink_step_length ts d l : length (shrink_step ts d l) = length d.
Proof.
  unfold shrink_step. destruct (d !! l) as [m|]; [|done].
  destruct (is_tool m); [apply length_insert | done].
Qed.

Lemma shrink_body_run ts l m w :
  dicts w !! l = Some m ->
  (message <- get_dict l ;;
   if is_tool message
   then set_dict l (set_content (content_slice_to ts (content message)) message)
   else ret tt) w
  = Some (tt, with_dicts (shrink_step ts (dicts w) l) w).
Proof.
  intros Hm. eapply bind_run_eq; [by eapply get_dict_run|]. cbn beta.
  unfold shrink_step. rewrite Hm. destruct (is_tool m).
  - by eapply set_dict_run.
  - unfold ret. by destruct w.
Qed.

Lemma for_each_shrink_run ts refs w :
  Forall (fun l => (l < length (dicts w))%nat) refs ->
  for_each refs (fun l =>
    message <- get_dict l ;;
    if is_tool message
    then set_dict l (set_content (content_slice_to ts (content message)) message)
    else ret tt) w
  = Some (tt, with_dicts (foldl (shrink_step ts) (dicts w) refs) w).
Proof.
  revert w. induction refs as [|l refs IH]; intros w Hv.
  - simpl. unfold ret. by destruct w.
  - apply list.Forall_cons in Hv as [Hl Hv].
    destruct (lookup_lt_is_Some_2 _ _ Hl) as [m Hm].
    cbn [for_each foldl].
    eapply bind_run_eq; [by eapply shrink_body_run|].
    rewrite IH.
    + by destruct w.
    + simpl. rewrite shrink_step_length. exact Hv.
Qed.

Lemma truncate_tool_messages_run h ts refs w :
  lists w !! h = Some refs ->
  Forall (fun l => (l < length (dicts w))%nat) refs ->
  truncate_tool_messages h ts w
    = Some (tt, with_dicts (foldl (shrink_step ts) (dicts w) refs) w).
Proof.
  intros Hh Hv. unfold truncate_tool_messages.
  eapply bind_run_eq; [by apply get_list_run|]. by apply for_each_shrink_run.
Qed.

Lemma set_content_same m : set_content (content m) m = m.
Proof. by destruct m. Qed.

Lemma shrunk_step ts k m :
  is_tool m = true ->
  shrunk ts k (set_content (content_slice_to ts (content m)) m) = shrunk ts (S k) m.
Proof.
  intros Ht. unfold shrunk, is_tool in *. simpl. rewrite Ht.
  unfold set_content; simpl. f_equal.
  change (content_slice_to ts (Nat.iter k (content_slice_to ts) (content m)))
    with (Nat.iter (S k) (content_slice_to ts) (content m)).
  by rewrite Nat.iter_succ_r.
Qed.

Lemma foldl_shrink_lookup ts refs d l m :
  d !! l = Some m ->
  foldl (shrink_step ts) d refs !! l = Some (shrunk ts (occurrences l refs) m).
Proof.
  revert d m. induction refs as [|x refs IH]; intros d m Hm.
  - simpl. unfold shrunk. destruct (is_tool m); [|done]. simpl.
    by rewrite set_content_same.
  - cbn [foldl]. unfold occurrences. rewrite filter_cons.
    destruct (decide (x = l)) as [->|Hne].
    + unfold shrink_step at 2. rewrite Hm. destruct (is_tool m) eqn:Ht.
      * erewrite IH; [|apply list_lookup_insert_eq; by eapply lookup_lt_Some].
        simpl. rewrite shrunk_step by done. done.
      * erewrite IH by exact Hm. unfold shrunk. by rewrite Ht.
    + apply IH. unfold shrink_step. destruct (d !! x) as [mx|]; [|done].
      destruct (is_tool mx); [|done]. by rewrite list_lookup_insert_ne.
Qed.

Lemma foldl_shrink_lookup_fresh ts refs d l :
  l ∉ refs -> foldl (shrink_step ts) d refs !! l = d !! l.
Proof.
  revert d. induction refs as [|x refs IH]; intros d Hl; [done|].
  apply not_elem_of_cons in Hl as [Hne Hl]. cbn [foldl]. rewrite IH by done.
  unfold shrink_step. destruct (d !! x) as [mx|]; [|done].
  destruct (is_tool mx); [|done]. by rewrite list_lookup_insert_ne.
Qed.

(** ** Assembling a chat: [build_chat_messages] *)

Lemma overwritten_role sp refs l m : role (overwritten sp refs l m) = role m.
Proof.
  unfold overwritten. destruct sp; [|done]. destruct refs; [done|].
  by destruct (bool_decide _ && is_system m).
Qed.

Lemma overwritten_is_tool sp refs l m : is_tool (overwritten sp refs l m) = is_tool m.
Proof. unfold is_tool. by rewrite overwritten_role. Qed.

Lemma messages_at_Forall2 w refs msgs :
  messages_at w refs = Some msgs <->
  Forall2 (fun l m => dicts w !! l = Some m) refs msgs.
Proof. unfold messages_at. apply mapM_Some. Qed.

Lemma messages_at_valid w refs :
  Forall (fun l => (l < length (dicts w))%nat) refs ->
  exists msgs, messages_at w refs = Some msgs.
Proof.
  intros Hv. assert (is_Some (messages_at w refs)) as [msgs H]; [|by exists msgs].
  unfold messages_at. apply mapM_is_Some. eapply list.Forall_impl; [exact Hv|].
  intros l Hl. by apply lookup_lt_is_Some_2.
Qed.

(** What [add_or_update_system_prompt] does to a store in which the
    history [c] holds [refs]: the history keeps [refs] as its tail, with
    at most a new system message in front; the dicts that existed are
    overwritten as [overwritten] says; no other list changes. *)
Lemma system_prompt_effect_post c sp refs msgs w1 :
  lists w1 !! c = Some refs ->
  messages_at w1 refs = Some msgs ->
  let w2 := system_prompt_effect c sp refs msgs w1 in
  exists pre,
    lists w2 !! c = Some (pre ++ refs)
    /\ (length pre <= 1)%nat
    /\ Forall (fun l => (length (dicts w1) <= l)%nat
                 /\ exists m, dicts w2 !! l = Some m /\ is_tool m = false) pre
    /\ (forall r, r <> c -> lists w2 !! r = lists w1 !! r)
    /\ (forall l m, dicts w1 !! l = Some m ->
          dicts w2 !! l = Some (overwritten sp refs l m))
    /\ (length (dicts w1) <= length (dicts w2))%nat
    /\ llm_calls w2 = llm_calls w1.
Proof.
  intros Hc Hmsgs w2. subst w2.
  assert (forall p refs',
    let w2 := with_new_system c p (length (dicts w1) :: refs') w1 in
    (forall l m, dicts w1 !! l = Some m -> overwritten sp refs l m = m) ->
    lists w2 !! c = Some ([length (dicts w1)] ++ refs')
    /\ (length [length (dicts w1)] <= 1)%nat
    /\ Forall (fun l => (length (dicts w1) <= l)%nat
                 /\ exists m, dicts w2 !! l = Some m /\ is_tool m = false)
         [length (dicts w1)]
    /\ (forall r, r <> c -> lists w2 !! r = lists w1 !! r)
    /\ (forall l m, dicts w1 !! l = Some m ->
          dicts w2 !! l = Some (overwritten sp refs l m))
    /\ (length (dicts w1) <= length (dicts w2))%nat
    /\ llm_calls w2 = llm_calls w1) as Hnew.
  { intros p refs' w2 Hov. subst w2. unfold with_new_system. simpl.
    split; [apply list_lookup_insert_eq; by eapply lookup_lt_Some|].
    split; [lia|].
    split.
    { apply Forall_singleton. split; [lia|]. eexists. split.
      - apply list_lookup_middle. reflexivity.
      - reflexivity. }
    split; [intros r Hr; by apply list_lookup_insert_ne|].
    split; [|split; [rewrite length_app; lia | done]].
    intros l m Hl. rewrite (Hov l m Hl). by apply lookup_app_l_Some. }
  unfold system_prompt_effect.
  destruct sp as [p|]; cycle 1.
  { exists []. simpl. repeat split; try done. lia. }
  destruct refs as [|l0 rest].
  { exists [length (dicts w1)]. rewrite app_nil_r.
    destruct (Hnew p []) as (H1 & H2 & H3 & H4 & H5 & H6 & H7); [done|]. done. }
  pose proof Hmsgs as Hm. apply messages_at_Forall2 in Hm.
  apply Forall2_cons_inv_l in Hm as (m0 & msgs' & Hl0 & _ & ->).
  destruct (is_system m0) eqn:Hsys.
  - exists []. simpl. split; [done|]. split; [lia|]. split; [done|]. split; [done|].
    split; [|split; [by rewrite length_insert | done]].
    intros l m Hl. destruct (decide (l = l0)) as [->|Hne].
    + assert (m = m0) as -> by congruence.
      rewrite bool_decide_eq_true_2 by done. rewrite Hsys. simpl.
      apply list_lookup_insert_eq. by eapply lookup_lt_Some.
    + rewrite bool_decide_eq_false_2 by done. simpl.
      by rewrite list_lookup_insert_ne.
  - assert (forall l m, dicts w1 !! l = Some m ->
              overwritten (Some p) (l0 :: rest) l m = m) as Hov.
    { intros l m Hl. simpl. destruct (decide (l = l0)) as [->|Hne].
      - assert (m = m0) as -> by congruence. rewrite Hsys.
        by rewrite andb_false_r.
      - by rewrite bool_decide_eq_false_2. }
    destruct (find is_system (m0 :: msgs')) as [found|].
    + exists []. cbn [app]. split; [done|]. split; [simpl; lia|]. split; [done|].
      split; [done|]. split; [|split; [lia | done]].
      intros l m Hl. by rewrite (Hov l m Hl).
    + exists [length (dicts w1)]. apply Hnew. exact Hov.
Qed.

Lemma shrunk_not_tool ts k m : is_tool m = false -> shrunk ts k m = m.
Proof. intros H. unfold shrunk. by rewrite H. Qed.

Lemma shrunk_zero ts m : shrunk ts 0 m = m.
Proof. unfold shrunk. destruct (is_tool m); [|done]. simpl. apply set_content_same. Qed.

Lemma occurrences_app l xs ys :
  occurrences l (xs ++ ys) = (occurrences l xs + occurrences l ys)%nat.
Proof. unfold occurrences. by rewrite filter_app, length_app. Qed.

Lemma occurrences_fresh l xs : l ∉ xs -> occurrences l xs = 0%nat.
Proof.
  intros Hl. unfold occurrences. induction xs as [|x xs IH]; [done|].
  apply not_elem_of_cons in Hl as [Hne Hl]. rewrite filter_cons.
  destruct (decide (x = l)); [congruence | by apply IH].
Qed.

Lemma overwritten_fresh sp refs l m : l ∉ refs -> overwritten sp refs l m = m.
Proof.
  intros Hl. unfold overwritten. destruct sp as [p|]; [|done].
  destruct refs as [|r0 rest]; [done|].
  apply not_elem_of_cons in Hl as [Hne _]. by rewrite bool_decide_eq_false_2.
Qed.

(** Two lists of messages with the same roles position by position hold
    the same number of tool messages. *)
Lemma tool_count_same_roles (xs ys : list Message) :
  Forall2 (fun x y => is_tool x = is_tool y) xs ys ->
  length (filter (fun m => is_tool m = true) xs)
    = length (filter (fun m => is_tool m = true) ys).
Proof.
  induction 1 as [|x y xs ys Hxy _ IH]; [done|].
  rewrite !filter_cons. rewrite <- Hxy.
  destruct (decide (is_tool x = true)); simpl; by rewrite IH.
Qed.

Lemma tool_count_none (xs : list Message) :
  Forall (fun m => is_tool m = false) xs ->
  filter (fun m => is_tool m = true) xs = [].
Proof.
  induction 1 as [|x xs Hx _ IH]; [done|].
  rewrite filter_cons. destruct (decide (is_tool x = true)); [congruence | done].
Qed.

Lemma filter_not_tool_Forall (xs : list Message) :
  Forall (fun m => is_tool m = false) (filter (fun m => is_tool m = false) xs).
Proof. apply list.Forall_forall. intros m Hm. by apply list_elem_of_filter in Hm as [? _]. Qed.

Lemma same_roles_after (d d3 : list Message) sp refs0 refs msgs mmid :
  Forall2 (fun l m => d !! l = Some m) refs msgs ->
  Forall2 (fun l m => d3 !! l = Some m) refs mmid ->
  (forall l m, d !! l = Some m -> d3 !! l = Some (overwritten sp refs0 l m)) ->
  Forall2 (fun x y => is_tool x = is_tool y) mmid msgs.
Proof.
  intros Hmsgs HFmid Hd3. revert mmid HFmid.
  induction Hmsgs as [|l m refs msgs Hl _ IH]; intros mmid HFmid.
  - by apply Forall2_nil_inv_l in HFmid as ->.
  - apply Forall2_cons_inv_l in HFmid as (m3 & mmid' & Hm3 & Hrest & ->).
    constructor; [|by apply IH].
    pose proof (eq_trans (eq_sym Hm3) (Hd3 l m Hl)) as E. injection E as ->.
    apply overwritten_is_tool.
Qed.

(** C10, amended: [build_chat_messages] on a caller's history [h] that
    holds the references [refs].  The result is a new list object; every list that
    existed, the caller's among them, holds what it held, in the same
    order; the new list holds the caller's references, behind at most one
    new system message and in front of the new user turn.  The dicts are
    the caller's own: a dict of role tool has its content sliced in place,
    once per occurrence in the history, and a system dict in first place
    has its content overwritten in place when [build_prompts] returns a
    system prompt; every other dict is as it was.
    The accountant is called only when the history has a tool message. *)
Theorem build_chat_messages_shares_dicts build_prompts ask h ai refs msgs w :
  lists w !! h = Some refs ->
  messages_at w refs = Some msgs ->
  exists c w' tool_size,
    build_chat_messages build_prompts ask (Some h) ai w = Some (c, w')
    /\ c <> h
    /\ (forall r l, lists w !! r = Some l -> lists w' !! r = Some l)
    /\ (exists pre l_u,
          lists w' !! c = Some (pre ++ refs ++ [l_u])
          /\ (length pre <= 1)%nat
          /\ dicts w !! l_u = None
          /\ dicts w' !! l_u = Some (new_message (py "user") (snd (build_prompts ask))))
    /\ (forall l m, dicts w !! l = Some m ->
          dicts w' !! l
            = Some (shrunk tool_size (occurrences l refs)
                      (overwritten (fst (build_prompts ask)) refs l m)))
    /\ ((forall m, m ∈ msgs -> is_tool m = false) -> llm_calls w' = llm_calls w)
    /\ ((exists m, m ∈ msgs /\ is_tool m = true) ->
        exists view,
          Forall (fun m => is_tool m = false) view
          /\ llm_calls w' = llm_calls w ++ sizing_calls view
          /\ tool_size
             = Z.min 10000
                 (available ai view
                    ÷ Z.of_nat (length (filter (fun m => is_tool m = true) msgs)))).
Proof.
  intros Hh Hmsgs. unfold build_chat_messages.
  destruct (build_prompts ask) as [sp uc]. cbn [fst snd].
  set (c := length (lists w)).
  set (w1 := with_lists (lists w ++ [refs]) w).
  assert (lists w1 !! c = Some refs) as Hc1 by (by apply list_lookup_middle).
  assert (messages_at w1 refs = Some msgs) as Hm1 by exact Hmsgs.
  destruct (system_prompt_effect_post c sp refs msgs w1 Hc1 Hm1)
    as (pre & Hl2 & Hprelen & Hpre & Hother & Hd2 & Hlen2 & Hcalls2).
  pose proof (add_or_update_system_prompt_run c sp refs msgs w1 Hc1 Hm1) as Hrun2.
  set (w2 := system_prompt_effect c sp refs msgs w1) in *.
  set (l_u := length (dicts w2)).
  set (user := new_message (py "user") uc).
  set (refs3 := (pre ++ refs) ++ [l_u]).
  set (w3 := with_lists (<[c := refs3]> (lists w2)) (with_dicts (dicts w2 ++ [user]) w2)).
  (* the references of the assembled history are valid *)
  assert (Forall (fun l => (l < length (dicts w))%nat) refs) as Hvalid.
  { apply messages_at_Forall2 in Hmsgs. apply list.Forall_forall. intros l Hl.
    apply list_elem_of_lookup in Hl as [i Hi].
    destruct (Forall2_lookup_l _ _ _ _ _ Hmsgs Hi) as (m & _ & Hm).
    by eapply lookup_lt_Some. }
  assert (forall l m, dicts w !! l = Some m ->
            dicts w3 !! l = Some (overwritten sp refs l m)) as Hd3.
  { intros l m Hl. simpl. apply lookup_app_l_Some. by apply Hd2. }
  assert (length (dicts w) <= l_u)%nat as Hlu by exact Hlen2.
  assert (dicts w3 !! l_u = Some user) as Hu3.
  { simpl. by apply list_lookup_middle. }
  assert (Forall (fun l => (l < length (dicts w3))%nat) refs3) as Hvalid3.
  { subst refs3. simpl. rewrite length_app. simpl.
    apply Forall_app_2; [apply Forall_app_2|].
    - eapply list.Forall_impl; [exact Hpre|]. intros l (_ & m & Hm & _).
      apply lookup_lt_Some in Hm. fold l_u. lia.
    - eapply list.Forall_impl; [exact Hvalid|]. intros l Hl. cbn beta in Hl. fold l_u. lia.
    - apply Forall_singleton. fold l_u. lia. }
  destruct (messages_at_valid w3 refs3 Hvalid3) as [msgs3 Hmsgs3].
  assert (lists w3 !! c = Some refs3) as Hc3.
  { simpl. apply list_lookup_insert_eq. by eapply lookup_lt_Some. }
  (* the roles in the assembled history *)
  pose proof Hmsgs3 as HF3. apply messages_at_Forall2 in HF3.
  subst refs3. apply Forall2_app_inv_l in HF3 as (mfront & mlast & HF3 & Hlast & ->).
  apply Forall2_app_inv_l in HF3 as (mpre & mmid & HFpre & HFmid & ->).
  apply Forall2_cons_inv_l in Hlast as (mu & mnil & Hmu & Hnil & ->).
  apply Forall2_nil_inv_l in Hnil as ->.
  assert (mu = user) as ->.
  { pose proof (eq_trans (eq_sym Hmu) Hu3) as E. by injection E. }
  assert (Forall (fun m => is_tool m = false) mpre) as Hpre_roles.
  { apply list.Forall_forall. intros m Hm. apply list_elem_of_lookup in Hm as [i Hi].
    destruct (Forall2_lookup_r _ _ _ _ _ HFpre Hi) as (l & Hl & Hlm).
    apply list_elem_of_lookup_2 in Hl.
    destruct (proj1 (list.Forall_forall _ _) Hpre l Hl) as (_ & m' & Hm' & Hrole).
    simpl in Hlm. rewrite (lookup_app_l_Some _ _ _ _ Hm') in Hlm. congruence. }
  assert (Forall2 (fun x y => is_tool x = is_tool y) mmid msgs) as Hroles.
  { apply messages_at_Forall2 in Hmsgs. by eapply same_roles_after. }
  assert (length (filter (fun m => is_tool m = true) ((mpre ++ mmid) ++ [user]))
          = length (filter (fun m => is_tool m = true) msgs)) as Hcount.
  { rewrite !filter_app, (tool_count_none mpre Hpre_roles), !length_app.
    rewrite (tool_count_same_roles _ _ Hroles). simpl. lia. }
  set (view := (mpre ++ mmid) ++ [user]) in *.
  set (n := Z.of_nat (length (filter (fun m => is_tool m = true) view))).
  set (without := filter (fun m => is_tool m = false) view).
  set (ts := Z.min DEFAULT_TOOL_SIZE (available ai without ÷ n)).
  set (w4 := with_llm_calls (llm_calls w3 ++ sizing_calls without) w3).
  set (w5 := with_dicts (foldl (shrink_step ts) (dicts w4) ((pre ++ refs) ++ [l_u])) w4).
  (* the run *)
  assert (build_chat_tail :
    exists w', (if n =? 0 then w' = w3 else w' = w5) /\
    (conversation_history <-
       (refs0 <- get_list h ;;
        match refs0 with
        | [] => new_list []
        | _ :: _ => new_list refs0
        end) ;;
     conversation_history0 <- add_or_update_system_prompt conversation_history sp ;;
     l <- new_dict (new_message (py "user") uc) ;;
     refs0 <- get_list conversation_history0 ;;
     set_list conversation_history0 (refs0 ++ [l]) ;;;
     refs1 <- get_list conversation_history0 ;;
     messages <- deref_all refs1 ;;
     (if Z.of_nat (length (filter (fun m => is_tool m = true) messages)) =? 0
      then ret conversation_history0
      else
        tool_size <-
          calculate_tool_size ai (filter (fun m => is_tool m = false) messages)
            (Z.of_nat (length (filter (fun m => is_tool m = true) messages))) ;;
        truncate_tool_messages conversation_history0 tool_size ;;;
        ret conversation_history0)) w = Some (c, w')).
  { exists (if n =? 0 then w3 else w5). split; [by destruct (n =? 0)|].
    eapply bind_run_eq.
    { eapply bind_run_eq; [by apply get_list_run|]. by destruct refs. }
    eapply bind_run_eq; [exact Hrun2|].
    eapply bind_run_eq; [reflexivity|].
    eapply bind_run_eq; [by apply get_list_run|].
    eapply bind_run_eq; [by eapply set_list_run|].
    eapply bind_run_eq; [by apply get_list_run|].
    eapply bind_run_eq; [by apply deref_all_run|].
    cbn beta. fold view. fold n. fold without.
    destruct (n =? 0) eqn:Hn; [reflexivity|].
    eapply bind_run_eq; [apply calculate_tool_size_run; by apply Z.eqb_neq|].
    eapply bind_run_eq; [|reflexivity].
    by apply truncate_tool_messages_run. }
  destruct build_chat_tail as (w' & Hw' & Hrun).
  exists c, w', ts. split; [exact Hrun|].
  split; [apply lookup_lt_Some in Hh; subst c; lia|].
  assert (lists w' = lists w3) as Hlists.
  { destruct (n =? 0); by subst w'. }
  split.
  { intros r l Hr. rewrite Hlists. simpl.
    assert (r <> c) as Hne by (apply lookup_lt_Some in Hr; subst c; lia).
    rewrite list_lookup_insert_ne by done. rewrite Hother by done.
    by apply lookup_app_l_Some. }
  assert (forall l m, dicts w3 !! l = Some m -> (is_tool m = true -> l ∈ (pre ++ refs) ++ [l_u]) ->
            dicts w' !! l = Some (shrunk ts (occurrences l ((pre ++ refs) ++ [l_u])) m)) as Hd'.
  { intros l m Hl Hin. destruct (n =? 0) eqn:Hn; subst w'.
    - rewrite Hl. f_equal. symmetry. destruct (is_tool m) eqn:Ht; [|by apply shrunk_not_tool].
      exfalso. specialize (Hin eq_refl).
      apply Z.eqb_eq in Hn. subst n.
      assert (filter (fun m => is_tool m = true) view = []) as Hnil.
      { apply length_zero_iff_nil. lia. }
      apply list_elem_of_lookup in Hin as [i Hi].
      apply messages_at_Forall2 in Hmsgs3.
      destruct (Forall2_lookup_l _ _ _ _ _ Hmsgs3 Hi) as (m' & Hm' & Hlm').
      assert (m' = m) as -> by congruence.
      assert (m ∈ filter (fun m => is_tool m = true) view) as Hmem.
      { apply list_elem_of_filter. split; [done|]. by eapply list_elem_of_lookup_2. }
      rewrite Hnil in Hmem. by apply not_elem_of_nil in Hmem.
    - simpl. by apply foldl_shrink_lookup. }
  split.
  { exists pre, l_u.
    split; [rewrite Hlists, app_assoc; exact Hc3|]. split.
    { exact Hprelen. }
    split; [apply lookup_ge_None; lia|].
    rewrite (Hd' l_u user Hu3); [by rewrite shrunk_not_tool|].
    intros _. apply elem_of_app. right. by apply list_elem_of_singleton. }
  split.
  { intros l m Hl. pose proof (lookup_lt_Some _ _ _ Hl) as Hlt.
    assert (occurrences l ((pre ++ refs) ++ [l_u]) = occurrences l refs) as Hocc.
    { rewrite !occurrences_app.
      rewrite (occurrences_fresh l pre), (occurrences_fresh l [l_u]); [lia| |].
      - intros Hin. apply list_elem_of_singleton in Hin. lia.
      - intros Hin. destruct (proj1 (list.Forall_forall _ _) Hpre l Hin) as [Hge _]. simpl in Hge. lia. }
    destruct (decide (l ∈ refs)) as [Hin|Hnin].
    - rewrite (Hd' l _ (Hd3 l m Hl)); [by rewrite Hocc|].
      intros _. apply elem_of_app. left. apply elem_of_app. by right.
    - rewrite (occurrences_fresh l refs Hnin), shrunk_zero.
      destruct (n =? 0) eqn:Hn; subst w'; [by apply Hd3|].
      simpl. rewrite foldl_shrink_lookup_fresh; [by apply Hd3|].
      intros Hin. apply elem_of_app in Hin as [Hin|Hin].
      + apply elem_of_app in Hin as [Hin|Hin]; [|done].
        destruct (proj1 (list.Forall_forall _ _) Hpre l Hin) as [Hge _]. simpl in Hge. lia.
      + apply list_elem_of_singleton in Hin. lia. }
  split.
  { intros Hnone. assert (n = 0) as Hn0.
    { subst n. rewrite Hcount. rewrite tool_count_none; [done|].
      by apply list.Forall_forall. }
    rewrite Hn0 in Hw'. simpl in Hw'. subst w'. simpl. exact Hcalls2. }
  intros (m & Hin & Ht). exists without.
  split; [apply filter_not_tool_Forall|].
  assert (n <> 0) as Hn0.
  { subst n. rewrite Hcount.
    assert (m ∈ filter (fun m => is_tool m = true) msgs) as Hmem
      by (apply list_elem_of_filter; done).
    destruct (filter (fun m => is_tool m = true) msgs); [by apply not_elem_of_nil in Hmem|].
    simpl. lia. }
  apply Z.eqb_neq in Hn0. rewrite Hn0 in Hw'. subst w'. simpl.
  split; [by rewrite Hcalls2|].
  subst ts n. by rewrite Hcount.
Qed.

Lemma build_chat_messages_shares_dicts_witness :
  exists c w',
    build_chat_messages (fixed_prompts (Some (py "new")) (CText (py "why?")))
      (py "why?") (Some 4%nat) (fixed_llm 100 90 4 0) chat_world = Some (c, w')
    /\ lists w' !! 4%nat = Some [0; 1; 3; 2]%nat
    /\ dicts w' !! 0%nat = Some (new_message (py "system") (CText (py "new")))
    /\ dicts w' !! 2%nat = Some (new_message (py "tool") (CText (py "012345")))
    /\ dicts w' !! 1%nat = Some (new_message (py "user") (CText (py "u"))).
Proof.
  destruct (build_chat_messages_shares_dicts
              (fixed_prompts (Some (py "new")) (CText (py "why?")))
              (py "why?") 4%nat (fixed_llm 100 90 4 0) [0; 1; 3; 2]%nat
              [new_message (py "system") (CText (py "old"));
               new_message (py "user") (CText (py "u"));
               new_message (py "assistant") (CText (py "a"));
               new_message (py "tool") (CText (py "0123456789"))]
              chat_world eq_refl eq_refl)
    as (c & w' & ts & Hrun & _ & Hlists & _ & Hdicts & _ & Htool).
  exists c, w'. split; [exact Hrun|].
  split; [by apply Hlists|].
  destruct Htool as (view & _ & _ & Hts).
  { exists (new_message (py "tool") (CText (py "0123456789"))).
    split; [by apply list_elem_of_lookup_2 with 3%nat | reflexivity]. }
  assert (ts = 6) as -> by (rewrite Hts; reflexivity).
  split; [exact (Hdicts 0%nat _ eq_refl)|].
  split; [exact (Hdicts 2%nat _ eq_refl)|].
  exact (Hdicts 1%nat _ eq_refl).
Defined.

(** A history that names the same tool dict twice is cut twice when the
    budget is negative: [-2] takes four characters off the ten. *)
Example build_chat_messages_aliased_tool :
  (build_chat_messages (fixed_prompts None (CText (py "why?"))) (py "why?") (Some 0%nat)
     (fixed_llm 100 104 0 0) (with_lists [[2; 2]%nat] chat_world)
     ≫= fun '(_, w') => dicts w' !! 2%nat)
  = Some (new_message (py "tool") (CText (py "012345"))).
Proof. reflexivity. Qed.

(** C10, as stated, fails when [build_prompts] returns no system prompt
    (the rendered prompt is empty): the system message in first place
    keeps its content. *)
Lemma build_chat_messages_without_system_prompt :
  (build_chat_messages (fixed_prompts None (CText (py "why?"))) (py "why?")
     (Some 1%nat) (fixed_llm 100 90 4 0) chat_world
     ≫= fun '(c, w') => dicts w' !! 0%nat)
  = Some (new_message (py "system") (CText (py "old")))
  /\ lists chat_world !! 1%nat = Some [0; 1]%nat
  /\ dicts chat_world !! 0%nat = Some (new_message (py "system") (CText (py "old"))).
Proof. repeat split. Qed.

(** ** File names of spilled results: [save_large_result] *)

Lemma sub_non_word_length uni s : length (sub_non_word uni s) = length s.
Proof. unfold sub_non_word. apply length_fmap. Qed.

Lemma sub_non_word_lookup uni s i c :
  s !! i = Some c ->
  sub_non_word uni s !! i
    = Some (if re_word uni c || (c =? 45)%N then c else 95%N).
Proof. intros H. unfold sub_non_word. by rewrite list_lookup_fmap, H. Qed.

Lemma re_word_ascii uni c :
  (c < 128)%N -> re_word uni c || (c =? 45)%N = ascii_safe c.
Proof.
  intros Hc. unfold re_word, ascii_safe.
  by rewrite (proj2 (N.ltb_lt c 128) Hc).
Qed.

Lemma sub_non_word_ascii_safe uni s c :
  c ∈ sub_non_word uni s -> (c < 128)%N -> ascii_safe c = true.
Proof.
  unfold sub_non_word. intros Hin Hc.
  apply list_elem_of_fmap in Hin as (c0 & -> & _).
  destruct (re_word uni c0 || (c0 =? 45)%N) eqn:Hw; [|reflexivity].
  by rewrite <- (re_word_ascii uni c0 Hc).
Qed.

(** C7, as stated, fails: [\w] of a [str] pattern is Unicode-aware, so a
    letter outside ASCII such as U+00E9 is kept, whatever the tables say
    above U+00FF. *)
Lemma result_file_name_keeps_unicode_letter :
  (forall uni, result_file_name uni [233%N] (py "id") false = [233%N] ++ py "_id.txt")
  /\ 233%N ∈ [233%N] ++ py "_id.txt"
  /\ ascii_safe 233 = false.
Proof.
  split; [reflexivity|]. split; [|reflexivity]. apply list_elem_of_here.
Qed.

(** C7, amended: the file name is [<safe_name>_<safe_id>.json] or
    [.txt], where the safe strings have the length of the originals and
    hold, position by position, the original character when it is a
    Unicode word character or ['-'] and ['_'] otherwise.  Every ASCII
    character of the file name is in [[A-Za-z0-9_-]] or is the ['.'] of
    the extension, so the name has no ['/'], no ['\'] and no NUL; for
    [../../etc/passwd] the safe name is [______etc_passwd]. *)
Theorem result_file_name_safe uni tool_name tool_call_id is_json :
  result_file_name uni tool_name tool_call_id is_json
    = sub_non_word uni tool_name ++ py "_" ++ sub_non_word uni tool_call_id
        ++ (if is_json then py ".json" else py ".txt")
  /\ length (sub_non_word uni tool_name) = length tool_name
  /\ length (sub_non_word uni tool_call_id) = length tool_call_id
  /\ (forall s i c, s = tool_name \/ s = tool_call_id -> s !! i = Some c ->
        sub_non_word uni s !! i
          = Some (if re_word uni c || (c =? 45)%N then c else 95%N))
  /\ (forall c, c ∈ result_file_name uni tool_name tool_call_id is_json ->
        (c < 128)%N -> ascii_safe c = true \/ c = 46%N)
  /\ (forall c, c ∈ result_file_name uni tool_name tool_call_id is_json ->
        c <> 47%N /\ c <> 92%N /\ c <> 0%N)
  /\ sub_non_word uni (py "../../etc/passwd") = py "______etc_passwd".
Proof.
  split; [reflexivity|].
  split; [apply sub_non_word_length|].
  split; [apply sub_non_word_length|].
  split; [intros s i c _; apply sub_non_word_lookup|].
  assert (forall c, c ∈ result_file_name uni tool_name tool_call_id is_json ->
            (c < 128)%N -> ascii_safe c = true \/ c = 46%N) as Hsafe.
  { intros c Hin Hc. unfold result_file_name in Hin.
    apply elem_of_app in Hin as [Hin|Hin];
      [left; by eapply sub_non_word_ascii_safe|].
    apply elem_of_app in Hin as [Hin|Hin].
    { apply list_elem_of_singleton in Hin as ->. by left. }
    apply elem_of_app in Hin as [Hin|Hin];
      [left; by eapply sub_non_word_ascii_safe|].
    destruct is_json; cbv [py fmap list_fmap list_ascii_of_string N_of_ascii N_of_digits] in Hin;
      simpl in Hin;
      repeat (apply elem_of_cons in Hin as [->|Hin]; [by auto|]);
      by apply elem_of_nil in Hin. }
  split; [exact Hsafe|].
  split; [|reflexivity].
  intros c Hin. repeat split; intros ->; by destruct (Hsafe _ Hin eq_refl).
Qed.

(** ** The scratch directory: [tool_result_storage] *)

#[global] Instance list_fs_laws : RuntimeLaws list_fs.
Proof.
  constructor. intros p fs0 fs' Hrm q Hpq. simpl in *.
  injection Hrm as <-. apply bool_decide_eq_false.
  intros Hin. apply list_elem_of_filter in Hin as [Hnot _]. by apply Hnot.
Qed.

#[global] Instance locked_fs_laws : RuntimeLaws locked_fs.
Proof. constructor. intros p fs0 fs' Hrm. simpl in Hrm. discriminate. Qed.

(** C9: once the scope is entered, the statement ends with the outcome
    of its body, a value or the exception the body raised, and never with
    an exception of the cleanup; [shutil.rmtree] has run on
    [<base>/<chat_id>] in the file system the body left; when it returned
    normally, nothing at or below that directory exists any more and the
    removal is logged at debug level; when it raised, that is logged as a
    warning and the file system is as the failed removal left it. *)
Theorem tool_result_storage_cleanup (os : Runtime) `{!RuntimeLaws os} (A : Type)
    (base : Path) (chat_id : pystr)
    (body : Path -> Env os -> (A + Exn) * Env os) (env : Env os) (fs1 : FS os) :
  mkdir_parents os (base ++ [chat_id] ++ [py "tool_results"]) (fs env) = (fs1, None) ->
  let chat_root := base ++ [chat_id] in
  let after_body := body (base ++ [chat_id] ++ [py "tool_results"]) (with_fs fs1 env) in
  let after_exit := tool_result_storage base chat_id body env in
  after_exit.1 = after_body.1
  /\ sentry after_exit.2 = sentry after_body.2
  /\ fs after_exit.2 = (rmtree os chat_root (fs after_body.2)).1
  /\ match (rmtree os chat_root (fs after_body.2)).2 with
     | None =>
       (forall q, chat_root `prefix_of` q -> path_exists os (fs after_exit.2) q = false)
       /\ log after_exit.2
          = log after_body.2
              ++ [(DEBUG, py "Cleaned up tool result storage: " ++ path_str os chat_root)]
     | Some e =>
       log after_exit.2
         = log after_body.2
             ++ [(WARNING, py "Failed to cleanup tool result storage "
                             ++ path_str os chat_root ++ py ": " ++ exn_str e)]
     end.
Proof.
  intros Hmk chat_root after_body after_exit.
  subst after_exit after_body. unfold tool_result_storage. rewrite Hmk.
  destruct (body (base ++ [chat_id] ++ [py "tool_results"]) (with_fs fs1 env))
    as [outcome env2].
  fold chat_root. cbn [fst snd].
  destruct (rmtree os chat_root (fs env2)) as [fs3 [e|]] eqn:Hrm; cbn [fst snd].
  - repeat split.
  - repeat split. intros q Hq. simpl. by eapply rmtree_removes.
Qed.

Lemma tool_result_storage_cleanup_witness :
  (tool_result_storage (os := list_fs) [py "tmp"] (py "c0ffee") body_raises
     (empty_env list_fs [])).1 = inr (Exception (py "boom"))
  /\ forall q, [py "tmp"; py "c0ffee"] `prefix_of` q ->
       path_exists list_fs
         (fs (tool_result_storage (os := list_fs) [py "tmp"] (py "c0ffee") body_raises
                (empty_env list_fs [])).2) q = false.
Proof.
  destruct (tool_result_storage_cleanup list_fs nat [py "tmp"] (py "c0ffee")
              body_raises (empty_env list_fs []) _ eq_refl)
    as (Hout & _ & _ & Hgone).
  split; [exact Hout|]. exact (proj1 Hgone).
Defined.

(** The scope on the two bodies and the two file systems: the directory
    and the file exist while the body runs; afterwards nothing is left
    when the removal works, and the outcome is the body's in all cases. *)
Example tool_result_storage_runs :
  body_returns (os := list_fs) [py "tmp"; py "c0ffee"; py "tool_results"]
      (empty_env list_fs [[py "tmp"]; [py "tmp"; py "c0ffee"];
                          [py "tmp"; py "c0ffee"; py "tool_results"]])
    = (inl 7%nat,
       mkEnv (os := list_fs)
         [[py "tmp"]; [py "tmp"; py "c0ffee"];
          [py "tmp"; py "c0ffee"; py "tool_results"];
          [py "tmp"; py "c0ffee"; py "tool_results"; py "kubectl_call_1.json"]]
         [(INFO, py "Saved large tool result to filesystem: /tmp/c0ffee/tool_results/kubectl_call_1.json")]
         [] true)
  /\ (let r := tool_result_storage (os := list_fs) [py "tmp"] (py "c0ffee") body_returns
                 (empty_env list_fs []) in
      r.1 = inl 7%nat /\ fs r.2 = [[py "tmp"]]
      /\ List.last (log r.2) (INFO, [])
         = (DEBUG, py "Cleaned up tool result storage: /tmp/c0ffee"))
  /\ (let r := tool_result_storage (os := locked_fs) [py "tmp"] (py "c0ffee") body_raises
                 (empty_env locked_fs []) in
      r.1 = inr (Exception (py "boom"))
      /\ List.last (log r.2) (INFO, [])
         = (WARNING, py "Failed to cleanup tool result storage /tmp/c0ffee: Permission denied")).
Proof. vm_compute. repeat split. Qed.

(** ** The overflow policy: [prevent_overly_big_tool_response] *)

(** C4: a result whose status is not [SUCCESS], or whose message fits
    the single-tool limit, comes back as it was, with the token count of
    its message; no file is written, nothing is logged or reported. *)
Theorem prevent_overly_big_tool_response_noop {os} meth t llm dir (env : Env os) :
  status (result t) <> SUCCESS
  \/ count_tokens llm [as_tool_call_message meth t]
       <= get_max_token_count_for_single_tool llm ->
  prevent_overly_big_tool_response meth t llm dir env
    = ((count_tokens llm [as_tool_call_message meth t], t), env).
Proof.
  intros H. unfold prevent_overly_big_tool_response.
  destruct (bool_decide (status (result t) = SUCCESS)) eqn:Hs; simpl; [|done].
  destruct H as [H|H]; [by apply bool_decide_eq_true in Hs|].
  by rewrite (proj2 (Z.leb_le _ _) H).
Qed.

Lemma prevent_overly_big_tool_response_noop_witness :
  prevent_overly_big_tool_response (os := list_fs) text_methods failed_result
      (fixed_llm 1000 50 0 10) (Some [py "tmp"]) (empty_env list_fs [[py "tmp"]])
    = ((50, failed_result), empty_env list_fs [[py "tmp"]])
  /\ prevent_overly_big_tool_response (os := list_fs) text_methods log_result
      (fixed_llm 1000 50 0 50) (Some [py "tmp"]) (empty_env list_fs [[py "tmp"]])
    = ((50, log_result), empty_env list_fs [[py "tmp"]]).
Proof.
  split.
  - apply (prevent_overly_big_tool_response_noop (os := list_fs) text_methods failed_result
             (fixed_llm 1000 50 0 10) (Some [py "tmp"]) (empty_env list_fs [[py "tmp"]])).
    left. discriminate.
  - apply (prevent_overly_big_tool_response_noop (os := list_fs) text_methods log_result
             (fixed_llm 1000 50 0 50) (Some [py "tmp"]) (empty_env list_fs [[py "tmp"]])).
    right. simpl. lia.
Defined.

Lemma too_large_error_nonempty si : too_large_error si <> [].
Proof.
  unfold too_large_error. intros H. apply (f_equal length) in H.
  rewrite !length_app in H. simpl in H. lia.
Qed.

(** C1, amended: for a successful result whose message exceeds the
    single-tool limit the function returns the token count measured
    before any change, and exactly one of two outcomes holds: (a) a
    directory was given, storage is enabled and [save_large_result]
    returned a path; the status is still [SUCCESS] and the data is the
    boilerplate with that path followed by a preview, possibly empty, of
    at most [max(0, max_tokens_allowed * 2 - len(boilerplate))]
    characters; or (b) the status is [ERROR], the data is [None] and the
    error is a non-empty string. *)
Theorem prevent_overly_big_tool_response_oversized {os} meth t llm dir (env : Env os) :
  status (result t) = SUCCESS ->
  get_max_token_count_for_single_tool llm < count_tokens llm [as_tool_call_message meth t] ->
  let tokens := count_tokens llm [as_tool_call_message meth t] in
  let max_tokens := get_max_token_count_for_single_tool llm in
  let text := (stringify_data meth (result t)).1 in
  let is_json := (stringify_data meth (result t)).2 in
  let r := prevent_overly_big_tool_response meth t llm dir env in
  let saved :=
    exists d file_path env1,
      dir = Some d
      /\ HOLMES_TOOL_RESULT_STORAGE_ENABLED env = true
      /\ save_large_result d (tool_name t) (tool_call_id t) text is_json env
         = (Some file_path, env1)
      /\ spilled tokens max_tokens text file_path r.1.2 in
  r.1.1 = tokens
  /\ tool_name r.1.2 = tool_name t
  /\ tool_call_id r.1.2 = tool_call_id t
  /\ (saved \/ dropped r.1.2)
  /\ ~ (saved /\ dropped r.1.2).
Proof.
  intros Hs Hbig tokens max_tokens text is_json r saved.
  assert (r.1.1 = tokens /\ tool_name r.1.2 = tool_name t
          /\ tool_call_id r.1.2 = tool_call_id t /\ (saved \/ dropped r.1.2)) as Hmain.
  { subst r saved. unfold prevent_overly_big_tool_response.
    rewrite Hs. cbn [bool_decide decide_rel negb].
    rewrite bool_decide_eq_true_2 by done. cbn [negb].
    fold tokens max_tokens. rewrite (proj2 (Z.leb_gt tokens max_tokens) Hbig).
    assert (forall env1 : Env os,
      dropped (set_result {| status := ERROR; data := None;
                             error := Some (too_large_error (size_info tokens max_tokens)) |} t))
      as Hdrop.
    { intros _. split; [done|]. split; [done|]. eexists. split; [reflexivity|].
      apply too_large_error_nonempty. }
    destruct dir as [d|]; [|cbn; repeat split; right; by apply Hdrop].
    destruct (HOLMES_TOOL_RESULT_STORAGE_ENABLED env) eqn:Hen;
      [|cbn; repeat split; right; by apply Hdrop].
    subst text is_json.
    destruct (stringify_data meth (result t)) as [filesystem_data json] eqn:Hstr.
    cbn [fst snd].
    destruct (save_large_result d (tool_name t) (tool_call_id t) filesystem_data json env)
      as [[[|c p]|] env1] eqn:Hsave; [cbn; repeat split; right; by apply Hdrop | |
                                      cbn; repeat split; right; by apply Hdrop].
    cbn [fst snd set_result tool_name tool_call_id result].
    split; [done|]. split; [done|]. split; [done|].
    left. exists d, (c :: p), env1. split; [done|]. split; [done|]. split; [done|].
    unfold spilled. cbn [result set_result status data].
    split; [done|]. split; [done|].
    eexists. split; [reflexivity|]. unfold preview_budget.
    change (4 / 2) with 2.
    split; [reflexivity|]. split; [apply py_slice_to_prefix|].
    pose proof (py_slice_to_length_nonneg
      (Z.max 0 (max_tokens * 2
                - Z.of_nat (length (boilerplate (size_info tokens max_tokens) (c :: p)))))
      filesystem_data) as Hlen.
    lia. }
  destruct Hmain as (H1 & H2 & H3 & H4). repeat split; try done.
  intros [(d & fp & env1 & _ & _ & _ & Hsp) Hdr].
  destruct Hsp as [Hsucc _]. destruct Hdr as [Herr _]. congruence.
Qed.

(** C1, as stated, fails: with a single-tool limit of 10 tokens the
    preview budget [max(0, 20 - 236)] is 0, the file is saved, the status
    stays [SUCCESS], and the data is the boilerplate with nothing behind
    it: the preview is empty, and the result is no error either. *)
Lemma prevent_overly_big_tool_response_empty_preview :
  status (result log_result) = SUCCESS
  /\ get_max_token_count_for_single_tool (fixed_llm 1000 500 0 10)
       < count_tokens (fixed_llm 1000 500 0 10) [as_tool_call_message text_methods log_result]
  /\ status (result (spill_run 10).1.2) = SUCCESS
  /\ data (result (spill_run 10).1.2)
     = Some (DStr (boilerplate (size_info 500 10) (py "/tmp/kubectl_logs_call_1.txt")))
  /\ preview_budget 10 (boilerplate (size_info 500 10) (py "/tmp/kubectl_logs_call_1.txt")) = 0
  /\ (forall preview,
        data (result (spill_run 10).1.2)
          = Some (DStr (boilerplate (size_info 500 10) (py "/tmp/kubectl_logs_call_1.txt")
                          ++ preview)) ->
        preview = [])
  /\ ~ dropped (spill_run 10).1.2.
Proof.
  split; [reflexivity|]. split; [simpl; lia|]. split; [reflexivity|].
  assert (data (result (spill_run 10).1.2)
          = Some (DStr (boilerplate (size_info 500 10) (py "/tmp/kubectl_logs_call_1.txt")
                          ++ []))) as Hdata by (vm_compute; reflexivity).
  split; [by rewrite Hdata, app_nil_r|].
  split; [reflexivity|].
  split.
  - intros preview Hp. rewrite Hdata in Hp. by injection Hp as <-.
  - intros [Herr _]. vm_compute in Herr. discriminate.
Qed.

Lemma prevent_overly_big_tool_response_oversized_witness :
  (spill_run 130).1.1 = 500
  /\ status (result (spill_run 130).1.2) = SUCCESS
  /\ data (result (spill_run 130).1.2)
     = Some (DStr (boilerplate (size_info 500 130) (py "/tmp/kubectl_logs_call_1.txt")
                     ++ py "line 1; line 2; line 3;"))
  /\ ~ dropped (spill_run 130).1.2.
Proof.
  pose proof (prevent_overly_big_tool_response_oversized (os := list_fs) text_methods
                log_result (fixed_llm 1000 500 0 130) (Some [py "tmp"])
                (empty_env list_fs [[py "tmp"]]) eq_refl eq_refl)
    as (Hcount & _ & _ & Hcases & Hexcl).
  split; [exact Hcount|]. split; [reflexivity|]. split; [vm_compute; reflexivity|].
  intros Hd. destruct Hcases as [Hs|Hd']; [exact (Hexcl (conj Hs Hd))|].
  destruct Hd as [Herr _]. vm_compute in Herr. discriminate.
Defined.

(** Without a scratch directory, with storage switched off, or when the
    write fails, the oversized result is dropped and reported. *)
Example prevent_overly_big_tool_response_drops :
  dropped (prevent_overly_big_tool_response (os := list_fs) text_methods log_result
             (fixed_llm 1000 500 0 130) None (empty_env list_fs [[py "tmp"]])).1.2
  /\ dropped (prevent_overly_big_tool_response (os := locked_fs) text_methods log_result
             (fixed_llm 1000 500 0 130) (Some [py "tmp"]) (empty_env locked_fs [[py "tmp"]])).1.2
  /\ length (sentry (prevent_overly_big_tool_response (os := locked_fs) text_methods log_result
             (fixed_llm 1000 500 0 130) (Some [py "tmp"]) (empty_env locked_fs [[py "tmp"]])).2)
     = 1%nat.
Proof.
  repeat split; try (eexists; split; [reflexivity | by vm_compute]).
Qed.

(** ** More on [truncate_tool_messages] *)

Lemma foldl_shrink_length ts refs d : length (foldl (shrink_step ts) d refs) = length d.
Proof.
  revert d. induction refs as [|l refs IH]; intros d; [done|].
  cbn [foldl]. by rewrite IH, shrink_step_length.
Qed.

Lemma content_slice_to_idemp ts c :
  0 <= ts -> content_slice_to ts (content_slice_to ts c) = content_slice_to ts c.
Proof. intros H. destruct c; simpl; by rewrite py_slice_to_idemp. Qed.

Lemma iter_slice_nonneg ts k c :
  0 <= ts -> Nat.iter (S k) (content_slice_to ts) c = content_slice_to ts c.
Proof.
  intros H. induction k as [|k IH]; [done|].
  change (Nat.iter (S (S k)) (content_slice_to ts) c)
    with (content_slice_to ts (Nat.iter (S k) (content_slice_to ts) c)).
  by rewrite IH, content_slice_to_idemp.
Qed.

Lemma content_size_slice_nonneg ts c :
  0 <= ts -> content_size (content_slice_to ts c) = Z.min ts (content_size c).
Proof.
  intros H. unfold content_size. destruct c; simpl; by apply py_slice_to_length_nonneg.
Qed.

Lemma content_size_slice_neg ts c :
  ts < 0 -> content_size (content_slice_to ts c) = Z.max 0 (content_size c + ts).
Proof.
  intros H. unfold content_size. destruct c; simpl; by apply py_slice_to_length_neg.
Qed.

Lemma content_size_iter_neg ts k c :
  ts < 0 ->
  content_size (Nat.iter k (content_slice_to ts) c)
    = Z.max 0 (content_size c + Z.of_nat k * ts).
Proof.
  intros H. induction k as [|k IH].
  - simpl. unfold content_size. lia.
  - change (Nat.iter (S k) (content_slice_to ts) c)
      with (content_slice_to ts (Nat.iter k (content_slice_to ts) c)).
    rewrite content_size_slice_neg, IH by done. lia.
Qed.

Lemma occurrences_pos l refs : l ∈ refs -> exists k, occurrences l refs = S k.
Proof.
  intros Hin. unfold occurrences.
  assert (l ∈ filter (fun x => x = l) refs) as Hf by (by apply list_elem_of_filter).
  destruct (filter (fun x => x = l) refs) as [|x xs]; [by apply not_elem_of_nil in Hf|].
  by exists (length xs).
Qed.

Lemma truncate_tool_messages_world h ts refs w :
  lists w !! h = Some refs ->
  Forall (fun l => (l < length (dicts w))%nat) refs ->
  exists w',
    truncate_tool_messages h ts w = Some (tt, w')
    /\ lists w' = lists w /\ tool_objs w' = tool_objs w /\ llm_calls w' = llm_calls w
    /\ length (dicts w') = length (dicts w)
    /\ forall l m, dicts w !! l = Some m ->
         dicts w' !! l = Some (shrunk ts (occurrences l refs) m).
Proof.
  intros Hh Hv. eexists. split; [by apply truncate_tool_messages_run|].
  simpl. repeat split; try done.
  - apply foldl_shrink_length.
  - intros l m Hl. by apply foldl_shrink_lookup.
Qed.

(** With a budget [>= 0], [truncate_tool_messages] leaves every tool
    message of the history with the first [tool_size] items of its
    content, so with at most [tool_size] of them; roles and the other
    keys stay; messages of another role and dicts outside the history are
    as before, and so is every list object. *)
Theorem truncate_tool_messages_fits h ts refs w :
  lists w !! h = Some refs ->
  Forall (fun l => (l < length (dicts w))%nat) refs ->
  0 <= ts ->
  exists w',
    truncate_tool_messages h ts w = Some (tt, w')
    /\ lists w' = lists w
    /\ forall l m, dicts w !! l = Some m ->
         exists m', dicts w' !! l = Some m'
           /\ role m' = role m /\ other_keys m' = other_keys m
           /\ (l ∈ refs -> is_tool m = true ->
                 content m' = content_slice_to ts (content m)
                 /\ content_size (content m') <= ts)
           /\ (l ∉ refs \/ is_tool m = false -> m' = m).
Proof.
  intros Hh Hv Hts.
  destruct (truncate_tool_messages_world h ts refs w Hh Hv)
    as (w' & Hrun & Hlists & _ & _ & _ & Hd).
  exists w'. split; [done|]. split; [done|].
  intros l m Hl. exists (shrunk ts (occurrences l refs) m).
  split; [by apply Hd|]. unfold shrunk.
  split; [by destruct (is_tool m)|]. split; [by destruct (is_tool m)|]. split.
  - intros Hin Ht. rewrite Ht. destruct (occurrences_pos l refs Hin) as [k ->].
    unfold set_content. cbn [content]. rewrite iter_slice_nonneg by done.
    split; [done|]. rewrite content_size_slice_nonneg by done. lia.
  - intros [Hnin|Hnt].
    + rewrite (occurrences_fresh l refs Hnin). destruct (is_tool m); [|done].
      apply set_content_same.
    + by rewrite Hnt.
Qed.

Lemma truncate_tool_messages_fits_witness :
  exists w',
    truncate_tool_messages 4%nat 6 chat_world = Some (tt, w')
    /\ dicts w' !! 2%nat = Some (new_message (py "tool") (CText (py "012345")))
    /\ dicts w' !! 1%nat = Some (new_message (py "user") (CText (py "u"))).
Proof.
  destruct (truncate_tool_messages_fits 4%nat 6 [0; 1; 3; 2]%nat chat_world eq_refl)
    as (w' & Hrun & _ & Hd); [repeat constructor | lia |].
  exists w'. split; [exact Hrun|]. split.
  - destruct (Hd 2%nat _ eq_refl) as (m' & Hm' & Hrole & Hkeys & Htool & _).
    destruct Htool as [Hc _]; [by apply list_elem_of_lookup_2 with 3%nat | reflexivity|].
    rewrite Hm'. f_equal. destruct m' as [r c k]. simpl in *. by subst.
  - destruct (Hd 1%nat _ eq_refl) as (m' & Hm' & _ & _ & _ & Hsame).
    rewrite Hm'. f_equal. apply Hsame. by right.
Defined.

Lemma shrunk_idemp ts k m : 0 <= ts -> shrunk ts k (shrunk ts k m) = shrunk ts k m.
Proof.
  intros Hts. unfold shrunk. destruct (is_tool m) eqn:Ht; [|by rewrite Ht].
  unfold is_tool in *. simpl. rewrite Ht. unfold set_content. simpl. f_equal.
  destruct k as [|k]; [done|]. by rewrite !iter_slice_nonneg, content_slice_to_idemp.
Qed.

(** With a budget [>= 0], truncating a second time changes nothing. *)
Theorem truncate_tool_messages_idempotent h ts refs w :
  lists w !! h = Some refs ->
  Forall (fun l => (l < length (dicts w))%nat) refs ->
  0 <= ts ->
  (truncate_tool_messages h ts ;;; truncate_tool_messages h ts) w
    = truncate_tool_messages h ts w.
Proof.
  intros Hh Hv Hts.
  rewrite (truncate_tool_messages_run h ts refs w Hh Hv).
  eapply bind_run_eq; [by apply truncate_tool_messages_run|].
  rewrite (truncate_tool_messages_run h ts refs); [|done|]; cycle 1.
  { simpl. rewrite foldl_shrink_length. exact Hv. }
  simpl. do 2 f_equal. unfold with_dicts. simpl. f_equal.
  apply list_eq. intros i.
  destruct (dicts w !! i) as [m|] eqn:Hi.
  - rewrite (foldl_shrink_lookup ts refs _ i _ (foldl_shrink_lookup ts refs _ i m Hi)).
    rewrite (foldl_shrink_lookup ts refs _ i m Hi). by rewrite shrunk_idemp.
  - apply lookup_ge_None in Hi.
    rewrite !(proj2 (lookup_ge_None _ _)); [done| |]; rewrite ?foldl_shrink_length; done.
Qed.

Lemma truncate_tool_messages_idempotent_witness :
  (truncate_tool_messages 4%nat 6 ;;; truncate_tool_messages 4%nat 6) chat_world
    = truncate_tool_messages 4%nat 6 chat_world.
Proof.
  apply (truncate_tool_messages_idempotent 4%nat 6 [0; 1; 3; 2]%nat chat_world eq_refl);
    [repeat constructor | lia].
Defined.

(** With a budget [< 0], every occurrence of a tool dict in the history
    takes [-tool_size] items off the end of its content: a dict the
    history names [k] times keeps [max(0, len + k * tool_size)] items. *)
Theorem truncate_tool_messages_negative h ts refs w :
  lists w !! h = Some refs ->
  Forall (fun l => (l < length (dicts w))%nat) refs ->
  ts < 0 ->
  exists w',
    truncate_tool_messages h ts w = Some (tt, w')
    /\ forall l m, dicts w !! l = Some m -> is_tool m = true ->
         exists m', dicts w' !! l = Some m'
           /\ content_size (content m')
              = Z.max 0 (content_size (content m) + Z.of_nat (occurrences l refs) * ts).
Proof.
  intros Hh Hv Hts.
  destruct (truncate_tool_messages_world h ts refs w Hh Hv)
    as (w' & Hrun & _ & _ & _ & _ & Hd).
  exists w'. split; [done|]. intros l m Hl Ht.
  exists (shrunk ts (occurrences l refs) m). split; [by apply Hd|].
  unfold shrunk. rewrite Ht. simpl. by apply content_size_iter_neg.
Qed.

Lemma truncate_tool_messages_negative_witness :
  exists w',
    truncate_tool_messages 0%nat (-2) (with_lists [[2; 2]%nat] chat_world) = Some (tt, w')
    /\ exists m', dicts w' !! 2%nat = Some m' /\ content_size (content m') = 6.
Proof.
  destruct (truncate_tool_messages_negative 0%nat (-2) [2; 2]%nat
              (with_lists [[2; 2]%nat] chat_world) eq_refl)
    as (w' & Hrun & Hd); [repeat constructor | lia |].
  exists w'. split; [exact Hrun|].
  destruct (Hd 2%nat _ eq_refl eq_refl) as (m' & Hm' & Hsize).
  exists m'. split; [exact Hm'|]. exact Hsize.
Defined.

(** ** Assembling an issue chat: [build_issue_chat_messages] *)

Lemma read_tools_run tools refs ts w :
  lists w !! tools = Some refs ->
  tools_at w refs = Some ts ->
  read_tools tools w = Some (ts, w).
Proof.
  intros Hl Hts. unfold read_tools.
  eapply bind_run_eq; [by apply get_list_run|]. cbn beta.
  clear Hl. unfold tools_at in Hts. apply mapM_Some in Hts.
  induction Hts as [|r t refs ts Hr _ IH]; [done|].
  cbn [comprehension].
  eapply bind_run_eq; [unfold get_tool; by rewrite Hr|].
  eapply bind_run_eq; [exact IH|]. done.
Qed.

Lemma tools_at_app w refs ts extra :
  tools_at w refs = Some ts ->
  tools_at (with_tool_objs (tool_objs w ++ extra) w) refs = Some ts.
Proof.
  unfold tools_at. rewrite !mapM_Some. intros H.
  eapply Forall2_impl; [exact H|]. intros r t Hr. simpl. by apply lookup_app_l_Some.
Qed.

Lemma tools_at_seq (old new : list ToolCallConversationResult) :
  mapM (fun r => (old ++ new) !! r) (seq (length old) (length new)) = Some new.
Proof.
  apply mapM_Some. apply Forall2_same_length_lookup.
  split; [by rewrite length_seq|].
  intros i r t Hr Ht. apply lookup_seq in Hr as [-> Hi].
  rewrite lookup_app_r by lia.
  by replace (length old + i - length old)%nat with i by lia.
Qed.

(** A new conversation for an investigation that called no tool: the
    result is a new list of two new dicts, the system message rendered
    with the empty tool list and the user turn; the accountant is not
    called; no object that existed is changed, the caller's empty history
    among them. *)
Theorem build_issue_chat_messages_new_without_tools
    render generate_user_prompt conversation_history ask tools ai w :
  conversation_history = None
  \/ (exists h, conversation_history = Some h /\ lists w !! h = Some []) ->
  lists w !! tools = Some [] ->
  exists c w' s u,
    build_issue_chat_messages render generate_user_prompt conversation_history ask tools ai w
      = Some (c, w')
    /\ lists w !! c = None
    /\ lists w' !! c = Some [s; u]
    /\ dicts w !! s = None /\ dicts w !! u = None
    /\ dicts w' !! s = Some (new_message (py "system") (CText (render (Some []))))
    /\ dicts w' !! u = Some (new_message (py "user") (CText (generate_user_prompt ask)))
    /\ llm_calls w' = llm_calls w
    /\ tool_objs w' = tool_objs w
    /\ (forall l m, dicts w !! l = Some m -> dicts w' !! l = Some m)
    /\ (forall r l, lists w !! r = Some l -> lists w' !! r = Some l).
Proof.
  intros Hch Htools.
  set (sys := new_message (py "system") (CText (render (Some [])))).
  set (user := new_message (py "user") (CText (generate_user_prompt ask))).
  exists (length (lists w)),
    (with_lists (lists w ++ [[length (dicts w); S (length (dicts w))]])
       (with_dicts (dicts w ++ [sys; user]) w)),
    (length (dicts w)), (S (length (dicts w))).
  split.
  { unfold build_issue_chat_messages.
    destruct Hch as [->|(h & -> & Hh)].
    - eapply bind_run_eq; [by apply get_list_run|]. cbn beta. simpl (Z.of_nat _ =? 0).
      cbn match.
      eapply bind_run_eq; [by eapply read_tools_run|].
      eapply bind_run_eq; [reflexivity|]. eapply bind_run_eq; [reflexivity|].
      unfold new_list, with_lists, with_dicts; simpl.
      rewrite length_app, <- app_assoc. simpl. by rewrite Nat.add_1_r.
    - eapply bind_run_eq; [by apply get_list_run|]. cbn beta match.
      eapply bind_run_eq; [by apply get_list_run|]. cbn beta. simpl (Z.of_nat _ =? 0).
      cbn match.
      eapply bind_run_eq; [by eapply read_tools_run|].
      eapply bind_run_eq; [reflexivity|]. eapply bind_run_eq; [reflexivity|].
      unfold new_list, with_lists, with_dicts; simpl.
      rewrite length_app, <- app_assoc. simpl. by rewrite Nat.add_1_r. }
  simpl.
  split; [apply lookup_ge_None; lia|].
  split; [by apply list_lookup_middle|].
  split; [apply lookup_ge_None; lia|].
  split; [apply lookup_ge_None; lia|].
  split; [by apply list_lookup_middle|].
  split.
  { change (dicts w ++ [sys; user]) with (dicts w ++ [sys] ++ [user]).
    rewrite app_assoc. apply list_lookup_middle. rewrite length_app. simpl. lia. }
  split; [done|]. split; [done|].
  split; [intros l m Hl; by apply lookup_app_l_Some|].
  intros r l Hr. by apply lookup_app_l_Some.
Qed.

Lemma bind_assoc {A B C} (m : M A) (f : A -> M B) (g : B -> M C) w :
  bind (bind m f) g w = bind m (fun x => bind (f x) g) w.
Proof. unfold bind. by destruct (m w) as [[a w']|]. Qed.

Lemma tools_at_length w refs ts : tools_at w refs = Some ts -> length ts = length refs.
Proof.
  unfold tools_at. rewrite mapM_Some. intros H. symmetry. by eapply Forall2_length.
Qed.

(** The tool results [truncate_tool_outputs] has built can be read back. *)
Lemma read_truncated_run tools ts refs tvals w :
  lists w !! tools = Some refs ->
  tools_at w refs = Some tvals ->
  (truncated_list <- truncate_tool_outputs tools ts ;; read_tools truncated_list) w
  = Some (truncated ts <$> tvals,
          with_lists (lists w ++ [seq (length (tool_objs w)) (length refs)])
            (with_tool_objs (tool_objs w ++ (truncated ts <$> tvals)) w)).
Proof.
  intros Hl Hts.
  eapply bind_run_eq; [by apply (truncate_tool_outputs_run tools ts refs tvals)|].
  eapply read_tools_run.
  - simpl. by apply list_lookup_middle.
  - unfold tools_at. simpl.
    rewrite <- (tools_at_length w refs tvals Hts).
    rewrite <- (length_fmap (truncated ts) tvals). apply tools_at_seq.
Qed.

(** A new conversation for an investigation with tool results: the
    budget is computed for the two messages rendered without tools and
    the number of tool results; the result is a new list of two new
    dicts, the system message rendered with copies of the tool results
    truncated to the budget, and the user turn; the tool results
    themselves and every other object that existed are unchanged. *)
Theorem build_issue_chat_messages_new_with_tools
    render generate_user_prompt conversation_history ask tools ai tool_refs tvals w :
  conversation_history = None
  \/ (exists h, conversation_history = Some h /\ lists w !! h = Some []) ->
  lists w !! tools = Some tool_refs ->
  tool_refs <> [] ->
  tools_at w tool_refs = Some tvals ->
  let user := new_message (py "user") (CText (generate_user_prompt ask)) in
  let measured := [new_message (py "system") (CText (render None)); user] in
  let tool_size :=
    Z.min 10000 (available ai measured ÷ Z.of_nat (length tool_refs)) in
  exists c w' s u,
    build_issue_chat_messages render generate_user_prompt conversation_history ask tools ai w
      = Some (c, w')
    /\ lists w !! c = None
    /\ lists w' !! c = Some [s; u]
    /\ dicts w !! s = None /\ dicts w !! u = None
    /\ dicts w' !! s
       = Some (new_message (py "system")
                 (CText (render (Some (truncated tool_size <$> tvals)))))
    /\ dicts w' !! u = Some user
    /\ llm_calls w' = llm_calls w ++ sizing_calls measured
    /\ lists w' !! tools = Some tool_refs
    /\ tools_at w' tool_refs = Some tvals
    /\ (forall l m, dicts w !! l = Some m -> dicts w' !! l = Some m)
    /\ (forall r l, lists w !! r = Some l -> lists w' !! r = Some l).
Proof.
  intros Hch Htools Hne Htv user measured tool_size.
  set (sys := new_message (py "system")
                (CText (render (Some (truncated tool_size <$> tvals))))).
  assert (Z.of_nat (length tool_refs) <> 0) as Hn.
  { destruct tool_refs; [done|]. simpl. lia. }
  set (w1 := with_llm_calls (llm_calls w ++ sizing_calls measured) w).
  assert (forall (k : M loc), k = (
      tool_refs0 <- get_list tools ;;
      (if Z.of_nat (length tool_refs0) =? 0
       then
         tools0 <- read_tools tools ;;
         s <- new_dict (new_message (py "system") (CText (render (Some tools0)))) ;;
         u <- new_dict (new_message (py "user") (CText (generate_user_prompt ask))) ;;
         new_list [s; u]
       else
         tool_size0 <-
           calculate_tool_size ai
             [new_message (py "system") (CText (render None));
              new_message (py "user") (CText (generate_user_prompt ask))]
             (Z.of_nat (length tool_refs0)) ;;
         truncated0 <- truncate_tool_outputs tools tool_size0 ;;
         tools0 <- read_tools truncated0 ;;
         s <- new_dict (new_message (py "system") (CText (render (Some tools0)))) ;;
         u <- new_dict (new_message (py "user") (CText (generate_user_prompt ask))) ;;
         new_list [s; u])) ->
    k w = Some (S (length (lists w)),
                with_lists ((lists w ++ [seq (length (tool_objs w)) (length tool_refs)])
                              ++ [[length (dicts w); S (length (dicts w))]])
                  (with_dicts (dicts w ++ [sys; user])
                     (with_tool_objs (tool_objs w ++ (truncated tool_size <$> tvals)) w1))))
    as Hnew.
  { intros k ->.
    eapply bind_run_eq; [by apply get_list_run|]. cbn beta.
    rewrite (proj2 (Z.eqb_neq _ 0) Hn).
    eapply bind_run_eq; [by apply calculate_tool_size_run|].
    fold measured. fold (available ai measured). fold tool_size. fold w1.
    lazymatch goal with
    | |- bind ?m (fun t => bind (read_tools t) ?K) ?w0 = _ =>
      rewrite <- (bind_assoc m read_tools K w0)
    end.
    eapply bind_run_eq; [by apply (read_truncated_run tools tool_size tool_refs tvals)|].
    eapply bind_run_eq; [reflexivity|]. eapply bind_run_eq; [reflexivity|].
    unfold new_list, with_lists, with_dicts; simpl.
    rewrite !length_app, <- app_assoc. simpl. by rewrite !Nat.add_1_r. }
  exists (S (length (lists w))),
    (with_lists ((lists w ++ [seq (length (tool_objs w)) (length tool_refs)])
                   ++ [[length (dicts w); S (length (dicts w))]])
       (with_dicts (dicts w ++ [sys; user])
          (with_tool_objs (tool_objs w ++ (truncated tool_size <$> tvals)) w1))),
    (length (dicts w)), (S (length (dicts w))).
  split.
  { unfold build_issue_chat_messages. destruct Hch as [->|(h & -> & Hh)].
    - by apply Hnew.
    - eapply bind_run_eq; [by apply get_list_run|]. cbn beta match. by apply Hnew. }
  simpl.
  split; [apply lookup_ge_None; lia|].
  split.
  { apply list_lookup_middle. rewrite length_app. simpl. lia. }
  split; [apply lookup_ge_None; lia|].
  split; [apply lookup_ge_None; lia|].
  split; [by apply list_lookup_middle|].
  split.
  { change (dicts w ++ [sys; user]) with (dicts w ++ [sys] ++ [user]).
    rewrite app_assoc. apply list_lookup_middle. rewrite length_app. simpl. lia. }
  split; [done|].
  split; [rewrite <- app_assoc; by apply lookup_app_l_Some|].
  split; [by apply (tools_at_app w)|].
  split; [intros l m Hl; by apply lookup_app_l_Some|].
  intros r l Hr. rewrite <- app_assoc. by apply lookup_app_l_Some.
Qed.

Lemma build_issue_chat_messages_new_without_tools_witness :
  exists c w',
    build_issue_chat_messages outputs_template (fun q => q) None (py "why?") 0%nat
      (fixed_llm 100 90 6 0) issue_world = Some (c, w')
    /\ lists w' !! c ≫= messages_at w'
       = Some [new_message (py "system") (CText (py "SYS:"));
               new_message (py "user") (CText (py "why?"))]
    /\ llm_calls w' = [].
Proof.
  destruct (build_issue_chat_messages_new_without_tools outputs_template (fun q => q)
              None (py "why?") 0%nat (fixed_llm 100 90 6 0) issue_world
              (or_introl eq_refl) eq_refl)
    as (c & w' & s & u & Hrun & _ & Hc & _ & _ & Hs & Hu & Hcalls & _).
  exists c, w'. split; [exact Hrun|]. split; [|exact Hcalls].
  rewrite Hc. simpl. unfold messages_at. simpl. by rewrite Hs, Hu.
Defined.

Lemma build_issue_chat_messages_new_with_tools_witness :
  exists c w',
    build_issue_chat_messages outputs_template (fun q => q) (Some 0%nat) (py "why?") 5%nat
      (fixed_llm 100 90 6 0) issue_world = Some (c, w')
    /\ lists w' !! c ≫= messages_at w'
       = Some [new_message (py "system") (CText (py "SYS:abcd"));
               new_message (py "user") (CText (py "why?"))]
    /\ tools_at w' [0%nat] = Some [one_tool]
    /\ lists w' !! 0%nat = Some [].
Proof.
  destruct (build_issue_chat_messages_new_with_tools outputs_template (fun q => q)
              (Some 0%nat) (py "why?") 5%nat (fixed_llm 100 90 6 0) [0%nat] [one_tool]
              issue_world)
    as (c & w' & s & u & Hrun & _ & Hc & _ & _ & Hs & Hu & _ & _ & Htools & _ & Hlists).
  - right. by exists 0%nat.
  - reflexivity.
  - discriminate.
  - reflexivity.
  - exists c, w'. split; [exact Hrun|]. split; [|split; [exact Htools | by apply Hlists]].
    rewrite Hc. simpl. unfold messages_at. simpl. by rewrite Hs, Hu.
Defined.

Lemma refs_where_run p refs w :
  Forall (fun l => (l < length (dicts w))%nat) refs ->
  refs_where p refs w = Some (refs_of p (dicts w) refs, w).
Proof.
  induction 1 as [|l refs Hl _ IH]; [done|].
  destruct (lookup_lt_is_Some_2 _ _ Hl) as [m Hm].
  cbn [refs_where].
  eapply bind_run_eq; [by eapply get_dict_run|].
  eapply bind_run_eq; [exact IH|].
  unfold ret, refs_of. rewrite filter_cons, Hm. simpl.
  destruct (p m); by destruct (decide _).
Qed.

Lemma values_at_run (d : list Message) refs :
  Forall (fun l => (l < length d)%nat) refs ->
  mapM (fun l => d !! l) refs = Some (values_at d refs).
Proof.
  induction 1 as [|l refs Hl _ IH]; [done|].
  destruct (lookup_lt_is_Some_2 _ _ Hl) as [m Hm].
  unfold values_at. cbn [mapM omap list_omap]. rewrite Hm. simpl.
  fold (values_at d refs). change (mapM (fun l => d !! l) refs) with
    (mapM (fun l => d !! l) refs) in IH. by rewrite IH.
Qed.

Lemma overwrite_at_length c l d : length (overwrite_at c l d) = length d.
Proof. unfold overwrite_at. destruct (d !! l); [apply length_insert | done]. Qed.

Lemma overwrite_at_lookup c l d i :
  overwrite_at c l d !! i
    = (fun m => if bool_decide (i = l) then set_content c m else m) <$> d !! i.
Proof.
  unfold overwrite_at. destruct (d !! l) as [ml|] eqn:Hl.
  - destruct (decide (i = l)) as [->|Hne].
    + rewrite list_lookup_insert_eq by (by eapply lookup_lt_Some).
      rewrite Hl. simpl. by rewrite bool_decide_eq_true_2.
    + rewrite list_lookup_insert_ne by done.
      destruct (d !! i); [|done]. simpl. by rewrite bool_decide_eq_false_2.
  - destruct (d !! i) as [m|] eqn:Hi; [|done]. simpl.
    rewrite bool_decide_eq_false_2; [done|]. intros ->. congruence.
Qed.

Lemma overwrite_run c l m w :
  dicts w !! l = Some m ->
  (m0 <- get_dict l ;; set_dict l (set_content c m0)) w
    = Some (tt, with_dicts (overwrite_at c l (dicts w)) w).
Proof.
  intros Hl. eapply bind_run_eq; [by eapply get_dict_run|]. cbn beta.
  unfold overwrite_at. rewrite Hl. by eapply set_dict_run.
Qed.

Lemma build_issue_chat_messages_follow_up_run
    render generate_user_prompt h ask tools ai l0 rest tool_refs tvals w :
  lists w !! h = Some (l0 :: rest) ->
  Forall (fun l => (l < length (dicts w))%nat) (l0 :: rest) ->
  lists w !! tools = Some tool_refs ->
  tools_at w tool_refs = Some tvals ->
  tools <> h ->
  build_issue_chat_messages render generate_user_prompt (Some h) ask tools ai w
    = (fun w' => (h, w')) <$>
        follow_up_outcome render (generate_user_prompt ask) ai h (l0 :: rest) tool_refs tvals w.
Proof.
  intros Hh Hv Htools Htv Hne.
  unfold build_issue_chat_messages, follow_up_outcome.
  set (user := new_message (py "user") (CText (generate_user_prompt ask))).
  set (u := length (dicts w)).
  set (d1 := dicts w ++ [user]).
  set (refs1 := (l0 :: rest) ++ [u]).
  set (w1 := with_lists (<[h := refs1]> (lists w)) (with_dicts d1 w)).
  assert (Forall (fun l => (l < length d1)%nat) refs1) as Hv1.
  { subst refs1 d1. rewrite length_app. simpl length. apply Forall_app_2.
    - eapply list.Forall_impl; [exact Hv|]. intros l Hl. cbn beta in Hl. lia.
    - apply Forall_singleton. subst u. lia. }
  eapply bind_run_eq; [by apply get_list_run|]. cbn beta match.
  eapply bind_run_eq; [reflexivity|].
  eapply bind_run_eq; [by apply get_list_run|].
  eapply bind_run_eq; [by eapply set_list_run|].
  fold user u d1. change ((l0 :: rest) ++ [u]) with refs1. fold w1.
  assert (lists w1 !! tools = Some tool_refs) as Htools1.
  { subst w1. simpl. by rewrite list_lookup_insert_ne. }
  assert (lists w1 !! h = Some refs1) as Hh1.
  { subst w1. simpl. apply list_lookup_insert_eq. by eapply lookup_lt_Some. }
  eapply bind_run_eq; [by apply get_list_run|].
  eapply bind_run_eq; [by apply get_list_run|].
  eapply bind_run_eq; [by apply (refs_where_run is_tool refs1 w1)|].
  cbn beta. change (dicts w1) with d1.
  set (n := Z.of_nat (length tool_refs) + Z.of_nat (length (refs_of is_tool d1 refs1))).
  destruct (n =? 0) eqn:Hn; [reflexivity|].
  eapply bind_run_eq;
    [by apply (refs_where_run (fun m => negb (is_tool m)) refs1 w1)|].
  cbn beta. change (dicts w1) with d1.
  set (without := refs_of (fun m => negb (is_tool m)) d1 refs1).
  assert (Forall (fun l => (l < length d1)%nat) without) as Hvwo.
  { apply list.Forall_forall. intros l Hl. subst without. unfold refs_of in Hl.
    apply list_elem_of_filter in Hl as [_ Hl].
    by apply (proj1 (list.Forall_forall _ _) Hv1). }
  destruct without as [|lf wo'] eqn:Hwo; [done|].
  subst refs1. cbn [app]. set (refs1 := l0 :: rest ++ [u]) in *.
  assert (lf < length d1)%nat as Hlf by (by apply list.Forall_cons in Hvwo as [? _]).
  destruct (lookup_lt_is_Some_2 _ _ Hlf) as [mf Hmf].
  eapply bind_run_eq; [by apply (overwrite_run _ lf mf w1)|].
  change (dicts w1) with d1.
  set (dA := overwrite_at (CText (render None)) lf d1).
  eapply bind_run_eq.
  { apply deref_all_run. unfold messages_at. simpl dicts. fold dA.
    apply values_at_run. subst dA. rewrite overwrite_at_length. exact Hvwo. }
  set (view := values_at dA (lf :: wo')).
  eapply bind_run_eq; [apply calculate_tool_size_run; by apply Z.eqb_neq|].
  set (ts := Z.min DEFAULT_TOOL_SIZE (available ai view ÷ n)).
  lazymatch goal with
  | |- bind ?m (fun t => bind (read_tools t) ?K) ?w0 = _ =>
    rewrite <- (bind_assoc m read_tools K w0)
  end.
  eapply bind_run_eq; [by apply (read_truncated_run tools ts tool_refs tvals)|].
  cbn beta.
  assert (l0 < length dA)%nat as Hl0.
  { subst dA. rewrite overwrite_at_length.
    by apply list.Forall_cons in Hv1 as [? _]. }
  destruct (lookup_lt_is_Some_2 _ _ Hl0) as [m0 Hm0].
  eapply bind_run_eq; [by apply (overwrite_run _ l0 m0)|].
  simpl dicts. fold dA.
  set (dB := overwrite_at (CText (render (Some (truncated ts <$> tvals)))) l0 dA).
  eapply bind_run_eq; [|reflexivity].
  rewrite (truncate_tool_messages_run h ts refs1).
  - reflexivity.
  - simpl. apply lookup_app_l_Some. exact Hh1.
  - simpl. subst dB dA. rewrite !overwrite_at_length. exact Hv1.
Qed.

Lemma shrunk_role ts k m : role (shrunk ts k m) = role m.
Proof. unfold shrunk. by destruct (is_tool m). Qed.

Lemma shrunk_other_keys ts k m : other_keys (shrunk ts k m) = other_keys m.
Proof. unfold shrunk. by destruct (is_tool m). Qed.

(** A dict of the table after the two overwrites and the truncation of
    the follow-up path. *)
Lemma follow_up_dict_lookup ts c1 c2 lf l0 refs1 (d1 : list Message) i m :
  d1 !! i = Some m ->
  foldl (shrink_step ts) (overwrite_at c2 l0 (overwrite_at c1 lf d1)) refs1 !! i
    = Some (shrunk ts (occurrences i refs1)
              ((if bool_decide (i = l0) then set_content c2 else id)
                 ((if bool_decide (i = lf) then set_content c1 else id) m))).
Proof.
  intros Hi. apply foldl_shrink_lookup.
  rewrite !overwrite_at_lookup, Hi. simpl.
  by destruct (bool_decide (i = l0)), (bool_decide (i = lf)).
Qed.

Lemma refs_of_app_table p (d extra : list Message) refs :
  Forall (fun l => (l < length d)%nat) refs ->
  refs_of p (d ++ extra) refs = refs_of p d refs.
Proof.
  unfold refs_of. induction 1 as [|l refs Hl _ IH]; [done|].
  rewrite !filter_cons, IH, lookup_app_l by done. done.
Qed.

Lemma refs_of_user_turn p (d : list Message) refs user :
  Forall (fun l => (l < length d)%nat) refs ->
  refs_of p (d ++ [user]) (refs ++ [length d])
    = refs_of p d refs ++ (if p user then [length d] else []).
Proof.
  intros Hv. rewrite <- (refs_of_app_table p d [user] refs Hv).
  unfold refs_of. rewrite filter_app. f_equal.
  rewrite filter_cons, list_lookup_middle by done. simpl.
  destruct (p user); by destruct (decide _).
Qed.

Lemma refs_of_elem p (d : list Message) refs l :
  l ∈ refs_of p d refs <-> l ∈ refs /\ exists m, d !! l = Some m /\ p m = true.
Proof.
  unfold refs_of. rewrite list_elem_of_filter. split.
  - intros [Hp Hin]. split; [done|]. destruct (d !! l) as [m|]; [|done]. by exists m.
  - intros [Hin (m & Hm & Hp)]. split; [|done]. by rewrite Hm.
Qed.

(** With a history, [build_issue_chat_messages] works on the caller's
    list itself: it returns that list object, which now holds the old
    references followed by a new dict of role user; no other list that
    existed changes, and every dict that existed keeps its role and its
    other keys. *)
Theorem build_issue_chat_messages_appends_in_place
    render generate_user_prompt h ask tools ai l0 rest tool_refs tvals w :
  lists w !! h = Some (l0 :: rest) ->
  Forall (fun l => (l < length (dicts w))%nat) (l0 :: rest) ->
  lists w !! tools = Some tool_refs ->
  tools_at w tool_refs = Some tvals ->
  tools <> h ->
  exists w',
    build_issue_chat_messages render generate_user_prompt (Some h) ask tools ai w
      = Some (h, w')
    /\ lists w' !! h = Some ((l0 :: rest) ++ [length (dicts w)])
    /\ dicts w !! length (dicts w) = None
    /\ (exists mu, dicts w' !! length (dicts w) = Some mu /\ role mu = py "user")
    /\ (forall r l, r <> h -> lists w !! r = Some l -> lists w' !! r = Some l)
    /\ (forall l m, dicts w !! l = Some m ->
          exists m', dicts w' !! l = Some m'
            /\ role m' = role m /\ other_keys m' = other_keys m).
Proof.
  intros Hh Hv Htools Htv Hne.
  rewrite (build_issue_chat_messages_follow_up_run render generate_user_prompt h ask tools
             ai l0 rest tool_refs tvals w Hh Hv Htools Htv Hne).
  unfold follow_up_outcome.
  set (user := new_message (py "user") (CText (generate_user_prompt ask))).
  set (u := length (dicts w)).
  set (d1 := dicts w ++ [user]).
  set (refs1 := (l0 :: rest) ++ [u]).
  set (w1 := with_lists (<[h := refs1]> (lists w)) (with_dicts d1 w)).
  assert (d1 !! u = Some user) as Hu by (by apply list_lookup_middle).
  assert (lists w1 !! h = Some refs1) as Hh1.
  { simpl. apply list_lookup_insert_eq. by eapply lookup_lt_Some. }
  assert (forall r l, r <> h -> lists w !! r = Some l -> lists w1 !! r = Some l) as Hl1.
  { intros r l Hr Hl. simpl. by rewrite list_lookup_insert_ne. }
  destruct (_ =? 0).
  { eexists. split; [reflexivity|]. split; [exact Hh1|].
    split; [apply lookup_ge_None; lia|].
    split; [by exists user|]. split; [exact Hl1|].
    intros l m Hl. exists m. split; [|done]. simpl. by apply lookup_app_l_Some. }
  assert (u ∈ refs_of (fun m => negb (is_tool m)) d1 refs1) as Hin.
  { apply refs_of_elem. split.
    - subst refs1. apply elem_of_app. right. by apply list_elem_of_singleton.
    - by exists user. }
  destruct (refs_of (fun m => negb (is_tool m)) d1 refs1) as [|lf wo'];
    [by apply not_elem_of_nil in Hin|].
  subst refs1. cbn [app]. set (refs1 := l0 :: rest ++ [u]) in *.
  eexists. split; [reflexivity|].
  cbn [dicts lists with_dicts with_lists with_tool_objs with_llm_calls].
  split; [by apply lookup_app_l_Some|].
  split; [apply lookup_ge_None; lia|].
  split.
  { eexists. split; [by apply follow_up_dict_lookup|].
    rewrite shrunk_role. by destruct (bool_decide _), (bool_decide _). }
  split.
  { intros r l Hr Hl. apply lookup_app_l_Some. by apply Hl1. }
  intros l m Hl. eexists. split.
  { apply follow_up_dict_lookup. by apply lookup_app_l_Some. }
  rewrite shrunk_role, shrunk_other_keys.
  by destruct (bool_decide _), (bool_decide _).
Qed.

Lemma build_issue_chat_messages_appends_in_place_witness :
  exists w',
    build_issue_chat_messages outputs_template (fun q => q) (Some 1%nat) (py "why?") 5%nat
      (fixed_llm 100 90 6 0) issue_world = Some (1%nat, w')
    /\ lists w' !! 1%nat = Some [0; 1; 4]%nat
    /\ lists w' !! 4%nat = Some [0; 1; 3; 2]%nat.
Proof.
  destruct (build_issue_chat_messages_appends_in_place outputs_template (fun q => q)
              1%nat (py "why?") 5%nat (fixed_llm 100 90 6 0) 0%nat [1%nat] [0%nat]
              [one_tool] issue_world eq_refl)
    as (w' & Hrun & Hh & _ & _ & Hlists & _);
    [repeat constructor | reflexivity | reflexivity | discriminate |].
  exists w'. split; [exact Hrun|]. split; [exact Hh|]. by apply Hlists.
Defined.

Lemma refs_of_cons p (d : list Message) l m refs :
  d !! l = Some m ->
  refs_of p d (l :: refs) = if p m then l :: refs_of p d refs else refs_of p d refs.
Proof.
  intros H. unfold refs_of. rewrite filter_cons, H. simpl.
  destruct (p m); by destruct (decide _).
Qed.

Lemma values_at_cons (d : list Message) l m refs :
  d !! l = Some m -> values_at d (l :: refs) = m :: values_at d refs.
Proof. intros H. unfold values_at. cbn [omap list_omap]. by rewrite H. Qed.

Lemma values_at_not_tool (d : list Message) refs :
  Forall (fun m => is_tool m = false)
    (values_at d (refs_of (fun m => negb (is_tool m)) d refs)).
Proof.
  apply list.Forall_forall. intros m Hm. unfold values_at in Hm.
  apply list_elem_of_omap in Hm as (l & Hl & Hlm).
  apply refs_of_elem in Hl as (_ & m' & Hm' & Hp).
  assert (m' = m) as -> by congruence. by apply negb_true_iff.
Qed.

(** A follow-up on a history whose first message is no tool message,
    when a tool result or a tool message exists: the budget is what
    [calculate_tool_size] gives for the messages that are no tool
    messages, the first of them carrying the prompt rendered without
    tools, and for the number of tool results plus tool messages; the
    first dict of the history then holds the prompt rendered with the
    tool results truncated to the budget, every tool message is cut once
    per occurrence, the new user turn and all other dicts hold what they
    held, and the investigation's tool results are not changed. *)
Theorem build_issue_chat_messages_follow_up
    render generate_user_prompt h ask tools ai l0 m0 rest tool_refs tvals w :
  lists w !! h = Some (l0 :: rest) ->
  Forall (fun l => (l < length (dicts w))%nat) (l0 :: rest) ->
  lists w !! tools = Some tool_refs ->
  tools_at w tool_refs = Some tvals ->
  tools <> h ->
  dicts w !! l0 = Some m0 ->
  is_tool m0 = false ->
  tool_refs <> [] \/ refs_of is_tool (dicts w) rest <> [] ->
  let user := new_message (py "user") (CText (generate_user_prompt ask)) in
  let n := Z.of_nat (length tool_refs)
           + Z.of_nat (length (refs_of is_tool (dicts w) rest)) in
  exists w' view tool_size,
    build_issue_chat_messages render generate_user_prompt (Some h) ask tools ai w
      = Some (h, w')
    /\ llm_calls w' = llm_calls w ++ sizing_calls view
    /\ head view = Some (set_content (CText (render None)) m0)
    /\ Forall (fun m => is_tool m = false) view
    /\ tool_size = Z.min 10000 (available ai view ÷ n)
    /\ dicts w' !! l0
       = Some (set_content (CText (render (Some (truncated tool_size <$> tvals)))) m0)
    /\ dicts w' !! length (dicts w) = Some user
    /\ (forall l m, l <> l0 -> dicts w !! l = Some m ->
          dicts w' !! l = Some (shrunk tool_size (occurrences l rest) m))
    /\ tools_at w' tool_refs = Some tvals.
Proof.
  intros Hh Hv Htools Htv Hne Hm0 Hnt Hsome user n.
  rewrite (build_issue_chat_messages_follow_up_run render generate_user_prompt h ask tools
             ai l0 rest tool_refs tvals w Hh Hv Htools Htv Hne).
  unfold follow_up_outcome. fold user.
  set (u := length (dicts w)).
  set (d1 := dicts w ++ [user]).
  assert (d1 !! u = Some user) as Hu by (by apply list_lookup_middle).
  assert (d1 !! l0 = Some m0) as Hl0 by (by apply lookup_app_l_Some).
  assert (l0 <> u) as Hl0u by (apply lookup_lt_Some in Hm0; subst u; lia).
  (* the counts *)
  assert (refs_of is_tool d1 ((l0 :: rest) ++ [u]) = refs_of is_tool (dicts w) rest) as Htools_of.
  { subst d1 u. rewrite refs_of_user_turn by done. simpl (is_tool user).
    rewrite app_nil_r. by rewrite (refs_of_cons _ _ _ _ _ Hm0), Hnt. }
  rewrite Htools_of. fold n.
  assert (n <> 0) as Hn.
  { subst n. destruct Hsome as [Ht|Ht].
    - destruct tool_refs; [done|]. simpl. lia.
    - destruct (refs_of is_tool (dicts w) rest); [done|]. simpl. lia. }
  rewrite (proj2 (Z.eqb_neq n 0) Hn).
  (* the first message that is no tool message is the first message *)
  assert (exists wo', refs_of (fun m => negb (is_tool m)) d1 ((l0 :: rest) ++ [u])
                      = l0 :: wo') as [wo' Hwo].
  { cbn [app]. rewrite (refs_of_cons _ _ _ _ _ Hl0), Hnt. simpl. by eexists. }
  pose proof (values_at_not_tool
                (overwrite_at (CText (render None)) l0 d1) ((l0 :: rest) ++ [u])) as Hview_nt.
  assert (refs_of (fun m => negb (is_tool m))
            (overwrite_at (CText (render None)) l0 d1) ((l0 :: rest) ++ [u])
          = l0 :: wo') as Hwo'.
  { rewrite <- Hwo. unfold refs_of. apply list_filter_iff. intros l.
    rewrite overwrite_at_lookup. destruct (d1 !! l) as [m|]; [|done]. simpl.
    by destruct (bool_decide (l = l0)). }
  rewrite Hwo' in Hview_nt.
  rewrite Hwo. cbn [app].
  set (dA := overwrite_at (CText (render None)) l0 d1) in *.
  set (view := values_at dA (l0 :: wo')) in *.
  set (ts := Z.min DEFAULT_TOOL_SIZE (available ai view ÷ n)).
  assert (dA !! l0 = Some (set_content (CText (render None)) m0)) as HA0.
  { subst dA. rewrite overwrite_at_lookup, Hl0. simpl. by rewrite bool_decide_eq_true_2. }
  exists (with_dicts
            (foldl (shrink_step ts)
               (overwrite_at (CText (render (Some (truncated ts <$> tvals)))) l0 dA)
               (l0 :: rest ++ [u]))
            (with_lists
               (lists (with_lists (<[h := l0 :: rest ++ [u]]> (lists w)) (with_dicts d1 w))
                  ++ [seq (length (tool_objs w)) (length tool_refs)])
               (with_tool_objs (tool_objs w ++ (truncated ts <$> tvals))
                  (with_llm_calls (llm_calls w ++ sizing_calls view)
                     (with_lists (<[h := l0 :: rest ++ [u]]> (lists w)) (with_dicts d1 w)))))),
    view, ts.
  split; [reflexivity|].
  cbn [dicts lists llm_calls tool_objs with_dicts with_lists with_tool_objs with_llm_calls].
  split; [done|].
  split; [subst view; by rewrite (values_at_cons dA l0 _ _ HA0)|].
  split; [exact Hview_nt|].
  split; [done|].
  assert (forall i m, d1 !! i = Some m ->
            foldl (shrink_step ts)
              (overwrite_at (CText (render (Some (truncated ts <$> tvals)))) l0 dA)
              (l0 :: rest ++ [u]) !! i
            = Some (shrunk ts (occurrences i (l0 :: rest ++ [u]))
                      ((if bool_decide (i = l0)
                        then set_content (CText (render (Some (truncated ts <$> tvals))))
                        else id)
                         ((if bool_decide (i = l0)
                           then set_content (CText (render None)) else id) m)))) as Hlook.
  { intros i m Hi. subst dA. by apply follow_up_dict_lookup. }
  split.
  { rewrite (Hlook l0 m0 Hl0). rewrite bool_decide_eq_true_2 by done.
    rewrite shrunk_not_tool; [done|]. exact Hnt. }
  split.
  { rewrite (Hlook u user Hu). rewrite bool_decide_eq_false_2 by done.
    by rewrite shrunk_not_tool. }
  split.
  { intros l m Hl Hlm. rewrite (Hlook l m); [|by apply lookup_app_l_Some].
    rewrite bool_decide_eq_false_2 by done. simpl. do 2 f_equal.
    change (l0 :: rest ++ [u]) with ([l0] ++ rest ++ [u]).
    rewrite !occurrences_app.
    rewrite (occurrences_fresh l [l0]), (occurrences_fresh l [u]); [lia| |].
    - intros Hin. apply list_elem_of_singleton in Hin. apply lookup_lt_Some in Hlm.
      subst u. lia.
    - intros Hin. by apply list_elem_of_singleton in Hin. }
  by apply (tools_at_app w).
Qed.

Lemma build_issue_chat_messages_follow_up_witness :
  exists w',
    build_issue_chat_messages outputs_template (fun q => q) (Some 4%nat) (py "why?") 5%nat
      (fixed_llm 100 90 6 0) issue_world = Some (4%nat, w')
    /\ dicts w' !! 0%nat = Some (new_message (py "system") (CText (py "SYS:ab")))
    /\ dicts w' !! 2%nat = Some (new_message (py "tool") (CText (py "01")))
    /\ dicts w' !! 4%nat = Some (new_message (py "user") (CText (py "why?")))
    /\ tools_at w' [0%nat] = Some [one_tool].
Proof.
  destruct (build_issue_chat_messages_follow_up outputs_template (fun q => q)
              4%nat (py "why?") 5%nat (fixed_llm 100 90 6 0) 0%nat
              (new_message (py "system") (CText (py "old"))) [1; 3; 2]%nat [0%nat]
              [one_tool] issue_world eq_refl)
    as (w' & view & ts & Hrun & _ & _ & _ & Hts & H0 & Hu & Hd & Htools);
    [repeat constructor | reflexivity | reflexivity | discriminate | reflexivity
    | reflexivity | left; discriminate |].
  assert (ts = 2) as -> by (rewrite Hts; reflexivity).
  exists w'. split; [exact Hrun|]. split; [exact H0|].
  split; [exact (Hd 2%nat _ ltac:(discriminate) eq_refl)|].
  split; [exact Hu | exact Htools].
Defined.

(** A follow-up on a history whose first message is a tool message: the
    first message that is no tool message, which is the new user turn
    when the history holds tool messages only, is left with the prompt
    rendered without tools as its content, and the tool message in first
    place holds the prompt rendered with the truncated tool results, cut
    to the budget once per occurrence of that dict in the history. *)
Theorem build_issue_chat_messages_tool_message_first
    render generate_user_prompt h ask tools ai l0 m0 rest tool_refs tvals w lf mf :
  lists w !! h = Some (l0 :: rest) ->
  Forall (fun l => (l < length (dicts w))%nat) (l0 :: rest) ->
  lists w !! tools = Some tool_refs ->
  tools_at w tool_refs = Some tvals ->
  tools <> h ->
  dicts w !! l0 = Some m0 ->
  is_tool m0 = true ->
  let user := new_message (py "user") (CText (generate_user_prompt ask)) in
  head (refs_of (fun m => negb (is_tool m)) (dicts w ++ [user])
          ((l0 :: rest) ++ [length (dicts w)])) = Some lf ->
  (dicts w ++ [user]) !! lf = Some mf ->
  exists w' tool_size,
    build_issue_chat_messages render generate_user_prompt (Some h) ask tools ai w
      = Some (h, w')
    /\ lf <> l0
    /\ dicts w' !! lf = Some (set_content (CText (render None)) mf)
    /\ dicts w' !! l0
       = Some (set_content
                 (Nat.iter (occurrences l0 (l0 :: rest)) (content_slice_to tool_size)
                    (CText (render (Some (truncated tool_size <$> tvals))))) m0).
Proof.
  intros Hh Hv Htools Htv Hne Hm0 Ht user Hhead Hmf.
  rewrite (build_issue_chat_messages_follow_up_run render generate_user_prompt h ask tools
             ai l0 rest tool_refs tvals w Hh Hv Htools Htv Hne).
  unfold follow_up_outcome. fold user.
  set (u := length (dicts w)) in *.
  set (d1 := dicts w ++ [user]) in *.
  assert (d1 !! l0 = Some m0) as Hl0 by (by apply lookup_app_l_Some).
  assert (l0 <> u) as Hl0u by (apply lookup_lt_Some in Hm0; subst u; lia).
  assert (Z.of_nat (length tool_refs)
          + Z.of_nat (length (refs_of is_tool d1 ((l0 :: rest) ++ [u]))) <> 0) as Hn.
  { cbn [app]. rewrite (refs_of_cons _ _ _ _ _ Hl0), Ht. simpl length. lia. }
  rewrite (proj2 (Z.eqb_neq _ 0) Hn).
  destruct (refs_of (fun m => negb (is_tool m)) d1 ((l0 :: rest) ++ [u]))
    as [|lf' wo'] eqn:Hwo; [done|].
  injection Hhead as ->.
  assert (is_tool mf = false /\ lf <> l0) as [Hmf_nt Hlf].
  { assert (lf ∈ refs_of (fun m => negb (is_tool m)) d1 ((l0 :: rest) ++ [u])) as Hin
      by (rewrite Hwo; apply list_elem_of_here).
    apply refs_of_elem in Hin as (_ & m & Hm & Hp).
    assert (m = mf) as -> by congruence. apply negb_true_iff in Hp.
    split; [done|]. intros ->. congruence. }
  cbn [app].
  eexists. eexists. split; [reflexivity|].
  cbn [dicts lists llm_calls tool_objs with_dicts with_lists with_tool_objs with_llm_calls].
  split; [done|]. split.
  - rewrite (follow_up_dict_lookup _ _ _ _ _ _ _ _ _ Hmf).
    rewrite bool_decide_eq_false_2, bool_decide_eq_true_2 by done. simpl.
    by rewrite shrunk_not_tool.
  - rewrite (follow_up_dict_lookup _ _ _ _ _ _ _ _ _ Hl0).
    rewrite bool_decide_eq_true_2 by done.
    rewrite (bool_decide_eq_false_2 (l0 = lf)) by done. simpl.
    unfold shrunk. unfold is_tool in *. simpl. rewrite Ht. unfold set_content. simpl.
    do 3 f_equal.
    change (l0 :: rest ++ [u]) with ((l0 :: rest) ++ [u]).
    rewrite occurrences_app, (occurrences_fresh l0 [u]); [lia|].
    intros Hin. by apply list_elem_of_singleton in Hin.
Qed.

Lemma build_issue_chat_messages_tool_message_first_witness :
  exists w' tool_size,
    build_issue_chat_messages outputs_template (fun q => q) (Some 0%nat) (py "why?") 5%nat
      (fixed_llm 100 90 6 0) (with_lists [[2]; []; []; []; []; [0]]%nat issue_world)
      = Some (0%nat, w')
    /\ 4%nat <> 2%nat
    /\ dicts w' !! 4%nat = Some (set_content (CText (py "SYS"))
                                 (new_message (py "user") (CText (py "why?"))))
    /\ dicts w' !! 2%nat
       = Some (set_content
                 (Nat.iter (occurrences 2%nat [2%nat]) (content_slice_to tool_size)
                    (CText (outputs_template (Some (truncated tool_size <$> [one_tool])))))
                 (new_message (py "tool") (CText (py "0123456789")))).
Proof.
  apply (build_issue_chat_messages_tool_message_first outputs_template (fun q => q)
           0%nat (py "why?") 5%nat (fixed_llm 100 90 6 0) 2%nat
           (new_message (py "tool") (CText (py "0123456789"))) [] [0%nat] [one_tool]
           (with_lists [[2]; []; []; []; []; [0]]%nat issue_world) 4%nat
           (new_message (py "user") (CText (py "why?"))));
    [reflexivity | repeat constructor | reflexivity | reflexivity | discriminate
    | reflexivity | reflexivity | reflexivity | reflexivity].
Defined.

(** ** More on [prevent_overly_big_tool_response] and the storage *)

Lemma save_large_result_sentry {os} dir tn id content json (env : Env os) :
  sentry (save_large_result dir tn id content json env).2 = sentry env.
Proof.
  unfold save_large_result. by destruct (write_text os _ content (fs env)) as [fs1 [e|]].
Qed.

(** What the policy does to an oversized successful result, with the
    two guards resolved. *)
Lemma prevent_overly_big_tool_response_cases {os} meth t llm dir (env : Env os) :
  status (result t) = SUCCESS ->
  get_max_token_count_for_single_tool llm < count_tokens llm [as_tool_call_message meth t] ->
  let tokens := count_tokens llm [as_tool_call_message meth t] in
  let max_tokens := get_max_token_count_for_single_tool llm in
  let si := size_info tokens max_tokens in
  let attempt :=
    match dir with
    | Some d =>
      if HOLMES_TOOL_RESULT_STORAGE_ENABLED env then
        let saved :=
          save_large_result d (tool_name t) (tool_call_id t)
            (stringify_data meth (result t)).1 (stringify_data meth (result t)).2 env in
        (saved.1, (stringify_data meth (result t)).1, saved.2)
      else (None, [], env)
    | None => (None, [], env)
    end in
  prevent_overly_big_tool_response meth t llm dir env
  = match attempt with
    | (Some (c :: p), text, env1) =>
      let b := boilerplate si (c :: p) in
      ((tokens,
        set_result {| status := status (result t);
                      data := Some (DStr (b ++ py_slice_to (preview_budget max_tokens b) text));
                      error := error (result t) |} t),
       logging INFO (py "Large tool result (" ++ str_of_int tokens
                       ++ py " tokens) saved to " ++ (c :: p)) env1)
    | (_, _, env1) =>
      let t' := set_result {| status := ERROR; data := None;
                              error := Some (too_large_error si) |} t in
      ((tokens, t'),
       capture {| sentry_tool_call_result := t'; sentry_tokens := tokens;
                  sentry_max_tokens := max_tokens |} env1)
    end.
Proof.
  intros Hs Hbig tokens max_tokens si attempt. subst attempt.
  unfold prevent_overly_big_tool_response.
  rewrite bool_decide_eq_true_2 by done. cbn [negb].
  fold tokens max_tokens. rewrite (proj2 (Z.leb_gt tokens max_tokens) Hbig).
  fold si.
  destruct dir as [d|]; [|reflexivity].
  destruct (HOLMES_TOOL_RESULT_STORAGE_ENABLED env); [|reflexivity].
  destruct (stringify_data meth (result t)) as [text json]. cbn [fst snd].
  destruct (save_large_result d (tool_name t) (tool_call_id t) text json env)
    as [[[|c p]|] env1]; reflexivity.
Qed.

(** The data of a spilled result is never longer than the larger of the
    boilerplate and [2 * max_tokens_allowed] characters: the preview only
    fills what the boilerplate leaves of that allowance. *)
Theorem prevent_overly_big_tool_response_data_length {os} meth t llm dir (env : Env os) :
  status (result t) = SUCCESS ->
  get_max_token_count_for_single_tool llm < count_tokens llm [as_tool_call_message meth t] ->
  let r := prevent_overly_big_tool_response meth t llm dir env in
  status (result r.1.2) = SUCCESS ->
  exists file_path s,
    data (result r.1.2) = Some (DStr s)
    /\ boilerplate (size_info (count_tokens llm [as_tool_call_message meth t])
                      (get_max_token_count_for_single_tool llm)) file_path `prefix_of` s
    /\ Z.of_nat (length s)
       <= Z.max (Z.of_nat (length
                   (boilerplate (size_info (count_tokens llm [as_tool_call_message meth t])
                                   (get_max_token_count_for_single_tool llm)) file_path)))
                (2 * get_max_token_count_for_single_tool llm).
Proof.
  intros Hs Hbig r. subst r.
  rewrite (prevent_overly_big_tool_response_cases meth t llm dir env Hs Hbig).
  cbv zeta.
  destruct (match dir with Some _ => _ | None => _ end) as [[[[|c p]|] text] env1];
    cbn [fst snd set_result result status]; try discriminate.
  intros _. eexists (c :: p), _. split; [reflexivity|].
  split; [by apply prefix_app_r|].
  rewrite length_app. unfold preview_budget. change (4 / 2) with 2.
  set (b := boilerplate _ _).
  pose proof (py_slice_to_length_nonneg
                (Z.max 0 (get_max_token_count_for_single_tool llm * 2 - Z.of_nat (length b)))
                text) as Hlen.
  lia.
Qed.

Lemma prevent_overly_big_tool_response_data_length_witness :
  exists file_path s,
    data (result (spill_run 130).1.2) = Some (DStr s)
    /\ boilerplate (size_info 500 130) file_path `prefix_of` s
    /\ Z.of_nat (length s)
       <= Z.max (Z.of_nat (length (boilerplate (size_info 500 130) file_path))) (2 * 130).
Proof.
  apply (prevent_overly_big_tool_response_data_length (os := list_fs) text_methods
           log_result (fixed_llm 1000 500 0 130) (Some [py "tmp"])
           (empty_env list_fs [[py "tmp"]])); reflexivity.
Defined.

(** An oversized successful result is reported to the error tracker
    exactly when it is dropped, once, with the measured tokens and the
    limit; a spilled result is never reported. *)
Theorem prevent_overly_big_tool_response_reports {os} meth t llm dir (env : Env os) :
  status (result t) = SUCCESS ->
  get_max_token_count_for_single_tool llm < count_tokens llm [as_tool_call_message meth t] ->
  let r := prevent_overly_big_tool_response meth t llm dir env in
  (status (result r.1.2) = SUCCESS -> sentry r.2 = sentry env)
  /\ (status (result r.1.2) = ERROR ->
      sentry r.2
        = sentry env
            ++ [{| sentry_tool_call_result := r.1.2;
                   sentry_tokens := count_tokens llm [as_tool_call_message meth t];
                   sentry_max_tokens := get_max_token_count_for_single_tool llm |}]).
Proof.
  intros Hs Hbig r. subst r.
  rewrite (prevent_overly_big_tool_response_cases meth t llm dir env Hs Hbig).
  cbv zeta.
  assert (sentry (match dir with
                  | Some d =>
                    if HOLMES_TOOL_RESULT_STORAGE_ENABLED env
                    then ((save_large_result d (tool_name t) (tool_call_id t)
                             (stringify_data meth (result t)).1
                             (stringify_data meth (result t)).2 env).1,
                          (stringify_data meth (result t)).1,
                          (save_large_result d (tool_name t) (tool_call_id t)
                             (stringify_data meth (result t)).1
                             (stringify_data meth (result t)).2 env).2)
                    else (None, [], env)
                  | None => (None, [], env)
                  end).2 = sentry env) as Hsentry.
  { destruct dir as [d|]; [|done].
    destruct (HOLMES_TOOL_RESULT_STORAGE_ENABLED env); [|done].
    apply save_large_result_sentry. }
  destruct (match dir with Some _ => _ | None => _ end) as [[[[|c p]|] text] env1];
    cbn [fst snd set_result result status] in *;
    (split; [intros H; try discriminate | intros H; try discriminate]);
    try (by rewrite <- Hsentry); try (rewrite Hs in H; discriminate).
Qed.

Lemma prevent_overly_big_tool_response_reports_witness :
  sentry (prevent_overly_big_tool_response (os := locked_fs) text_methods log_result
            (fixed_llm 1000 500 0 130) (Some [py "tmp"]) (empty_env locked_fs [[py "tmp"]])).2
  = [{| sentry_tool_call_result :=
          (prevent_overly_big_tool_response (os := locked_fs) text_methods log_result
             (fixed_llm 1000 500 0 130) (Some [py "tmp"])
             (empty_env locked_fs [[py "tmp"]])).1.2;
        sentry_tokens := 500;
        sentry_max_tokens := 130 |}].
Proof.
  apply (proj2 (prevent_overly_big_tool_response_reports (os := locked_fs) text_methods
                  log_result (fixed_llm 1000 500 0 130) (Some [py "tmp"])
                  (empty_env locked_fs [[py "tmp"]]) eq_refl eq_refl)).
  reflexivity.
Defined.

(** What an oversized successful result does to the file system: with a
    directory and storage enabled, one [write_text] of the whole
    stringified data, not of the preview, to
    [<dir>/<safe_name>_<safe_id>.<ext>], whether the write succeeds or
    not; without a directory or with storage disabled, nothing is written
    or logged and the result is dropped. *)
Theorem prevent_overly_big_tool_response_writes {os} meth t llm dir (env : Env os) :
  status (result t) = SUCCESS ->
  get_max_token_count_for_single_tool llm < count_tokens llm [as_tool_call_message meth t] ->
  let r := prevent_overly_big_tool_response meth t llm dir env in
  (forall d, dir = Some d -> HOLMES_TOOL_RESULT_STORAGE_ENABLED env = true ->
     fs r.2
       = (write_text os
            (d ++ [result_file_name (unicode_isalnum os) (tool_name t) (tool_call_id t)
                     (stringify_data meth (result t)).2])
            (stringify_data meth (result t)).1 (fs env)).1)
  /\ (dir = None \/ HOLMES_TOOL_RESULT_STORAGE_ENABLED env = false ->
      fs r.2 = fs env /\ log r.2 = log env /\ status (result r.1.2) = ERROR).
Proof.
  intros Hs Hbig r. subst r.
  rewrite (prevent_overly_big_tool_response_cases meth t llm dir env Hs Hbig).
  cbv zeta. split.
  - intros d -> Hen. rewrite Hen. unfold save_large_result.
    destruct (write_text os _ _ (fs env)) as [fs1 [e|]]; cbn [fst snd]; [done|].
    by destruct (path_str os _).
  - intros [->|Hen].
    + done.
    + destruct dir as [d|]; [|done]. by rewrite Hen.
Qed.

Lemma prevent_overly_big_tool_response_writes_witness :
  fs (spill_run 130).2
    = [[py "tmp"]; [py "tmp"; py "kubectl_logs_call_1.txt"]].
Proof.
  refine (eq_trans
    (proj1 (prevent_overly_big_tool_response_writes (os := list_fs) text_methods
              log_result (fixed_llm 1000 500 0 130) (Some [py "tmp"])
              (empty_env list_fs [[py "tmp"]]) eq_refl eq_refl) [py "tmp"] eq_refl eq_refl) _).
  reflexivity.
Defined.

(** A result spilled inside the scope of [tool_result_storage] outlives
    its file: it leaves the scope still a success whose data names the
    saved path, and when the cleanup works that file no longer exists. *)
Theorem spilled_file_removed_at_scope_exit (os : Runtime) `{!RuntimeLaws os}
    meth t llm (base : Path) (chat_id : pystr) (env : Env os) (fs1 : FS os) :
  mkdir_parents os (base ++ [chat_id] ++ [py "tool_results"]) (fs env) = (fs1, None) ->
  status (result t) = SUCCESS ->
  get_max_token_count_for_single_tool llm < count_tokens llm [as_tool_call_message meth t] ->
  let body := fun (dir : Path) (e : Env os) =>
    let r := prevent_overly_big_tool_response meth t llm (Some dir) e in
    (inl r.1 : (Z * ToolCallResult) + Exn, r.2) in
  let file := (base ++ [chat_id] ++ [py "tool_results"])
                ++ [result_file_name (unicode_isalnum os) (tool_name t) (tool_call_id t)
                      (stringify_data meth (result t)).2] in
  let out := tool_result_storage base chat_id body env in
  forall n t', out.1 = inl (n, t') ->
    status (result t') = SUCCESS ->
    (rmtree os (base ++ [chat_id]) (fs (body (base ++ [chat_id] ++ [py "tool_results"])
                                           (with_fs fs1 env)).2)).2 = None ->
    (exists preview,
       data (result t')
         = Some (DStr (boilerplate
                         (size_info (count_tokens llm [as_tool_call_message meth t])
                            (get_max_token_count_for_single_tool llm))
                         (path_str os file) ++ preview)))
    /\ path_exists os (fs out.2) file = false.
Proof.
  intros Hmk Hs Hbig body file out n t' Hout Hsucc Hrm. subst out.
  unfold tool_result_storage in *. rewrite Hmk in *.
  destruct (body (base ++ [chat_id] ++ [py "tool_results"]) (with_fs fs1 env))
    as [outcome env2] eqn:Hbody.
  cbn [fst snd] in Hrm.
  destruct (rmtree os (base ++ [chat_id]) (fs env2)) as [fs3 [e|]] eqn:Hrmtree;
    [discriminate|].
  cbn [fst snd] in *. split.
  - subst body. cbv beta zeta in Hbody. injection Hbody as Ho _. subst outcome.
    injection Hout as Hout. apply (f_equal snd) in Hout. cbn [snd] in Hout. subst t'.
    revert Hsucc.
    rewrite (prevent_overly_big_tool_response_cases meth t llm _ _ Hs Hbig).
    cbv zeta. unfold save_large_result.
    destruct (HOLMES_TOOL_RESULT_STORAGE_ENABLED (with_fs fs1 env));
      [|cbn [fst snd set_result result status]; intros H; discriminate H].
    destruct (write_text os _ _ _) as [fs2 [e|]]; cbn [fst snd];
      [cbn [fst snd set_result result status]; intros H; discriminate H|].
    change (base ++ [chat_id; py "tool_results"]) with (base ++ [chat_id] ++ [py "tool_results"]).
    fold file. destruct (path_str os file) as [|c p];
      [cbn [fst snd set_result result status]; intros H; discriminate H|].
    intros _. eexists. reflexivity.
  - simpl. eapply rmtree_removes; [exact Hrmtree|].
    subst file.
    exists ([py "tool_results"]
              ++ [result_file_name (unicode_isalnum os) (tool_name t) (tool_call_id t)
                    (stringify_data meth (result t)).2]).
    by rewrite <- !app_assoc.
Qed.

Lemma spilled_file_removed_at_scope_exit_witness :
  (exists preview,
     data (result log_result_spilled) = Some (DStr (boilerplate (size_info 500 130)
       (py "/tmp/c0ffee/tool_results/kubectl_logs_call_1.txt") ++ preview)))
  /\ path_exists list_fs
       (fs (tool_result_storage (os := list_fs) [py "tmp"] (py "c0ffee")
              (fun dir e =>
                 (inl (prevent_overly_big_tool_response text_methods log_result
                         (fixed_llm 1000 500 0 130) (Some dir) e).1,
                  (prevent_overly_big_tool_response text_methods log_result
                         (fixed_llm 1000 500 0 130) (Some dir) e).2))
              (empty_env list_fs [])).2)
       [py "tmp"; py "c0ffee"; py "tool_results"; py "kubectl_logs_call_1.txt"] = false.
Proof.
  apply (spilled_file_removed_at_scope_exit list_fs text_methods log_result
           (fixed_llm 1000 500 0 130) [py "tmp"] (py "c0ffee") (empty_env list_fs [])
           _ eq_refl eq_refl eq_refl 500 log_result_spilled); reflexivity.
Defined.

(** ** More on the file names of [save_large_result] *)

Lemma sub_non_word_app uni s1 s2 :
  sub_non_word uni (s1 ++ s2) = sub_non_word uni s1 ++ sub_non_word uni s2.
Proof. unfold sub_non_word. apply fmap_app. Qed.

Lemma sub_non_word_twice uni s :
  sub_non_word uni (sub_non_word uni s) = sub_non_word uni s.
Proof.
  unfold sub_non_word. rewrite <- list_fmap_compose. apply list_fmap_ext.
  intros i c _. simpl.
  destruct (re_word uni c || (c =? 45)%N) eqn:Hc; [by rewrite Hc|].
  reflexivity.
Qed.

(** Sanitising a sanitised name changes nothing, however often it is
    done: any number of passes gives what the first pass gives. *)
Theorem sub_non_word_idempotent uni s n :
  Nat.iter (S n) (sub_non_word uni) s = sub_non_word uni s.
Proof.
  induction n as [|n IH]; [done|].
  change (Nat.iter (S (S n)) (sub_non_word uni) s)
    with (sub_non_word uni (Nat.iter (S n) (sub_non_word uni) s)).
  rewrite IH. apply sub_non_word_twice.
Qed.

Lemma ascii_safe_ascii c : ascii_safe c = true -> (c < 128)%N.
Proof.
  unfold ascii_safe, ascii_isalnum. intros H.
  repeat (apply orb_true_iff in H as [H|H]);
    repeat (apply andb_true_iff in H as [? H]);
    repeat match goal with
           | H : (_ <=? _)%N = true |- _ => apply N.leb_le in H
           | H : (_ =? _)%N = true |- _ => apply N.eqb_eq in H
           end; lia.
Qed.

(** A name made of characters of [[A-Za-z0-9_-]] only is kept as it is. *)
Theorem sub_non_word_keeps_safe_names uni s :
  Forall (fun c => ascii_safe c = true) s -> sub_non_word uni s = s.
Proof.
  intros H. unfold sub_non_word. induction H as [|c s Hc _ IH]; [done|].
  cbn [fmap list_fmap]. f_equal; [|exact IH].
  by rewrite (re_word_ascii uni c (ascii_safe_ascii c Hc)), Hc.
Qed.

Lemma sub_non_word_keeps_safe_names_witness :
  sub_non_word (fun _ => false) (py "kubectl_logs-2") = py "kubectl_logs-2".
Proof.
  apply (sub_non_word_keeps_safe_names (fun _ => false) (py "kubectl_logs-2")).
  repeat constructor.
Defined.

(** Distinct calls can share a file: the name does not tell where the
    tool name ends and the call id begins, and a name and its sanitised
    form give the same file. *)
Theorem result_file_name_collisions uni a b c is_json :
  result_file_name uni (a ++ py "_" ++ b) c is_json
    = result_file_name uni a (b ++ py "_" ++ c) is_json
  /\ result_file_name uni (sub_non_word uni a) (sub_non_word uni c) is_json
     = result_file_name uni a c is_json.
Proof.
  unfold result_file_name. split.
  - rewrite !sub_non_word_app. change (sub_non_word uni (py "_")) with (py "_").
    by rewrite <- !app_assoc.
  - by rewrite !sub_non_word_twice.
Qed.

(** ** Vision content: [build_vision_content] *)

Lemma append_images_ok content images parts :
  mapM image_part images = Some parts ->
  append_images content images = inl (content ++ parts).
Proof.
  rewrite mapM_Some. intros H. revert content.
  induction H as [|item part images parts Hitem _ IH]; intros content.
  - by rewrite app_nil_r.
  - cbn [append_images]. destruct item as [url|d]; simpl in Hitem.
    + injection Hitem as <-. rewrite IH. by rewrite <- app_assoc.
    + destruct (dict_get (py "url") d) as [url|]; [|done].
      injection Hitem as <-. rewrite IH. by rewrite <- app_assoc.
Qed.

(** When every image is a URL string or a dict with a ["url"] key, the
    content is the text part followed by one image part per image, in
    order; a dict contributes its url, and its detail and format when it
    has them. *)
Theorem build_vision_content_ok text images parts :
  mapM image_part images = Some parts ->
  build_vision_content text images = inl (PartText text :: parts)
  /\ length (PartText text :: parts) = S (length images).
Proof.
  intros H. unfold build_vision_content. rewrite (append_images_ok _ _ _ H).
  split; [done|]. simpl. f_equal. apply mapM_Some in H. symmetry.
  by eapply Forall2_length.
Qed.

Lemma build_vision_content_ok_witness :
  build_vision_content (py "look")
    [ImageStr (py "http://a/1.png");
     ImageDict [(py "detail", py "low"); (py "url", py "http://a/2.png"); (py "alt", py "x")]]
  = inl [PartText (py "look");
         PartImageUrl (py "http://a/1.png") None None;
         PartImageUrl (py "http://a/2.png") (Some (py "low")) None].
Proof.
  apply (build_vision_content_ok (py "look")
           [ImageStr (py "http://a/1.png");
            ImageDict [(py "detail", py "low"); (py "url", py "http://a/2.png");
                       (py "alt", py "x")]]
           [PartImageUrl (py "http://a/1.png") None None;
            PartImageUrl (py "http://a/2.png") (Some (py "low")) None]).
  reflexivity.
Defined.

(** [build_vision_content] raises exactly when some image dict has no
    ["url"] key, and the error then lists the keys of the first such
    dict. *)
Theorem build_vision_content_error text images e :
  build_vision_content text images = inr e <->
  exists before d after,
    images = before ++ ImageDict d :: after
    /\ is_Some (mapM image_part before)
    /\ dict_get (py "url") d = None
    /\ e = mkInvalidImageDictError (dict_keys d).
Proof.
  unfold build_vision_content. generalize [PartText text].
  intros content. split.
  - revert content. induction images as [|item images IH]; intros content H; [done|].
    cbn [append_images] in H. destruct item as [url|d].
    + destruct (IH _ H) as (before & d & after & -> & [parts Hparts] & Hd & ->).
      exists (ImageStr url :: before), d, after. split; [done|]. split; [|done].
      exists (PartImageUrl url None None :: parts). cbn [mapM image_part].
      by rewrite Hparts.
    + destruct (dict_get (py "url") d) as [url|] eqn:Hurl.
      * destruct (IH _ H) as (before & d' & after & -> & [parts Hparts] & Hd & ->).
        exists (ImageDict d :: before), d', after. split; [done|]. split; [|done].
        eexists. cbn [mapM image_part]. rewrite Hurl. simpl. by rewrite Hparts.
      * injection H as <-. exists [], d, images. split; [done|]. split; [by eexists|done].
  - intros (before & d & after & -> & [parts Hparts] & Hd & ->).
    revert content parts Hparts.
    induction before as [|item before IH]; intros content parts Hparts.
    + cbn [app append_images]. by rewrite Hd.
    + cbn [app append_images]. cbn [mapM] in Hparts.
      destruct (image_part item) as [part|] eqn:Hitem; [|done]. simpl in Hparts.
      destruct (mapM image_part before) as [parts'|] eqn:Hbefore; [|done].
      destruct item as [url|d0]; simpl in Hitem.
      * by eapply IH.
      * destruct (dict_get (py "url") d0) as [url|]; [|done]. by eapply IH.
Qed.

(** ** Prompt components: [is_component_enabled] *)

(** The precedence of the environment over the overrides.  A component
    the environment does not allow is disabled whatever the overrides
    say, so with [ENABLED_PROMPTS] reading ["none"] in any case every
    component is; with [ENABLED_PROMPTS] unset or empty the override
    decides and a component without one is enabled; and a list allows
    the components whose name is one of its pieces, stripped and in
    lower case. *)
Theorem is_component_enabled_precedence str enabled_prompts component overrides :
  (is_prompt_allowed_by_env str enabled_prompts component = false ->
     is_component_enabled str enabled_prompts component overrides = false)
  /\ (enabled_prompts <> [] -> str_lower str enabled_prompts = py "none" ->
      is_component_enabled str enabled_prompts component overrides = false)
  /\ (enabled_prompts = [] ->
      is_component_enabled str enabled_prompts component overrides
        = default true (overrides ≫= override_of component))
  /\ (enabled_prompts <> [] -> str_lower str enabled_prompts <> py "none" ->
      (is_prompt_allowed_by_env str enabled_prompts component = true <->
       exists piece, piece ∈ split_commas [] enabled_prompts
         /\ str_lower str (str_strip str piece) = component_value component)).
Proof.
  split; [|split; [|split]].
  - intros H. unfold is_component_enabled. by rewrite H.
  - intros Hne Hnone. unfold is_component_enabled, is_prompt_allowed_by_env.
    destruct enabled_prompts; [done|]. by rewrite bool_decide_eq_true_2.
  - intros ->. unfold is_component_enabled. cbn [is_prompt_allowed_by_env negb].
    destruct overrides as [[|[c b] os]|]; [done| |done].
    cbn [mbind option_bind]. by destruct (override_of component ((c, b) :: os)).
  - intros Hne Hnone. unfold is_prompt_allowed_by_env.
    destruct enabled_prompts as [|c0 s0]; [done|].
    rewrite bool_decide_eq_false_2 by done.
    rewrite bool_decide_eq_true, list_elem_of_fmap. split.
    + intros (piece & Heq & Hin). by exists piece.
    + intros (piece & Hin & Heq). by exists piece.
Qed.

(** ** Attached files: [append_all_files_to_user_prompt] *)

Lemma append_files_ok io user_prompt file_paths texts :
  Forall2 (fun p t => read_file io p = inl t) file_paths texts ->
  append_files io user_prompt file_paths
  = inl (user_prompt ++ concat (zip_with (attached_file io) file_paths texts)).
Proof.
  intros H. revert user_prompt.
  induction H as [|p t file_paths texts Hp _ IH]; intros user_prompt.
  - by rewrite app_nil_r.
  - cbn [append_files]. unfold append_file_to_user_prompt. cbn beta in Hp. rewrite Hp.
    rewrite IH. cbn [zip_with concat]. unfold attached_file.
    by rewrite <- !app_assoc.
Qed.

(** When every file can be read, the prompt comes back followed by one
    attached-file block per path, in the order of the paths, each with
    the absolute path and the text of its file; the caller's prompt is a
    prefix of the result, and without paths ([None] or an empty list) it
    is the result. *)
Theorem append_all_files_to_user_prompt_ok io user_prompt file_paths texts :
  Forall2 (fun p t => read_file io p = inl t) (default [] file_paths) texts ->
  append_all_files_to_user_prompt io user_prompt file_paths
  = inl (user_prompt
           ++ concat (zip_with (attached_file io) (default [] file_paths) texts))
  /\ (default [] file_paths = [] ->
      append_all_files_to_user_prompt io user_prompt file_paths = inl user_prompt).
Proof.
  intros H. split.
  - destruct file_paths as [[|p ps]|]; cbn [default] in *.
    + apply Forall2_nil_inv_l in H as ->. simpl. by rewrite app_nil_r.
    + unfold append_all_files_to_user_prompt. by apply append_files_ok.
    + apply Forall2_nil_inv_l in H as ->. simpl. by rewrite app_nil_r.
  - by destruct file_paths as [[|p ps]|].
Qed.

Lemma append_all_files_to_user_prompt_ok_witness :
  append_all_files_to_user_prompt two_files (py "why?")
    (Some [[py "a.txt"]; [py "b.txt"]])
  = inl (py "why?"
           ++ attached_file two_files [py "a.txt"] (py "A")
           ++ attached_file two_files [py "b.txt"] (py "B")).
Proof.
  refine (eq_trans
    (proj1 (append_all_files_to_user_prompt_ok two_files (py "why?")
              (Some [[py "a.txt"]; [py "b.txt"]]) [py "A"; py "B"] _)) _).
  - repeat constructor.
  - reflexivity.
Defined.

Lemma append_files_error io paths prompt e :
  append_files io prompt paths = inr e <->
  exists before p after,
    paths = before ++ p :: after
    /\ Forall (fun q => exists t, read_file io q = inl t) before
    /\ read_file io p = inr e.
Proof.
  revert prompt. induction paths as [|q paths IH]; intros prompt.
  - split; [done|]. intros (before & p & after & H & _). by destruct before.
  - cbn [append_files]. unfold append_file_to_user_prompt.
    destruct (read_file io q) as [t|e'] eqn:Hq.
    + rewrite IH. split.
      * intros (before & p & after & -> & Hbefore & Hp).
        exists (q :: before), p, after. split; [done|]. split; [|done].
        constructor; [by exists t|done].
      * intros (before & p & after & Hsplit & Hbefore & Hp).
        destruct before as [|q' before].
        -- injection Hsplit as <- _. congruence.
        -- injection Hsplit as <- ->. exists before, p, after.
           split; [done|]. split; [|done]. by eapply list.Forall_cons_1.
    + split.
      * intros H. injection H as ->. exists [], q, paths. by repeat split.
      * intros (before & p & after & Hsplit & Hbefore & Hp).
        destruct before as [|q' before].
        -- injection Hsplit as <- _. congruence.
        -- injection Hsplit as <- _. apply list.Forall_cons_1 in Hbefore as [[t Ht] _].
           congruence.
Qed.

(** [append_all_files_to_user_prompt] raises exactly when some file
    cannot be read, and then with the exception of the first such file:
    the files after it are not looked at and no partial prompt is
    returned. *)
Theorem append_all_files_to_user_prompt_error io user_prompt file_paths e :
  append_all_files_to_user_prompt io user_prompt file_paths = inr e <->
  exists before p after,
    file_paths = Some (before ++ p :: after)
    /\ Forall (fun q => exists t, read_file io q = inl t) before
    /\ read_file io p = inr e.
Proof.
  destruct file_paths as [[|q paths]|].
  - split; [done|]. intros (before & p & after & H & _). injection H as H.
    by destruct before.
  - unfold append_all_files_to_user_prompt. rewrite append_files_error. split.
    + intros (before & p & after & -> & H). by exists before, p, after.
    + intros (before & p & after & H & H'). injection H as H.
      by exists before, p, after.
  - split; [done|]. by intros (before & p & after & H & _).
Qed.

(** ** The prompt builders: [build_user_prompt], [build_system_prompt],
    [build_initial_ask_messages] *)

Lemma is_component_enabled_env_off str enabled_prompts component overrides :
  is_prompt_allowed_by_env str enabled_prompts component = false ->
  is_component_enabled str enabled_prompts component overrides = false.
Proof. intros H. unfold is_component_enabled. by rewrite H. Qed.

Lemma is_prompt_allowed_by_env_none str enabled_prompts component :
  enabled_prompts <> [] -> str_lower str enabled_prompts = py "none" ->
  is_prompt_allowed_by_env str enabled_prompts component = false.
Proof.
  intros Hne Hnone. unfold is_prompt_allowed_by_env.
  destruct enabled_prompts; [done|]. by rewrite bool_decide_eq_true_2.
Qed.

(** When [ENABLED_PROMPTS] allows none of the three user prompt
    components, [build_user_prompt] passes the caller's prompt through
    as it is: no file is opened, so an unreadable file raises nothing,
    no reminder is added and the user template is not rendered,
    whatever the arguments and the overrides ask for.  Images are still
    attached. *)
Theorem build_user_prompt_disabled_by_env str enabled_prompts io generate user_prompt
    file_paths include_todowrite_reminder images overrides :
  is_prompt_allowed_by_env str enabled_prompts FILES = false ->
  is_prompt_allowed_by_env str enabled_prompts TODOWRITE_REMINDER = false ->
  is_prompt_allowed_by_env str enabled_prompts TIME_RUNBOOKS = false ->
  build_user_prompt str enabled_prompts io generate user_prompt file_paths
    include_todowrite_reminder images overrides
  = match images with
    | Some ((_ :: _) as images) =>
      match build_vision_content user_prompt images with
      | inl parts => inl (CParts parts)
      | inr e => inr (ImageError e)
      end
    | _ => inl (CText user_prompt)
    end.
Proof.
  intros Hf Hr Ht. unfold build_user_prompt.
  rewrite !(is_component_enabled_env_off _ _ _ _ Hf),
    !(is_component_enabled_env_off _ _ _ _ Hr),
    !(is_component_enabled_env_off _ _ _ _ Ht).
  rewrite andb_false_r. by destruct file_paths as [[|p ps]|].
Qed.

Lemma build_user_prompt_disabled_by_env_witness :
  build_user_prompt ascii_str (py "intro, AI_Safety") two_files framed (py "why?")
    (Some [[py "missing.txt"]]) true None [(FILES, true); (TIME_RUNBOOKS, true)]
  = inl (CText (py "why?")).
Proof.
  apply (build_user_prompt_disabled_by_env ascii_str (py "intro, AI_Safety") two_files
           framed (py "why?") (Some [[py "missing.txt"]]) true None
           [(FILES, true); (TIME_RUNBOOKS, true)]); reflexivity.
Defined.

(** The order of the enrichments of [build_user_prompt] when the files
    that are read can be read and every image has a url: the attached
    files come first, behind the caller's prompt, then the TodoWrite
    reminder, then the user template is rendered around the whole, and
    the images are attached to the rendered text.  Each step is taken
    only if its component is enabled; the result is a plain string
    unless there is an image. *)
Theorem build_user_prompt_ok str enabled_prompts io generate user_prompt file_paths
    include_todowrite_reminder images overrides texts parts :
  Forall2 (fun p t => read_file io p = inl t)
    (if is_component_enabled str enabled_prompts FILES (Some overrides)
     then default [] file_paths else []) texts ->
  mapM image_part (default [] images) = Some parts ->
  build_user_prompt str enabled_prompts io generate user_prompt file_paths
    include_todowrite_reminder images overrides
  = inl ((fun text => match parts with
                      | [] => CText text
                      | _ => CParts (PartText text :: parts)
                      end)
           ((if is_component_enabled str enabled_prompts TIME_RUNBOOKS (Some overrides)
             then generate else id)
              ((user_prompt
                  ++ concat (zip_with (attached_file io) (default [] file_paths) texts))
                 ++ (if include_todowrite_reminder
                        && is_component_enabled str enabled_prompts TODOWRITE_REMINDER
                             (Some overrides)
                     then get_tasks_management_system_reminder else [])))).
Proof.
  intros Hfiles Himages. unfold build_user_prompt.
  set (files_on := is_component_enabled str enabled_prompts FILES (Some overrides)) in *.
  set (reminder_on := include_todowrite_reminder
         && is_component_enabled str enabled_prompts TODOWRITE_REMINDER (Some overrides)).
  set (render_on := is_component_enabled str enabled_prompts TIME_RUNBOOKS (Some overrides)).
  assert (match file_paths with
          | Some (_ :: _) =>
            if files_on then append_all_files_to_user_prompt io user_prompt file_paths
            else inl user_prompt
          | _ => inl user_prompt
          end
          = inl (user_prompt
                   ++ concat (zip_with (attached_file io) (default [] file_paths) texts)))
    as ->.
  { destruct file_paths as [[|p ps]|]; cbn [default] in *.
    - destruct files_on; apply Forall2_nil_inv_l in Hfiles as ->; simpl;
        by rewrite app_nil_r.
    - destruct files_on.
      + unfold append_all_files_to_user_prompt. by apply append_files_ok.
      + apply Forall2_nil_inv_l in Hfiles as ->. cbn [zip_with concat].
        by rewrite app_nil_r.
    - destruct files_on; apply Forall2_nil_inv_l in Hfiles as ->; simpl;
        by rewrite app_nil_r. }
  set (text1 := user_prompt ++ _).
  assert ((if reminder_on then text1 ++ get_tasks_management_system_reminder else text1)
          = text1 ++ (if reminder_on then get_tasks_management_system_reminder else []))
    as -> by (destruct reminder_on; [done|by rewrite app_nil_r]).
  set (text2 := text1 ++ _).
  assert ((if render_on then generate text2 else text2)
          = (if render_on then generate else id) text2) as -> by by destruct render_on.
  set (text3 := (if render_on then generate else id) text2).
  destruct images as [[|i rest]|]; cbn [default from_option id] in Himages.
  - by injection Himages as <-.
  - unfold build_vision_content. rewrite (append_images_ok _ _ _ Himages).
    apply mapM_Some in Himages. by destruct parts; [inversion Himages|].
  - by injection Himages as <-.
Qed.

Lemma build_user_prompt_ok_witness :
  build_user_prompt ascii_str [] two_files framed (py "why?")
    (Some [[py "a.txt"]]) true (Some [ImageStr (py "http://a/1.png")])
    [(TIME_RUNBOOKS, true); (TODOWRITE_REMINDER, false)]
  = inl (CParts [PartText (framed (py "why?" ++ attached_file two_files [py "a.txt"] (py "A")));
                 PartImageUrl (py "http://a/1.png") None None]).
Proof.
  refine (eq_trans
    (build_user_prompt_ok ascii_str [] two_files framed (py "why?")
       (Some [[py "a.txt"]]) true (Some [ImageStr (py "http://a/1.png")])
       [(TIME_RUNBOOKS, true); (TODOWRITE_REMINDER, false)]
       [py "A"] [PartImageUrl (py "http://a/1.png") None None] _ _) _).
  - repeat constructor.
  - reflexivity.
  - reflexivity.
Defined.

(** With [ENABLED_PROMPTS] reading ["none"], the system prompt depends
    on nothing but the template: the toolsets, the runbooks, the cluster
    name, the additions, the ask-user flag and the overrides of the
    caller make no difference, because the template is rendered with
    every flag off, no cluster name, no toolsets and empty additions. *)
Theorem build_system_prompt_disabled_by_env {Toolset} str enabled_prompts
    (render : SystemPromptContext Toolset -> pystr)
    toolsets runbooks additions cluster_name ask_user_enabled overrides
    toolsets' runbooks' additions' cluster_name' ask_user_enabled' overrides' :
  enabled_prompts <> [] ->
  str_lower str enabled_prompts = py "none" ->
  build_system_prompt str enabled_prompts render toolsets runbooks additions cluster_name
    ask_user_enabled overrides
  = build_system_prompt str enabled_prompts render toolsets' runbooks' additions'
      cluster_name' ask_user_enabled' overrides'
  /\ build_system_prompt str enabled_prompts render toolsets runbooks additions cluster_name
       ask_user_enabled overrides
     = (fun result => match result, str_strip str result with
                      | _ :: _, _ :: _ => Some result
                      | _, _ => None
                      end)
         (render (mkSystemPromptContext false false false false false false false false
                    false None [] (Some []))).
Proof.
  intros Hne Hnone.
  assert (forall c ov, is_component_enabled str enabled_prompts c ov = false) as Hoff.
  { intros c ov. apply is_component_enabled_env_off.
    by apply is_prompt_allowed_by_env_none. }
  unfold build_system_prompt. rewrite !Hoff, !andb_false_r. done.
Qed.

Lemma build_system_prompt_disabled_by_env_witness :
  build_system_prompt ascii_str (py "NONE") cluster_template [tt] true (Some (py "extra"))
    (Some (py "prod")) true [(CLUSTER_NAME, true)]
  = build_system_prompt ascii_str (py "NONE") cluster_template [] false None None false [].
Proof.
  apply (build_system_prompt_disabled_by_env ascii_str (py "NONE") cluster_template
           [tt] true (Some (py "extra")) (Some (py "prod")) true [(CLUSTER_NAME, true)]
           [] false None None false []).
  - discriminate.
  - reflexivity.
Defined.

(** The messages of [build_initial_ask_messages]: one user message, with
    a system message in front of it exactly when the system template
    renders to something that is not blank.  The user content is always
    a string, never a list of parts, and, the rendering of the templates
    aside, the only exception that can come out is that of the first
    file that cannot be read. *)
Theorem build_initial_ask_messages_shape {Toolset} str enabled_prompts io
    (render : SystemPromptContext Toolset -> pystr) generate
    initial_user_prompt file_paths toolsets runbooks additions cluster_name overrides :
  match build_initial_ask_messages str enabled_prompts io render generate
          initial_user_prompt file_paths toolsets runbooks additions cluster_name
          overrides with
  | inl messages =>
    exists text,
      match build_system_prompt str enabled_prompts render toolsets runbooks additions
              cluster_name true (default [] overrides) with
      | Some system_prompt =>
        system_prompt <> [] /\ str_strip str system_prompt <> []
        /\ messages = [new_message (py "system") (CText system_prompt);
                       new_message (py "user") (CText text)]
      | None => messages = [new_message (py "user") (CText text)]
      end
  | inr e =>
    exists e' before p after,
      e = FileError e'
      /\ file_paths = Some (before ++ p :: after)
      /\ Forall (fun q => exists t, read_file io q = inl t) before
      /\ read_file io p = inr e'
  end.
Proof.
  unfold build_initial_ask_messages, build_prompts.
  set (ov := default [] overrides).
  assert (match build_system_prompt str enabled_prompts render toolsets runbooks additions
                  cluster_name true ov with
          | Some system_prompt => system_prompt <> [] /\ str_strip str system_prompt <> []
          | None => True
          end) as Hsys.
  { unfold build_system_prompt.
    destruct (render _) as [|c result]; [done|].
    destruct (str_strip str (c :: result)) eqn:Hstrip; [done|].
    split; [done|]. by rewrite Hstrip. }
  destruct (build_system_prompt str enabled_prompts render toolsets runbooks additions
              cluster_name true ov) as [system_prompt|].
  - unfold build_user_prompt.
    destruct (match file_paths with
              | Some (_ :: _) => _
              | _ => _
              end) as [text|e] eqn:Hfiles.
    + eexists. destruct Hsys as [Hne Hstrip]. split; [done|]. split; [done|].
      by destruct system_prompt.
    + exists e.
      destruct file_paths as [[|p ps]|]; [done| |done].
      destruct (is_component_enabled str enabled_prompts FILES (Some ov)); [|done].
      apply append_files_error in Hfiles as (before & q & after & -> & H2 & H3).
      by exists before, q, after.
  - unfold build_user_prompt.
    destruct (match file_paths with
              | Some (_ :: _) => _
              | _ => _
              end) as [text|e] eqn:Hfiles.
    + by eexists.
    + exists e.
      destruct file_paths as [[|p ps]|]; [done| |done].
      destruct (is_component_enabled str enabled_prompts FILES (Some ov)); [|done].
      apply append_files_error in Hfiles as (before & q & after & -> & H2 & H3).
      by exists before, q, after.
Qed.

(** ** A new general conversation: [build_chat_messages] without history *)

Lemma get_list_last r l (w : World) old :
  lists w = old ++ [l] -> r = length old -> get_list r w = Some (l, w).
Proof. intros Hw ->. apply get_list_run. rewrite Hw. by apply list_lookup_middle. Qed.

Lemma set_list_last r l l' (w : World) old :
  lists w = old ++ [l] -> r = length old ->
  set_list r l' w = Some (tt, with_lists (old ++ [l']) w).
Proof.
  intros Hw ->. erewrite set_list_run; [|rewrite Hw; by apply list_lookup_middle].
  rewrite Hw. rewrite insert_app_r_alt by done. by rewrite Nat.sub_diag.
Qed.

(** Decides the role tests of the messages that the code has just built. *)
Ltac decide_roles :=
  repeat match goal with
  | |- context [decide ?P] =>
    destruct (decide P) as [Hd|Hd];
      [try (vm_compute in Hd; discriminate Hd)
      |try (exfalso; apply Hd; reflexivity)]
  end.

(** [build_chat_messages] without a history ([None]): the result is a
    new list of new dicts, the system message when [build_prompts]
    returns a system prompt, an empty one included, and the user turn
    behind it; the accountant is never called, and no dict, list or tool
    object that existed is changed. *)
Theorem build_chat_messages_new_conversation build_prompts ask ai w :
  exists c w',
    build_chat_messages build_prompts ask None ai w = Some (c, w')
    /\ c = length (lists w)
    /\ dicts w'
       = dicts w
           ++ match fst (build_prompts ask) with
              | Some prompt => [new_message (py "system") (CText prompt)]
              | None => []
              end
           ++ [new_message (py "user") (snd (build_prompts ask))]
    /\ lists w'
       = lists w
           ++ [seq (length (dicts w))
                 (match fst (build_prompts ask) with Some _ => 2 | None => 1 end)]
    /\ llm_calls w' = llm_calls w
    /\ tool_objs w' = tool_objs w.
Proof.
  unfold build_chat_messages.
  destruct (build_prompts ask) as [[prompt|] uc]; cbn [fst snd].
  - set (sys := new_message (py "system") (CText prompt)).
    set (user := new_message (py "user") uc).
    set (l := length (dicts w)).
    exists (length (lists w)),
      (with_lists (lists w ++ [[l; S l]]) (with_dicts (dicts w ++ [sys; user]) w)).
    split; [|done].
    eapply bind_run_eq; [reflexivity|].
    eapply bind_run_eq.
    { unfold add_or_update_system_prompt.
      eapply bind_run_eq; [by eapply get_list_last|]. cbn beta match.
      eapply bind_run_eq; [|reflexivity].
      eapply bind_run_eq; [reflexivity|].
      by eapply set_list_last. }
    eapply bind_run_eq; [reflexivity|].
    eapply bind_run_eq; [by eapply get_list_last|].
    eapply bind_run_eq; [by eapply set_list_last|].
    eapply bind_run_eq; [by eapply get_list_last|].
    eapply bind_run_eq.
    { apply deref_all_run. unfold messages_at.
      cbn [mapM dicts lists with_dicts with_lists app].
      rewrite length_app, Nat.add_1_r. fold l.
      rewrite <- app_assoc. cbn [app].
      rewrite (list_lookup_middle (dicts w) _ _ l eq_refl).
      rewrite lookup_app_r by (unfold l; lia).
      replace (S l - length (dicts w))%nat with 1%nat by (unfold l; lia).
      reflexivity. }
    cbn [filter list_filter]. decide_roles.
    unfold ret. cbn [length Z.of_nat Z.eqb].
    do 2 f_equal. unfold with_lists, with_dicts; simpl.
    rewrite length_app, Nat.add_1_r, <- app_assoc. reflexivity.
  - set (user := new_message (py "user") uc).
    set (l := length (dicts w)).
    exists (length (lists w)),
      (with_lists (lists w ++ [[l]]) (with_dicts (dicts w ++ [user]) w)).
    split; [|done].
    eapply bind_run_eq; [reflexivity|].
    eapply bind_run_eq; [reflexivity|].
    eapply bind_run_eq; [reflexivity|].
    eapply bind_run_eq; [by eapply get_list_last|].
    eapply bind_run_eq; [by eapply set_list_last|].
    eapply bind_run_eq; [by eapply get_list_last|].
    eapply bind_run_eq.
    { apply deref_all_run. unfold messages_at.
      cbn [mapM dicts lists with_dicts with_lists app].
      fold l. rewrite list_lookup_middle by done. reflexivity. }
    cbn [filter list_filter]. decide_roles.
    reflexivity.
Qed.
